(** * Smart farming controller: sensor validation, irrigation decision, safety supervisor

    A shallow embedding of the control core of the ESP32 smart farming
    firmware, and the properties of its specification that concern it.

    Two build variants are embedded, each in a module of its own:
    - [SmartFarmingOnline]: MainCode/smart_farming_online.ino, with the whole
      control cycle ([loop]) and everything it calls that touches the
      irrigation, validation or safety state;
    - [Online]: MainCode/online/online.ino, for the functions in which it
      differs and that the properties below mention ([readSensors],
      [validateSensorReadings], [controlIrrigation], [startIrrigation],
      [stopIrrigation]).

    Conventions of the embedding.
    - The firmware is built for the setup type that config.h selects
      (POTENTIOMETER_IOT: DHT22, no LDR, LCD 1602, potentiometer control).
    - [int] and [long] are 32-bit on the ESP32; they are integers of [Z] and
      every arithmetic operation is followed by its wrap-around ([wrap_int]).
      [unsigned long] is [Z] modulo 2^32 ([wrap_ulong]).
    - [float] values are exact rationals ([Q]); a DHT reading is [None] when
      the driver reports NaN.  Binary rounding is not modelled.
    - The globals are one [Machine]: the two structs, [currentTime] and the
      output latch of the relay pin.  A function of the firmware is a command
      [Cmd]: it maps a machine to the next machine and the list of relay
      writes it performed.
    - Display, serial, WiFi, cloud, OTA, LED and logging code writes none of
      the fields kept here and is left out, with the struct fields that only
      it uses (wifiConnected, lastDisplayUpdate, lastDataTransmission,
      lastWiFiCheck, displayScreen, transmissionErrors, adafruitIOErrors and
      the two status strings). *)

From Stdlib Require Import ZArith QArith Bool List String Lia.
Import ListNotations.

Local Open Scope Z_scope.

(* ========================================================================= *)
(** ** Machine integers *)
(* ========================================================================= *)

Definition INT_MIN : Z := -2147483648.
Definition INT_MAX : Z := 2147483647.

(** Wrap-around of a 32-bit two's complement [int] / [long]. *)
Definition wrap_int (z : Z) : Z := (z + 2147483648) mod 4294967296 - 2147483648.

(** Wrap-around of a 32-bit [unsigned long]. *)
Definition wrap_ulong (z : Z) : Z := z mod 4294967296.

Definition int_add (a b : Z) : Z := wrap_int (a + b).
Definition int_sub (a b : Z) : Z := wrap_int (a - b).
Definition int_mul (a b : Z) : Z := wrap_int (a * b).
(** C division truncates toward zero. *)
Definition int_div (a b : Z) : Z := wrap_int (Z.quot a b).
(** C remainder has the sign of the dividend. *)
Definition int_rem (a b : Z) : Z := wrap_int (Z.rem a b).
(** [x++] on an [int]. *)
Definition int_incr (a : Z) : Z := int_add a 1.

(** [a - b] on [unsigned long]: the elapsed time between two readings of
    [millis()], whatever the counter did in between. *)
Definition ulong_sub (a b : Z) : Z := wrap_ulong (a - b).

(** The value range of an [int]. *)
Definition int_range (z : Z) : Prop := INT_MIN <= z <= INT_MAX.

(** [(int) f] for a float [f]: truncation toward zero. *)
Definition float_to_int (f : Q) : Z := wrap_int (Z.quot (Qnum f) (Zpos (Qden f))).

(* ========================================================================= *)
(** ** Arduino core functions used by the sketch *)
(* ========================================================================= *)

Module Arduino.

(** [long map(long x, long in_min, long in_max, long out_min, long out_max)]:
    [(x - in_min) * (out_max - out_min) / (in_max - in_min) + out_min]. *)
Definition map (x in_min in_max out_min out_max : Z) : Z :=
  int_add (int_div (int_mul (int_sub x in_min) (int_sub out_max out_min))
                   (int_sub in_max in_min))
          out_min.

(** [constrain(amt, low, high)]:
    [((amt) < (low) ? (low) : ((amt) > (high) ? (high) : (amt)))]. *)
Definition constrain (amt low high : Z) : Z :=
  if amt <? low then low else if high <? amt then high else amt.

(** [abs(x)]: [((x) > 0 ? (x) : -(x))]. *)
Definition abs (x : Z) : Z := if 0 <? x then x else wrap_int (- x).

End Arduino.

(* ========================================================================= *)
(** ** config.h *)
(* ========================================================================= *)

Definition SOIL_MOISTURE_THRESHOLD : Z := 30.
Definition IRRIGATION_DURATION : Z := 5000.
Definition IRRIGATION_COOLDOWN : Z := 300000.
Definition MAX_DAILY_IRRIGATIONS : Z := 10.

Definition POTENTIOMETER_UPDATE_INTERVAL : Z := 100.
Definition POTENTIOMETER_MIN_THRESHOLD : Z := 5.
Definition POTENTIOMETER_MAX_THRESHOLD : Z := 50.

Definition SOIL_MOISTURE_DRY_VALUE : Z := 4095.
Definition SOIL_MOISTURE_WET_VALUE : Z := 0.
Definition LDR_DARK_VALUE : Z := 4095.
Definition LDR_BRIGHT_VALUE : Z := 0.

Definition MIN_TEMPERATURE : Q := (-10) # 1.
Definition MAX_TEMPERATURE : Q := 60 # 1.
Definition MIN_HUMIDITY : Q := 0 # 1.
Definition MAX_HUMIDITY : Q := 100 # 1.
Definition MIN_SOIL_MOISTURE : Q := 0 # 1.
Definition MAX_SOIL_MOISTURE : Q := 100 # 1.
Definition MIN_LIGHT_LEVEL : Q := 0 # 1.
Definition MAX_LIGHT_LEVEL : Q := 100 # 1.

Definition TEMPERATURE_VALIDATION : bool := true.
Definition HUMIDITY_VALIDATION : bool := true.
Definition SOIL_MOISTURE_VALIDATION : bool := true.
Definition LIGHT_VALIDATION : bool := true.
Definition MAX_SOIL_MOISTURE_CHANGE : Z := 20.
Definition MAX_LIGHT_CHANGE : Z := 30.

Definition SENSOR_CONSISTENCY_CHECKS : Z := 3.
Definition SENSOR_CONSISTENCY_THRESHOLD : Z := 5.
Definition CONSISTENCY_VALIDATION : bool := true.

Definition SENSOR_READ_INTERVAL : Z := 5000.
Definition STATUS_CHECK_INTERVAL : Z := 1000.
Definition MAX_SENSOR_ERRORS : Z := 5.

Definition WATCHDOG_ENABLED : bool := true.
Definition PUMP_RUNTIME_PROTECTION : bool := true.
Definition MAX_PUMP_RUNTIME : Z := 300000.
Definition EMERGENCY_STOP_ENABLED : bool := true.
Definition AUTO_RECOVERY_ENABLED : bool := true.
Definition RECOVERY_ATTEMPTS : Z := 3.
Definition DISCONNECT_DETECTION : bool := true.
Definition SENSOR_DISCONNECT_THRESHOLD : Z := 10.

(** [CONTROL_ENABLED] is [(CONTROL_TYPE != CONTROL_NONE)], and the selected
    setup type has [CONTROL_TYPE == CONTROL_POTENTIOMETER]. *)
Definition CONTROL_ENABLED : bool := true.
(** [LDR_ENABLED] is [(LDR_SENSOR_TYPE != LDR_NONE)]; the selected setup type
    has no LDR. *)
Definition LDR_ENABLED : bool := false.

(* ========================================================================= *)
(** ** Validation helpers shared by the two sketches *)
(* ========================================================================= *)

(** [bool isSensorReadingValid(float value, float minVal, float maxVal, bool enabled)] *)
Definition isSensorReadingValid (value minVal maxVal : Q) (enabled : bool) : bool :=
  if negb enabled then true
  else Qle_bool minVal value && Qle_bool value maxVal.

(** The [for] loop of [checkSensorConsistency]: [n] iterations left, index [i],
    accumulator [sum]; an index outside the list reads 0. *)
Fixpoint sumReadings (n : nat) (readings : list Z) (i : nat) (sum : Z) : Z :=
  match n with
  | O => sum
  | S n' => sumReadings n' readings (S i) (int_add sum (nth i readings 0))
  end.

(** [bool checkSensorConsistency(int readings[], int newReading)] *)
Definition checkSensorConsistency (readings : list Z) (newReading : Z) : bool :=
  let sum := sumReadings (Z.to_nat SENSOR_CONSISTENCY_CHECKS) readings 0 0 in
  let average := int_div sum SENSOR_CONSISTENCY_CHECKS in
  let deviation := Arduino.abs (int_sub newReading average) in
  deviation <=? SENSOR_CONSISTENCY_THRESHOLD.

(** [readings[index] = x]; a store outside the array is undefined in C++ and
    leaves the list as it is here. *)
Fixpoint array_store (readings : list Z) (index : nat) (x : Z) : list Z :=
  match readings, index with
  | [], _ => []
  | _ :: rest, O => x :: rest
  | r :: rest, S index' => r :: array_store rest index' x
  end.

Definition array_set (readings : list Z) (index : Z) (x : Z) : list Z :=
  if index <? 0 then readings else array_store readings (Z.to_nat index) x.

(* ========================================================================= *)
(** ** Commands: state passing with a trace of relay writes *)
(* ========================================================================= *)

(** A write to RELAY_PIN: [true] is HIGH (pump on), [false] is LOW. *)
Inductive Event : Type :=
| RelayWrite (level : bool).

Definition HIGH : bool := true.
Definition LOW : bool := false.

Section Commands.
Context {M : Type}.

Definition Cmd : Type := M -> M * list Event.

Definition exec (c : Cmd) (m : M) : M := fst (c m).
Definition out (c : Cmd) (m : M) : list Event := snd (c m).

Definition skip : Cmd := fun m => (m, []).

Definition seq (a b : Cmd) : Cmd :=
  fun m => let (m1, e1) := a m in
           let (m2, e2) := b m1 in
           (m2, e1 ++ e2).

(** [if (c) { a } else { b }] *)
Definition ifc (c : M -> bool) (a b : Cmd) : Cmd :=
  fun m => if c m then a m else b m.

(** [if (c) { a }] *)
Definition when (c : M -> bool) (a : Cmd) : Cmd := ifc c a skip.

(** An assignment to the globals, with no output. *)
Definition assign (f : M -> M) : Cmd := fun m => (f m, []).

(** The cycles of a run, one command per input. *)
Fixpoint iterate {I : Type} (step : I -> Cmd) (inputs : list I) : Cmd :=
  match inputs with
  | [] => skip
  | i :: rest => seq (step i) (iterate step rest)
  end.
End Commands.

Arguments Cmd : clear implicits.

Declare Scope cmd_scope.
Delimit Scope cmd_scope with cmd.
Notation "a ;; b" := (seq a b) (at level 61, right associativity) : cmd_scope.

(* ========================================================================= *)
(** ** MainCode/smart_farming_online.ino *)
(* ========================================================================= *)

Module SmartFarmingOnline.

(** [struct SystemState], [struct SensorValidation] and the globals. *)

Record SystemState : Type := Build_SystemState {
  temperature : Q;  (* float *)
  humidity : Q;  (* float *)
  soilMoistureRaw : Z;  (* int *)
  soilMoisturePercent : Z;  (* int *)
  pumpActive : bool;
  systemOK : bool;
  emergencyStop : bool;
  lastIrrigation : Z;  (* unsigned long *)
  pumpStartTime : Z;  (* unsigned long *)
  dailyIrrigations : Z;  (* int *)
  lastSensorRead : Z;  (* unsigned long *)
  sensorErrors : Z;  (* int *)
  recoveryAttempts : Z;  (* int *)
  lastErrorCheck : Z;  (* unsigned long *)
  lastWatchdogFeed : Z;  (* unsigned long *)
  potentiometerValue : Z;  (* int *)
  adjustedThreshold : Z;  (* int *)
  lastPotentiometerRead : Z  (* unsigned long *)
}.

Definition set_temperature (x : Q) (s : SystemState) : SystemState :=
  {| temperature := x; humidity := humidity s; soilMoistureRaw := soilMoistureRaw s;
     soilMoisturePercent := soilMoisturePercent s; pumpActive := pumpActive s;
     systemOK := systemOK s; emergencyStop := emergencyStop s;
     lastIrrigation := lastIrrigation s; pumpStartTime := pumpStartTime s;
     dailyIrrigations := dailyIrrigations s; lastSensorRead := lastSensorRead s;
     sensorErrors := sensorErrors s; recoveryAttempts := recoveryAttempts s;
     lastErrorCheck := lastErrorCheck s; lastWatchdogFeed := lastWatchdogFeed s;
     potentiometerValue := potentiometerValue s;
     adjustedThreshold := adjustedThreshold s;
     lastPotentiometerRead := lastPotentiometerRead s |}.

Definition set_humidity (x : Q) (s : SystemState) : SystemState :=
  {| temperature := temperature s; humidity := x; soilMoistureRaw := soilMoistureRaw s;
     soilMoisturePercent := soilMoisturePercent s; pumpActive := pumpActive s;
     systemOK := systemOK s; emergencyStop := emergencyStop s;
     lastIrrigation := lastIrrigation s; pumpStartTime := pumpStartTime s;
     dailyIrrigations := dailyIrrigations s; lastSensorRead := lastSensorRead s;
     sensorErrors := sensorErrors s; recoveryAttempts := recoveryAttempts s;
     lastErrorCheck := lastErrorCheck s; lastWatchdogFeed := lastWatchdogFeed s;
     potentiometerValue := potentiometerValue s;
     adjustedThreshold := adjustedThreshold s;
     lastPotentiometerRead := lastPotentiometerRead s |}.

Definition set_soilMoistureRaw (x : Z) (s : SystemState) : SystemState :=
  {| temperature := temperature s; humidity := humidity s; soilMoistureRaw := x;
     soilMoisturePercent := soilMoisturePercent s; pumpActive := pumpActive s;
     systemOK := systemOK s; emergencyStop := emergencyStop s;
     lastIrrigation := lastIrrigation s; pumpStartTime := pumpStartTime s;
     dailyIrrigations := dailyIrrigations s; lastSensorRead := lastSensorRead s;
     sensorErrors := sensorErrors s; recoveryAttempts := recoveryAttempts s;
     lastErrorCheck := lastErrorCheck s; lastWatchdogFeed := lastWatchdogFeed s;
     potentiometerValue := potentiometerValue s;
     adjustedThreshold := adjustedThreshold s;
     lastPotentiometerRead := lastPotentiometerRead s |}.

Definition set_soilMoisturePercent (x : Z) (s : SystemState) : SystemState :=
  {| temperature := temperature s; humidity := humidity s;
     soilMoistureRaw := soilMoistureRaw s; soilMoisturePercent := x;
     pumpActive := pumpActive s; systemOK := systemOK s;
     emergencyStop := emergencyStop s; lastIrrigation := lastIrrigation s;
     pumpStartTime := pumpStartTime s; dailyIrrigations := dailyIrrigations s;
     lastSensorRead := lastSensorRead s; sensorErrors := sensorErrors s;
     recoveryAttempts := recoveryAttempts s; lastErrorCheck := lastErrorCheck s;
     lastWatchdogFeed := lastWatchdogFeed s; potentiometerValue := potentiometerValue s;
     adjustedThreshold := adjustedThreshold s;
     lastPotentiometerRead := lastPotentiometerRead s |}.

Definition set_pumpActive (x : bool) (s : SystemState) : SystemState :=
  {| temperature := temperature s; humidity := humidity s;
     soilMoistureRaw := soilMoistureRaw s; soilMoisturePercent := soilMoisturePercent s;
     pumpActive := x; systemOK := systemOK s; emergencyStop := emergencyStop s;
     lastIrrigation := lastIrrigation s; pumpStartTime := pumpStartTime s;
     dailyIrrigations := dailyIrrigations s; lastSensorRead := lastSensorRead s;
     sensorErrors := sensorErrors s; recoveryAttempts := recoveryAttempts s;
     lastErrorCheck := lastErrorCheck s; lastWatchdogFeed := lastWatchdogFeed s;
     potentiometerValue := potentiometerValue s;
     adjustedThreshold := adjustedThreshold s;
     lastPotentiometerRead := lastPotentiometerRead s |}.

Definition set_systemOK (x : bool) (s : SystemState) : SystemState :=
  {| temperature := temperature s; humidity := humidity s;
     soilMoistureRaw := soilMoistureRaw s; soilMoisturePercent := soilMoisturePercent s;
     pumpActive := pumpActive s; systemOK := x; emergencyStop := emergencyStop s;
     lastIrrigation := lastIrrigation s; pumpStartTime := pumpStartTime s;
     dailyIrrigations := dailyIrrigations s; lastSensorRead := lastSensorRead s;
     sensorErrors := sensorErrors s; recoveryAttempts := recoveryAttempts s;
     lastErrorCheck := lastErrorCheck s; lastWatchdogFeed := lastWatchdogFeed s;
     potentiometerValue := potentiometerValue s;
     adjustedThreshold := adjustedThreshold s;
     lastPotentiometerRead := lastPotentiometerRead s |}.

Definition set_emergencyStop (x : bool) (s : SystemState) : SystemState :=
  {| temperature := temperature s; humidity := humidity s;
     soilMoistureRaw := soilMoistureRaw s; soilMoisturePercent := soilMoisturePercent s;
     pumpActive := pumpActive s; systemOK := systemOK s; emergencyStop := x;
     lastIrrigation := lastIrrigation s; pumpStartTime := pumpStartTime s;
     dailyIrrigations := dailyIrrigations s; lastSensorRead := lastSensorRead s;
     sensorErrors := sensorErrors s; recoveryAttempts := recoveryAttempts s;
     lastErrorCheck := lastErrorCheck s; lastWatchdogFeed := lastWatchdogFeed s;
     potentiometerValue := potentiometerValue s;
     adjustedThreshold := adjustedThreshold s;
     lastPotentiometerRead := lastPotentiometerRead s |}.

Definition set_lastIrrigation (x : Z) (s : SystemState) : SystemState :=
  {| temperature := temperature s; humidity := humidity s;
     soilMoistureRaw := soilMoistureRaw s; soilMoisturePercent := soilMoisturePercent s;
     pumpActive := pumpActive s; systemOK := systemOK s;
     emergencyStop := emergencyStop s; lastIrrigation := x;
     pumpStartTime := pumpStartTime s; dailyIrrigations := dailyIrrigations s;
     lastSensorRead := lastSensorRead s; sensorErrors := sensorErrors s;
     recoveryAttempts := recoveryAttempts s; lastErrorCheck := lastErrorCheck s;
     lastWatchdogFeed := lastWatchdogFeed s; potentiometerValue := potentiometerValue s;
     adjustedThreshold := adjustedThreshold s;
     lastPotentiometerRead := lastPotentiometerRead s |}.

Definition set_pumpStartTime (x : Z) (s : SystemState) : SystemState :=
  {| temperature := temperature s; humidity := humidity s;
     soilMoistureRaw := soilMoistureRaw s; soilMoisturePercent := soilMoisturePercent s;
     pumpActive := pumpActive s; systemOK := systemOK s;
     emergencyStop := emergencyStop s; lastIrrigation := lastIrrigation s;
     pumpStartTime := x; dailyIrrigations := dailyIrrigations s;
     lastSensorRead := lastSensorRead s; sensorErrors := sensorErrors s;
     recoveryAttempts := recoveryAttempts s; lastErrorCheck := lastErrorCheck s;
     lastWatchdogFeed := lastWatchdogFeed s; potentiometerValue := potentiometerValue s;
     adjustedThreshold := adjustedThreshold s;
     lastPotentiometerRead := lastPotentiometerRead s |}.

Definition set_dailyIrrigations (x : Z) (s : SystemState) : SystemState :=
  {| temperature := temperature s; humidity := humidity s;
     soilMoistureRaw := soilMoistureRaw s; soilMoisturePercent := soilMoisturePercent s;
     pumpActive := pumpActive s; systemOK := systemOK s;
     emergencyStop := emergencyStop s; lastIrrigation := lastIrrigation s;
     pumpStartTime := pumpStartTime s; dailyIrrigations := x;
     lastSensorRead := lastSensorRead s; sensorErrors := sensorErrors s;
     recoveryAttempts := recoveryAttempts s; lastErrorCheck := lastErrorCheck s;
     lastWatchdogFeed := lastWatchdogFeed s; potentiometerValue := potentiometerValue s;
     adjustedThreshold := adjustedThreshold s;
     lastPotentiometerRead := lastPotentiometerRead s |}.

Definition set_lastSensorRead (x : Z) (s : SystemState) : SystemState :=
  {| temperature := temperature s; humidity := humidity s;
     soilMoistureRaw := soilMoistureRaw s; soilMoisturePercent := soilMoisturePercent s;
     pumpActive := pumpActive s; systemOK := systemOK s;
     emergencyStop := emergencyStop s; lastIrrigation := lastIrrigation s;
     pumpStartTime := pumpStartTime s; dailyIrrigations := dailyIrrigations s;
     lastSensorRead := x; sensorErrors := sensorErrors s;
     recoveryAttempts := recoveryAttempts s; lastErrorCheck := lastErrorCheck s;
     lastWatchdogFeed := lastWatchdogFeed s; potentiometerValue := potentiometerValue s;
     adjustedThreshold := adjustedThreshold s;
     lastPotentiometerRead := lastPotentiometerRead s |}.

Definition set_sensorErrors (x : Z) (s : SystemState) : SystemState :=
  {| temperature := temperature s; humidity := humidity s;
     soilMoistureRaw := soilMoistureRaw s; soilMoisturePercent := soilMoisturePercent s;
     pumpActive := pumpActive s; systemOK := systemOK s;
     emergencyStop := emergencyStop s; lastIrrigation := lastIrrigation s;
     pumpStartTime := pumpStartTime s; dailyIrrigations := dailyIrrigations s;
     lastSensorRead := lastSensorRead s; sensorErrors := x;
     recoveryAttempts := recoveryAttempts s; lastErrorCheck := lastErrorCheck s;
     lastWatchdogFeed := lastWatchdogFeed s; potentiometerValue := potentiometerValue s;
     adjustedThreshold := adjustedThreshold s;
     lastPotentiometerRead := lastPotentiometerRead s |}.

Definition set_recoveryAttempts (x : Z) (s : SystemState) : SystemState :=
  {| temperature := temperature s; humidity := humidity s;
     soilMoistureRaw := soilMoistureRaw s; soilMoisturePercent := soilMoisturePercent s;
     pumpActive := pumpActive s; systemOK := systemOK s;
     emergencyStop := emergencyStop s; lastIrrigation := lastIrrigation s;
     pumpStartTime := pumpStartTime s; dailyIrrigations := dailyIrrigations s;
     lastSensorRead := lastSensorRead s; sensorErrors := sensorErrors s;
     recoveryAttempts := x; lastErrorCheck := lastErrorCheck s;
     lastWatchdogFeed := lastWatchdogFeed s; potentiometerValue := potentiometerValue s;
     adjustedThreshold := adjustedThreshold s;
     lastPotentiometerRead := lastPotentiometerRead s |}.

Definition set_lastErrorCheck (x : Z) (s : SystemState) : SystemState :=
  {| temperature := temperature s; humidity := humidity s;
     soilMoistureRaw := soilMoistureRaw s; soilMoisturePercent := soilMoisturePercent s;
     pumpActive := pumpActive s; systemOK := systemOK s;
     emergencyStop := emergencyStop s; lastIrrigation := lastIrrigation s;
     pumpStartTime := pumpStartTime s; dailyIrrigations := dailyIrrigations s;
     lastSensorRead := lastSensorRead s; sensorErrors := sensorErrors s;
     recoveryAttempts := recoveryAttempts s; lastErrorCheck := x;
     lastWatchdogFeed := lastWatchdogFeed s; potentiometerValue := potentiometerValue s;
     adjustedThreshold := adjustedThreshold s;
     lastPotentiometerRead := lastPotentiometerRead s |}.

Definition set_lastWatchdogFeed (x : Z) (s : SystemState) : SystemState :=
  {| temperature := temperature s; humidity := humidity s;
     soilMoistureRaw := soilMoistureRaw s; soilMoisturePercent := soilMoisturePercent s;
     pumpActive := pumpActive s; systemOK := systemOK s;
     emergencyStop := emergencyStop s; lastIrrigation := lastIrrigation s;
     pumpStartTime := pumpStartTime s; dailyIrrigations := dailyIrrigations s;
     lastSensorRead := lastSensorRead s; sensorErrors := sensorErrors s;
     recoveryAttempts := recoveryAttempts s; lastErrorCheck := lastErrorCheck s;
     lastWatchdogFeed := x; potentiometerValue := potentiometerValue s;
     adjustedThreshold := adjustedThreshold s;
     lastPotentiometerRead := lastPotentiometerRead s |}.

Definition set_potentiometerValue (x : Z) (s : SystemState) : SystemState :=
  {| temperature := temperature s; humidity := humidity s;
     soilMoistureRaw := soilMoistureRaw s; soilMoisturePercent := soilMoisturePercent s;
     pumpActive := pumpActive s; systemOK := systemOK s;
     emergencyStop := emergencyStop s; lastIrrigation := lastIrrigation s;
     pumpStartTime := pumpStartTime s; dailyIrrigations := dailyIrrigations s;
     lastSensorRead := lastSensorRead s; sensorErrors := sensorErrors s;
     recoveryAttempts := recoveryAttempts s; lastErrorCheck := lastErrorCheck s;
     lastWatchdogFeed := lastWatchdogFeed s; potentiometerValue := x;
     adjustedThreshold := adjustedThreshold s;
     lastPotentiometerRead := lastPotentiometerRead s |}.

Definition set_adjustedThreshold (x : Z) (s : SystemState) : SystemState :=
  {| temperature := temperature s; humidity := humidity s;
     soilMoistureRaw := soilMoistureRaw s; soilMoisturePercent := soilMoisturePercent s;
     pumpActive := pumpActive s; systemOK := systemOK s;
     emergencyStop := emergencyStop s; lastIrrigation := lastIrrigation s;
     pumpStartTime := pumpStartTime s; dailyIrrigations := dailyIrrigations s;
     lastSensorRead := lastSensorRead s; sensorErrors := sensorErrors s;
     recoveryAttempts := recoveryAttempts s; lastErrorCheck := lastErrorCheck s;
     lastWatchdogFeed := lastWatchdogFeed s; potentiometerValue := potentiometerValue s;
     adjustedThreshold := x; lastPotentiometerRead := lastPotentiometerRead s |}.

Definition set_lastPotentiometerRead (x : Z) (s : SystemState) : SystemState :=
  {| temperature := temperature s; humidity := humidity s;
     soilMoistureRaw := soilMoistureRaw s; soilMoisturePercent := soilMoisturePercent s;
     pumpActive := pumpActive s; systemOK := systemOK s;
     emergencyStop := emergencyStop s; lastIrrigation := lastIrrigation s;
     pumpStartTime := pumpStartTime s; dailyIrrigations := dailyIrrigations s;
     lastSensorRead := lastSensorRead s; sensorErrors := sensorErrors s;
     recoveryAttempts := recoveryAttempts s; lastErrorCheck := lastErrorCheck s;
     lastWatchdogFeed := lastWatchdogFeed s; potentiometerValue := potentiometerValue s;
     adjustedThreshold := adjustedThreshold s; lastPotentiometerRead := x |}.

Record SensorValidation : Type := Build_SensorValidation {
  lastTemperature : Q;  (* float *)
  lastHumidity : Q;  (* float *)
  lastSoilMoisture : Z;  (* int *)
  temperatureReadings : list Z;  (* int[SENSOR_CONSISTENCY_CHECKS] *)
  humidityReadings : list Z;  (* int[SENSOR_CONSISTENCY_CHECKS] *)
  soilMoistureReadings : list Z;  (* int[SENSOR_CONSISTENCY_CHECKS] *)
  readingIndex : Z;  (* int *)
  temperatureValid : bool;
  humidityValid : bool;
  soilMoistureValid : bool;
  disconnectCount : Z  (* int *)
}.

Definition set_lastTemperature (x : Q) (s : SensorValidation) : SensorValidation :=
  {| lastTemperature := x; lastHumidity := lastHumidity s;
     lastSoilMoisture := lastSoilMoisture s;
     temperatureReadings := temperatureReadings s;
     humidityReadings := humidityReadings s;
     soilMoistureReadings := soilMoistureReadings s; readingIndex := readingIndex s;
     temperatureValid := temperatureValid s; humidityValid := humidityValid s;
     soilMoistureValid := soilMoistureValid s; disconnectCount := disconnectCount s |}.

Definition set_lastHumidity (x : Q) (s : SensorValidation) : SensorValidation :=
  {| lastTemperature := lastTemperature s; lastHumidity := x;
     lastSoilMoisture := lastSoilMoisture s;
     temperatureReadings := temperatureReadings s;
     humidityReadings := humidityReadings s;
     soilMoistureReadings := soilMoistureReadings s; readingIndex := readingIndex s;
     temperatureValid := temperatureValid s; humidityValid := humidityValid s;
     soilMoistureValid := soilMoistureValid s; disconnectCount := disconnectCount s |}.

Definition set_lastSoilMoisture (x : Z) (s : SensorValidation) : SensorValidation :=
  {| lastTemperature := lastTemperature s; lastHumidity := lastHumidity s;
     lastSoilMoisture := x; temperatureReadings := temperatureReadings s;
     humidityReadings := humidityReadings s;
     soilMoistureReadings := soilMoistureReadings s; readingIndex := readingIndex s;
     temperatureValid := temperatureValid s; humidityValid := humidityValid s;
     soilMoistureValid := soilMoistureValid s; disconnectCount := disconnectCount s |}.

Definition set_temperatureReadings (x : list Z) (s : SensorValidation) : SensorValidation :=
  {| lastTemperature := lastTemperature s; lastHumidity := lastHumidity s;
     lastSoilMoisture := lastSoilMoisture s; temperatureReadings := x;
     humidityReadings := humidityReadings s;
     soilMoistureReadings := soilMoistureReadings s; readingIndex := readingIndex s;
     temperatureValid := temperatureValid s; humidityValid := humidityValid s;
     soilMoistureValid := soilMoistureValid s; disconnectCount := disconnectCount s |}.

Definition set_humidityReadings (x : list Z) (s : SensorValidation) : SensorValidation :=
  {| lastTemperature := lastTemperature s; lastHumidity := lastHumidity s;
     lastSoilMoisture := lastSoilMoisture s;
     temperatureReadings := temperatureReadings s; humidityReadings := x;
     soilMoistureReadings := soilMoistureReadings s; readingIndex := readingIndex s;
     temperatureValid := temperatureValid s; humidityValid := humidityValid s;
     soilMoistureValid := soilMoistureValid s; disconnectCount := disconnectCount s |}.

Definition set_soilMoistureReadings (x : list Z) (s : SensorValidation) : SensorValidation :=
  {| lastTemperature := lastTemperature s; lastHumidity := lastHumidity s;
     lastSoilMoisture := lastSoilMoisture s;
     temperatureReadings := temperatureReadings s;
     humidityReadings := humidityReadings s; soilMoistureReadings := x;
     readingIndex := readingIndex s; temperatureValid := temperatureValid s;
     humidityValid := humidityValid s; soilMoistureValid := soilMoistureValid s;
     disconnectCount := disconnectCount s |}.

Definition set_readingIndex (x : Z) (s : SensorValidation) : SensorValidation :=
  {| lastTemperature := lastTemperature s; lastHumidity := lastHumidity s;
     lastSoilMoisture := lastSoilMoisture s;
     temperatureReadings := temperatureReadings s;
     humidityReadings := humidityReadings s;
     soilMoistureReadings := soilMoistureReadings s; readingIndex := x;
     temperatureValid := temperatureValid s; humidityValid := humidityValid s;
     soilMoistureValid := soilMoistureValid s; disconnectCount := disconnectCount s |}.

Definition set_temperatureValid (x : bool) (s : SensorValidation) : SensorValidation :=
  {| lastTemperature := lastTemperature s; lastHumidity := lastHumidity s;
     lastSoilMoisture := lastSoilMoisture s;
     temperatureReadings := temperatureReadings s;
     humidityReadings := humidityReadings s;
     soilMoistureReadings := soilMoistureReadings s; readingIndex := readingIndex s;
     temperatureValid := x; humidityValid := humidityValid s;
     soilMoistureValid := soilMoistureValid s; disconnectCount := disconnectCount s |}.

Definition set_humidityValid (x : bool) (s : SensorValidation) : SensorValidation :=
  {| lastTemperature := lastTemperature s; lastHumidity := lastHumidity s;
     lastSoilMoisture := lastSoilMoisture s;
     temperatureReadings := temperatureReadings s;
     humidityReadings := humidityReadings s;
     soilMoistureReadings := soilMoistureReadings s; readingIndex := readingIndex s;
     temperatureValid := temperatureValid s; humidityValid := x;
     soilMoistureValid := soilMoistureValid s; disconnectCount := disconnectCount s |}.

Definition set_soilMoistureValid (x : bool) (s : SensorValidation) : SensorValidation :=
  {| lastTemperature := lastTemperature s; lastHumidity := lastHumidity s;
     lastSoilMoisture := lastSoilMoisture s;
     temperatureReadings := temperatureReadings s;
     humidityReadings := humidityReadings s;
     soilMoistureReadings := soilMoistureReadings s; readingIndex := readingIndex s;
     temperatureValid := temperatureValid s; humidityValid := humidityValid s;
     soilMoistureValid := x; disconnectCount := disconnectCount s |}.

Definition set_disconnectCount (x : Z) (s : SensorValidation) : SensorValidation :=
  {| lastTemperature := lastTemperature s; lastHumidity := lastHumidity s;
     lastSoilMoisture := lastSoilMoisture s;
     temperatureReadings := temperatureReadings s;
     humidityReadings := humidityReadings s;
     soilMoistureReadings := soilMoistureReadings s; readingIndex := readingIndex s;
     temperatureValid := temperatureValid s; humidityValid := humidityValid s;
     soilMoistureValid := soilMoistureValid s; disconnectCount := x |}.

Record Machine : Type := Build_Machine {
  systemState : SystemState;  (* global systemState *)
  sensorValidation : SensorValidation;  (* global sensorValidation *)
  currentTime : Z;  (* global unsigned long currentTime *)
  relayPin : bool  (* output latch of RELAY_PIN *)
}.

Definition set_systemState (x : SystemState) (s : Machine) : Machine :=
  {| systemState := x; sensorValidation := sensorValidation s;
     currentTime := currentTime s; relayPin := relayPin s |}.

Definition set_sensorValidation (x : SensorValidation) (s : Machine) : Machine :=
  {| systemState := systemState s; sensorValidation := x; currentTime := currentTime s;
     relayPin := relayPin s |}.

Definition set_currentTime (x : Z) (s : Machine) : Machine :=
  {| systemState := systemState s; sensorValidation := sensorValidation s;
     currentTime := x; relayPin := relayPin s |}.

Definition set_relayPin (x : bool) (s : Machine) : Machine :=
  {| systemState := systemState s; sensorValidation := sensorValidation s;
     currentTime := currentTime s; relayPin := x |}.

Local Open Scope cmd_scope.

(** [systemState.f = ...]: an assignment to a field of [systemState]; the
    right-hand side may read the globals. *)
Definition onState (f : Machine -> SystemState -> SystemState) : Cmd Machine :=
  assign (fun m => set_systemState (f m (systemState m)) m).

(** [sensorValidation.f = ...] *)
Definition onValidation (f : Machine -> SensorValidation -> SensorValidation)
  : Cmd Machine :=
  assign (fun m => set_sensorValidation (f m (sensorValidation m)) m).

(** [digitalWrite(RELAY_PIN, level)] *)
Definition digitalWrite_RELAY_PIN (level : bool) : Cmd Machine :=
  fun m => (set_relayPin level m, [RelayWrite level]).

(** The member initialisers of the two structs and of the globals. *)
Definition powerOn : Machine :=
  {| systemState :=
       {| temperature := 0; humidity := 0; soilMoistureRaw := 0;
          soilMoisturePercent := 0; pumpActive := false; systemOK := true;
          emergencyStop := false; lastIrrigation := 0; pumpStartTime := 0;
          dailyIrrigations := 0; lastSensorRead := 0; sensorErrors := 0;
          recoveryAttempts := 0; lastErrorCheck := 0; lastWatchdogFeed := 0;
          potentiometerValue := 0; adjustedThreshold := SOIL_MOISTURE_THRESHOLD;
          lastPotentiometerRead := 0 |};
     sensorValidation :=
       {| lastTemperature := 0; lastHumidity := 0; lastSoilMoisture := 0;
          temperatureReadings := [0; 0; 0]; humidityReadings := [0; 0; 0];
          soilMoistureReadings := [0; 0; 0]; readingIndex := 0;
          temperatureValid := true; humidityValid := true;
          soilMoistureValid := true; disconnectCount := 0 |};
     currentTime := 0;
     relayPin := LOW |}.

(** *** Irrigation control *)

(** [void startIrrigation()] *)
Definition startIrrigation : Cmd Machine :=
  digitalWrite_RELAY_PIN HIGH ;;
  onState (fun _ => set_pumpActive true) ;;
  onState (fun m => set_pumpStartTime (currentTime m)) ;;
  onState (fun m => set_lastIrrigation (currentTime m)) ;;
  onState (fun m => set_dailyIrrigations (int_incr (dailyIrrigations (systemState m)))).

(** [void stopIrrigation()] *)
Definition stopIrrigation : Cmd Machine :=
  digitalWrite_RELAY_PIN LOW ;;
  onState (fun _ => set_pumpActive false).

(** [void controlIrrigation()]; with potentiometer control the threshold is
    [systemState.adjustedThreshold]. *)
Definition controlIrrigation : Cmd Machine :=
  fun m0 =>
    let s := systemState m0 in
    let threshold := adjustedThreshold s in
    let needsIrrigation := soilMoisturePercent s <? threshold in
    let cooldownExpired :=
      IRRIGATION_COOLDOWN <=? ulong_sub (currentTime m0) (lastIrrigation s) in
    let withinDailyLimit := dailyIrrigations s <? MAX_DAILY_IRRIGATIONS in
    let systemHealthy := systemOK s && (sensorErrors s <? MAX_SENSOR_ERRORS) in
    (when (fun _ => needsIrrigation && cooldownExpired && withinDailyLimit
                    && systemHealthy && negb (pumpActive s))
          startIrrigation ;;
     when (fun m => pumpActive (systemState m)
                    && (IRRIGATION_DURATION
                        <=? ulong_sub (currentTime m) (lastIrrigation (systemState m))))
          stopIrrigation) m0.

(** *** Web control *)

(** What [server.handleClient()] dispatches: the routes registered by
    [initializeWebServer], with the [action] argument of the request for
    /control ([None] when [server.hasArg("action")] is false). *)
Inductive Request : Type :=
| GetRoot
| GetAPI
| PostControl (action : option string)
| GetStatus
| GetOTA.

(** [void handleControl()], the handler of POST /control (the first of the
    two functions of that name in the sketch). *)
Definition handleControl (action : option string) : Cmd Machine :=
  match action with
  | Some a =>
      if String.eqb a "start" then startIrrigation
      else if String.eqb a "stop" then stopIrrigation
      else skip
  | None => skip
  end.

(** [server.handleClient()]: at most one pending request is served; the other
    handlers only send a page or the status JSON. *)
Definition handleClient (pending : option Request) : Cmd Machine :=
  match pending with
  | Some (PostControl action) => handleControl action
  | _ => skip
  end.

(** *** Sensor validation *)

(** [void validateSensorReadings(float temperature, float humidity, int soilMoisture)] *)
Definition validateSensorReadings (temperature humidity : Q) (soilMoisture : Z)
  (v0 : SensorValidation) : SensorValidation :=
  let v := set_temperatureValid
             (isSensorReadingValid temperature MIN_TEMPERATURE MAX_TEMPERATURE
                                   TEMPERATURE_VALIDATION) v0 in
  let v := set_humidityValid
             (isSensorReadingValid humidity MIN_HUMIDITY MAX_HUMIDITY
                                   HUMIDITY_VALIDATION) v in
  let v := set_soilMoistureValid
             (isSensorReadingValid (inject_Z soilMoisture) MIN_SOIL_MOISTURE
                                   MAX_SOIL_MOISTURE SOIL_MOISTURE_VALIDATION) v in
  (* sudden change in soil moisture *)
  let v := if SOIL_MOISTURE_VALIDATION && soilMoistureValid v then
             let change := Arduino.abs (int_sub soilMoisture (lastSoilMoisture v)) in
             if MAX_SOIL_MOISTURE_CHANGE <? change
             then set_soilMoistureValid false v else v
           else v in
  (* consistency; [&=] evaluates its right-hand side whatever the left is *)
  let v := if CONSISTENCY_VALIDATION then
             let v := set_temperatureValid
                        (temperatureValid v
                         && checkSensorConsistency (temperatureReadings v)
                              (float_to_int (temperature * (10 # 1)))) v in
             let v := set_humidityValid
                        (humidityValid v
                         && checkSensorConsistency (humidityReadings v)
                              (float_to_int (humidity * (10 # 1)))) v in
             set_soilMoistureValid
               (soilMoistureValid v
                && checkSensorConsistency (soilMoistureReadings v) soilMoisture) v
           else v in
  (* last readings *)
  let v := set_lastTemperature temperature v in
  let v := set_lastHumidity humidity v in
  let v := set_lastSoilMoisture soilMoisture v in
  (* reading arrays *)
  let v := set_temperatureReadings
             (array_set (temperatureReadings v) (readingIndex v)
                        (float_to_int (temperature * (10 # 1)))) v in
  let v := set_humidityReadings
             (array_set (humidityReadings v) (readingIndex v)
                        (float_to_int (humidity * (10 # 1)))) v in
  let v := set_soilMoistureReadings
             (array_set (soilMoistureReadings v) (readingIndex v) soilMoisture) v in
  set_readingIndex (int_rem (int_add (readingIndex v) 1) SENSOR_CONSISTENCY_CHECKS) v.

(** [int soilMoisturePercent = map(...); soilMoisturePercent = constrain(...)] *)
Definition soilPercentOfRaw (soilMoistureRaw : Z) : Z :=
  Arduino.constrain
    (Arduino.map soilMoistureRaw SOIL_MOISTURE_WET_VALUE SOIL_MOISTURE_DRY_VALUE 100 0)
    0 100.

(** [void readSensors()]; [dhtTemperature] and [dhtHumidity] are what
    [dht.readTemperature()] and [dht.readHumidity()] return, [analog] what
    [analogRead(SOIL_MOISTURE_PIN)] returns. *)
Definition readSensors (dhtTemperature dhtHumidity : option Q) (analog : Z)
  : Cmd Machine :=
  match dhtTemperature, dhtHumidity with
  | Some temperature, Some humidity =>
      let soilMoistureRaw' := analog in
      let soilMoisturePercent' := soilPercentOfRaw soilMoistureRaw' in
      onValidation (fun _ => validateSensorReadings temperature humidity
                                                    soilMoisturePercent') ;;
      ifc (fun m => temperatureValid (sensorValidation m)
                    && humidityValid (sensorValidation m)
                    && soilMoistureValid (sensorValidation m))
          (onState (fun _ => set_temperature temperature) ;;
           onState (fun _ => set_humidity humidity) ;;
           onState (fun _ => set_soilMoistureRaw soilMoistureRaw') ;;
           onState (fun _ => set_soilMoisturePercent soilMoisturePercent') ;;
           onState (fun _ => set_sensorErrors 0) ;;
           onValidation (fun _ => set_disconnectCount 0))
          (onState (fun m => set_sensorErrors (int_incr (sensorErrors (systemState m)))))
  | _, _ =>
      (* isnan(temperature) || isnan(humidity) *)
      onState (fun m => set_sensorErrors (int_incr (sensorErrors (systemState m)))) ;;
      onValidation (fun m => set_disconnectCount
                               (int_incr (disconnectCount (sensorValidation m))))
  end.

(** *** Manual control input *)

(** [void handlePotentiometer()]; [analog] is [analogRead(POTENTIOMETER_PIN)]. *)
Definition handlePotentiometer (analog : Z) : Cmd Machine :=
  when (fun m => POTENTIOMETER_UPDATE_INTERVAL
                 <=? ulong_sub (currentTime m) (lastPotentiometerRead (systemState m)))
       (onState (fun _ => set_potentiometerValue analog) ;;
        onState (fun m => set_adjustedThreshold
                            (Arduino.map (potentiometerValue (systemState m)) 0 4095
                               POTENTIOMETER_MIN_THRESHOLD POTENTIOMETER_MAX_THRESHOLD)) ;;
        onState (fun m => set_lastPotentiometerRead (currentTime m))).

(** The second [void handleControl()] of the sketch, the one [loop] calls for
    the hardware control; online.ino names it [handleHardwareControl]. *)
Definition handleHardwareControl (analog : Z) : Cmd Machine :=
  handlePotentiometer analog.

(** *** Safety and fail-safe functions *)

(** [void feedWatchdog()] *)
Definition feedWatchdog : Cmd Machine :=
  when (fun _ => WATCHDOG_ENABLED)
       (onState (fun m => set_lastWatchdogFeed (currentTime m))).

(** [void emergencyStop()]; the struct has a field of the same name. *)
Definition emergencyStop_fn : Cmd Machine :=
  when (fun m => pumpActive (systemState m)) stopIrrigation ;;
  onState (fun _ => set_emergencyStop true) ;;
  onState (fun _ => set_systemOK false).

(** [void checkPumpRuntime()] *)
Definition checkPumpRuntime : Cmd Machine :=
  when (fun m => pumpActive (systemState m)
                 && (MAX_PUMP_RUNTIME
                     <=? ulong_sub (currentTime m) (pumpStartTime (systemState m))))
       stopIrrigation.

(** [void checkSystemStatus()] *)
Definition checkSystemStatus : Cmd Machine :=
  ifc (fun m => MAX_SENSOR_ERRORS <=? sensorErrors (systemState m))
      (onState (fun _ => set_systemOK false))
      (when (fun m => sensorErrors (systemState m) =? 0)
            (onState (fun _ => set_systemOK true))).

(** [void attemptSystemRecovery()]; [testTemp] and [testHumidity] are the two
    readings taken after [dht.begin()]. *)
Definition attemptSystemRecovery (testTemp testHumidity : option Q) : Cmd Machine :=
  onState (fun m => set_recoveryAttempts (int_incr (recoveryAttempts (systemState m)))) ;;
  onValidation (fun _ => set_temperatureValid true) ;;
  onValidation (fun _ => set_humidityValid true) ;;
  onValidation (fun _ => set_soilMoistureValid true) ;;
  onValidation (fun _ => set_disconnectCount 0) ;;
  onState (fun _ => set_sensorErrors 0) ;;
  match testTemp, testHumidity with
  | Some _, Some _ =>
      onState (fun _ => set_systemOK true) ;;
      onState (fun _ => set_recoveryAttempts 0)
  | _, _ => skip
  end.

(** *** Setup and the control cycle *)

(** [void initializeSensors()] *)
Definition initializeSensors (testTemp testHumidity : option Q) : Cmd Machine :=
  match testTemp, testHumidity with
  | Some _, Some _ => skip
  | _, _ => onState (fun _ => set_systemOK false)
  end.

(** [void initializeActuators()] *)
Definition initializeActuators : Cmd Machine :=
  digitalWrite_RELAY_PIN LOW.

(** [void loadSettings()] *)
Definition loadSettings : Cmd Machine :=
  onState (fun _ => set_adjustedThreshold SOIL_MOISTURE_THRESHOLD).

(** [void initializeControl()] *)
Definition initializeControl : Cmd Machine :=
  onState (fun _ => set_potentiometerValue 0) ;;
  onState (fun _ => set_adjustedThreshold SOIL_MOISTURE_THRESHOLD) ;;
  onState (fun m => set_lastPotentiometerRead (currentTime m)) ;;
  loadSettings.

(** [void initializeSystem()], called by [setup()]. *)
Definition initializeSystem (testTemp testHumidity : option Q) : Cmd Machine :=
  initializeSensors testTemp testHumidity ;;
  initializeActuators ;;
  initializeControl ;;
  onState (fun _ => set_lastSensorRead 0) ;;
  onState (fun _ => set_lastErrorCheck 0).

(** What one pass of [loop()] reads from the outside. *)
Record CycleInput : Type := Build_CycleInput {
  millis : Z;                       (* millis() *)
  pending : option Request;         (* the request server.handleClient() serves *)
  dhtTemperature : option Q;        (* dht.readTemperature() in readSensors *)
  dhtHumidity : option Q;           (* dht.readHumidity() in readSensors *)
  soilAnalog : Z;                   (* analogRead(SOIL_MOISTURE_PIN) *)
  potAnalog : Z;                    (* analogRead(POTENTIOMETER_PIN) *)
  recoveryTemperature : option Q;   (* dht.readTemperature() in attemptSystemRecovery *)
  recoveryHumidity : option Q       (* dht.readHumidity() in attemptSystemRecovery *)
}.

(** [void loop()] *)
Definition loop (i : CycleInput) : Cmd Machine :=
  assign (set_currentTime (wrap_ulong (millis i))) ;;
  feedWatchdog ;;
  ifc (fun m => EMERGENCY_STOP_ENABLED && emergencyStop (systemState m))
      (* emergencyStop(); return; *)
      emergencyStop_fn
      (when (fun m => PUMP_RUNTIME_PROTECTION && pumpActive (systemState m))
            checkPumpRuntime ;;
       handleClient (pending i) ;;
       when (fun m => SENSOR_READ_INTERVAL
                      <=? ulong_sub (currentTime m) (lastSensorRead (systemState m)))
            (readSensors (dhtTemperature i) (dhtHumidity i) (soilAnalog i) ;;
             onState (fun m => set_lastSensorRead (currentTime m))) ;;
       when (fun _ => CONTROL_ENABLED)
            (handleHardwareControl (potAnalog i)) ;;
       controlIrrigation ;;
       when (fun m => STATUS_CHECK_INTERVAL
                      <=? ulong_sub (currentTime m) (lastErrorCheck (systemState m)))
            (checkSystemStatus ;;
             onState (fun m => set_lastErrorCheck (currentTime m))) ;;
       when (fun m => AUTO_RECOVERY_ENABLED
                      && negb (systemOK (systemState m))
                      && (recoveryAttempts (systemState m) <? RECOVERY_ATTEMPTS))
            (attemptSystemRecovery (recoveryTemperature i) (recoveryHumidity i))).

(** A run: [setup()] is over, then one [loop()] per input. *)
Definition run (inputs : list CycleInput) : Cmd Machine := iterate loop inputs.

(** The machine when [setup()] returns. *)
Definition booted (testTemp testHumidity : option Q) : Machine :=
  exec (initializeSystem testTemp testHumidity) powerOn.

End SmartFarmingOnline.

(* ========================================================================= *)
(** ** MainCode/online/online.ino *)
(* ========================================================================= *)

Module Online.

(** [struct SystemState], [struct SensorValidation] and the globals of this
    sketch; it has a light channel, and [adjustedThreshold] is a field in
    every configuration.  Besides the fields left out of the other sketch,
    the bookkeeping of the potentiometer (potentiometerValue,
    lastPotentiometerRead, potentiometerSamples, sampleIndex,
    lastStableThreshold, thresholdChanged) is left out: no function embedded
    here reads or writes it.  Setters are given for the fields that the
    functions below assign. *)

Record SystemState : Type := Build_SystemState {
  temperature : Q;  (* float *)
  humidity : Q;  (* float *)
  soilMoistureRaw : Z;  (* int *)
  soilMoisturePercent : Z;  (* int *)
  lightLevelRaw : Z;  (* int *)
  lightLevelPercent : Z;  (* int *)
  pumpActive : bool;
  systemOK : bool;
  emergencyStop : bool;
  lastIrrigation : Z;  (* unsigned long *)
  pumpStartTime : Z;  (* unsigned long *)
  dailyIrrigations : Z;  (* int *)
  lastSensorRead : Z;  (* unsigned long *)
  sensorErrors : Z;  (* int *)
  adjustedThreshold : Z;  (* int *)
  recoveryAttempts : Z;  (* int *)
  lastErrorCheck : Z;  (* unsigned long *)
  lastWatchdogFeed : Z  (* unsigned long *)
}.

Definition set_temperature (x : Q) (s : SystemState) : SystemState :=
  {| temperature := x; humidity := humidity s; soilMoistureRaw := soilMoistureRaw s;
     soilMoisturePercent := soilMoisturePercent s; lightLevelRaw := lightLevelRaw s;
     lightLevelPercent := lightLevelPercent s; pumpActive := pumpActive s;
     systemOK := systemOK s; emergencyStop := emergencyStop s;
     lastIrrigation := lastIrrigation s; pumpStartTime := pumpStartTime s;
     dailyIrrigations := dailyIrrigations s; lastSensorRead := lastSensorRead s;
     sensorErrors := sensorErrors s; adjustedThreshold := adjustedThreshold s;
     recoveryAttempts := recoveryAttempts s; lastErrorCheck := lastErrorCheck s;
     lastWatchdogFeed := lastWatchdogFeed s |}.

Definition set_humidity (x : Q) (s : SystemState) : SystemState :=
  {| temperature := temperature s; humidity := x; soilMoistureRaw := soilMoistureRaw s;
     soilMoisturePercent := soilMoisturePercent s; lightLevelRaw := lightLevelRaw s;
     lightLevelPercent := lightLevelPercent s; pumpActive := pumpActive s;
     systemOK := systemOK s; emergencyStop := emergencyStop s;
     lastIrrigation := lastIrrigation s; pumpStartTime := pumpStartTime s;
     dailyIrrigations := dailyIrrigations s; lastSensorRead := lastSensorRead s;
     sensorErrors := sensorErrors s; adjustedThreshold := adjustedThreshold s;
     recoveryAttempts := recoveryAttempts s; lastErrorCheck := lastErrorCheck s;
     lastWatchdogFeed := lastWatchdogFeed s |}.

Definition set_soilMoistureRaw (x : Z) (s : SystemState) : SystemState :=
  {| temperature := temperature s; humidity := humidity s; soilMoistureRaw := x;
     soilMoisturePercent := soilMoisturePercent s; lightLevelRaw := lightLevelRaw s;
     lightLevelPercent := lightLevelPercent s; pumpActive := pumpActive s;
     systemOK := systemOK s; emergencyStop := emergencyStop s;
     lastIrrigation := lastIrrigation s; pumpStartTime := pumpStartTime s;
     dailyIrrigations := dailyIrrigations s; lastSensorRead := lastSensorRead s;
     sensorErrors := sensorErrors s; adjustedThreshold := adjustedThreshold s;
     recoveryAttempts := recoveryAttempts s; lastErrorCheck := lastErrorCheck s;
     lastWatchdogFeed := lastWatchdogFeed s |}.

Definition set_soilMoisturePercent (x : Z) (s : SystemState) : SystemState :=
  {| temperature := temperature s; humidity := humidity s;
     soilMoistureRaw := soilMoistureRaw s; soilMoisturePercent := x;
     lightLevelRaw := lightLevelRaw s; lightLevelPercent := lightLevelPercent s;
     pumpActive := pumpActive s; systemOK := systemOK s;
     emergencyStop := emergencyStop s; lastIrrigation := lastIrrigation s;
     pumpStartTime := pumpStartTime s; dailyIrrigations := dailyIrrigations s;
     lastSensorRead := lastSensorRead s; sensorErrors := sensorErrors s;
     adjustedThreshold := adjustedThreshold s; recoveryAttempts := recoveryAttempts s;
     lastErrorCheck := lastErrorCheck s; lastWatchdogFeed := lastWatchdogFeed s |}.

Definition set_lightLevelRaw (x : Z) (s : SystemState) : SystemState :=
  {| temperature := temperature s; humidity := humidity s;
     soilMoistureRaw := soilMoistureRaw s; soilMoisturePercent := soilMoisturePercent s;
     lightLevelRaw := x; lightLevelPercent := lightLevelPercent s;
     pumpActive := pumpActive s; systemOK := systemOK s;
     emergencyStop := emergencyStop s; lastIrrigation := lastIrrigation s;
     pumpStartTime := pumpStartTime s; dailyIrrigations := dailyIrrigations s;
     lastSensorRead := lastSensorRead s; sensorErrors := sensorErrors s;
     adjustedThreshold := adjustedThreshold s; recoveryAttempts := recoveryAttempts s;
     lastErrorCheck := lastErrorCheck s; lastWatchdogFeed := lastWatchdogFeed s |}.

Definition set_lightLevelPercent (x : Z) (s : SystemState) : SystemState :=
  {| temperature := temperature s; humidity := humidity s;
     soilMoistureRaw := soilMoistureRaw s; soilMoisturePercent := soilMoisturePercent s;
     lightLevelRaw := lightLevelRaw s; lightLevelPercent := x;
     pumpActive := pumpActive s; systemOK := systemOK s;
     emergencyStop := emergencyStop s; lastIrrigation := lastIrrigation s;
     pumpStartTime := pumpStartTime s; dailyIrrigations := dailyIrrigations s;
     lastSensorRead := lastSensorRead s; sensorErrors := sensorErrors s;
     adjustedThreshold := adjustedThreshold s; recoveryAttempts := recoveryAttempts s;
     lastErrorCheck := lastErrorCheck s; lastWatchdogFeed := lastWatchdogFeed s |}.

Definition set_pumpActive (x : bool) (s : SystemState) : SystemState :=
  {| temperature := temperature s; humidity := humidity s;
     soilMoistureRaw := soilMoistureRaw s; soilMoisturePercent := soilMoisturePercent s;
     lightLevelRaw := lightLevelRaw s; lightLevelPercent := lightLevelPercent s;
     pumpActive := x; systemOK := systemOK s; emergencyStop := emergencyStop s;
     lastIrrigation := lastIrrigation s; pumpStartTime := pumpStartTime s;
     dailyIrrigations := dailyIrrigations s; lastSensorRead := lastSensorRead s;
     sensorErrors := sensorErrors s; adjustedThreshold := adjustedThreshold s;
     recoveryAttempts := recoveryAttempts s; lastErrorCheck := lastErrorCheck s;
     lastWatchdogFeed := lastWatchdogFeed s |}.

Definition set_lastIrrigation (x : Z) (s : SystemState) : SystemState :=
  {| temperature := temperature s; humidity := humidity s;
     soilMoistureRaw := soilMoistureRaw s; soilMoisturePercent := soilMoisturePercent s;
     lightLevelRaw := lightLevelRaw s; lightLevelPercent := lightLevelPercent s;
     pumpActive := pumpActive s; systemOK := systemOK s;
     emergencyStop := emergencyStop s; lastIrrigation := x;
     pumpStartTime := pumpStartTime s; dailyIrrigations := dailyIrrigations s;
     lastSensorRead := lastSensorRead s; sensorErrors := sensorErrors s;
     adjustedThreshold := adjustedThreshold s; recoveryAttempts := recoveryAttempts s;
     lastErrorCheck := lastErrorCheck s; lastWatchdogFeed := lastWatchdogFeed s |}.

Definition set_pumpStartTime (x : Z) (s : SystemState) : SystemState :=
  {| temperature := temperature s; humidity := humidity s;
     soilMoistureRaw := soilMoistureRaw s; soilMoisturePercent := soilMoisturePercent s;
     lightLevelRaw := lightLevelRaw s; lightLevelPercent := lightLevelPercent s;
     pumpActive := pumpActive s; systemOK := systemOK s;
     emergencyStop := emergencyStop s; lastIrrigation := lastIrrigation s;
     pumpStartTime := x; dailyIrrigations := dailyIrrigations s;
     lastSensorRead := lastSensorRead s; sensorErrors := sensorErrors s;
     adjustedThreshold := adjustedThreshold s; recoveryAttempts := recoveryAttempts s;
     lastErrorCheck := lastErrorCheck s; lastWatchdogFeed := lastWatchdogFeed s |}.

Definition set_dailyIrrigations (x : Z) (s : SystemState) : SystemState :=
  {| temperature := temperature s; humidity := humidity s;
     soilMoistureRaw := soilMoistureRaw s; soilMoisturePercent := soilMoisturePercent s;
     lightLevelRaw := lightLevelRaw s; lightLevelPercent := lightLevelPercent s;
     pumpActive := pumpActive s; systemOK := systemOK s;
     emergencyStop := emergencyStop s; lastIrrigation := lastIrrigation s;
     pumpStartTime := pumpStartTime s; dailyIrrigations := x;
     lastSensorRead := lastSensorRead s; sensorErrors := sensorErrors s;
     adjustedThreshold := adjustedThreshold s; recoveryAttempts := recoveryAttempts s;
     lastErrorCheck := lastErrorCheck s; lastWatchdogFeed := lastWatchdogFeed s |}.

Definition set_sensorErrors (x : Z) (s : SystemState) : SystemState :=
  {| temperature := temperature s; humidity := humidity s;
     soilMoistureRaw := soilMoistureRaw s; soilMoisturePercent := soilMoisturePercent s;
     lightLevelRaw := lightLevelRaw s; lightLevelPercent := lightLevelPercent s;
     pumpActive := pumpActive s; systemOK := systemOK s;
     emergencyStop := emergencyStop s; lastIrrigation := lastIrrigation s;
     pumpStartTime := pumpStartTime s; dailyIrrigations := dailyIrrigations s;
     lastSensorRead := lastSensorRead s; sensorErrors := x;
     adjustedThreshold := adjustedThreshold s; recoveryAttempts := recoveryAttempts s;
     lastErrorCheck := lastErrorCheck s; lastWatchdogFeed := lastWatchdogFeed s |}.

Record SensorValidation : Type := Build_SensorValidation {
  lastTemperature : Q;  (* float *)
  lastHumidity : Q;  (* float *)
  lastSoilMoisture : Z;  (* int *)
  lastLightLevel : Z;  (* int *)
  temperatureReadings : list Z;  (* int[SENSOR_CONSISTENCY_CHECKS] *)
  humidityReadings : list Z;  (* int[SENSOR_CONSISTENCY_CHECKS] *)
  soilMoistureReadings : list Z;  (* int[SENSOR_CONSISTENCY_CHECKS] *)
  lightLevelReadings : list Z;  (* int[SENSOR_CONSISTENCY_CHECKS] *)
  readingIndex : Z;  (* int *)
  temperatureValid : bool;
  humidityValid : bool;
  soilMoistureValid : bool;
  lightLevelValid : bool;
  disconnectCount : Z  (* int *)
}.

Definition set_lastTemperature (x : Q) (s : SensorValidation) : SensorValidation :=
  {| lastTemperature := x; lastHumidity := lastHumidity s;
     lastSoilMoisture := lastSoilMoisture s; lastLightLevel := lastLightLevel s;
     temperatureReadings := temperatureReadings s;
     humidityReadings := humidityReadings s;
     soilMoistureReadings := soilMoistureReadings s;
     lightLevelReadings := lightLevelReadings s; readingIndex := readingIndex s;
     temperatureValid := temperatureValid s; humidityValid := humidityValid s;
     soilMoistureValid := soilMoistureValid s; lightLevelValid := lightLevelValid s;
     disconnectCount := disconnectCount s |}.

Definition set_lastHumidity (x : Q) (s : SensorValidation) : SensorValidation :=
  {| lastTemperature := lastTemperature s; lastHumidity := x;
     lastSoilMoisture := lastSoilMoisture s; lastLightLevel := lastLightLevel s;
     temperatureReadings := temperatureReadings s;
     humidityReadings := humidityReadings s;
     soilMoistureReadings := soilMoistureReadings s;
     lightLevelReadings := lightLevelReadings s; readingIndex := readingIndex s;
     temperatureValid := temperatureValid s; humidityValid := humidityValid s;
     soilMoistureValid := soilMoistureValid s; lightLevelValid := lightLevelValid s;
     disconnectCount := disconnectCount s |}.

Definition set_lastSoilMoisture (x : Z) (s : SensorValidation) : SensorValidation :=
  {| lastTemperature := lastTemperature s; lastHumidity := lastHumidity s;
     lastSoilMoisture := x; lastLightLevel := lastLightLevel s;
     temperatureReadings := temperatureReadings s;
     humidityReadings := humidityReadings s;
     soilMoistureReadings := soilMoistureReadings s;
     lightLevelReadings := lightLevelReadings s; readingIndex := readingIndex s;
     temperatureValid := temperatureValid s; humidityValid := humidityValid s;
     soilMoistureValid := soilMoistureValid s; lightLevelValid := lightLevelValid s;
     disconnectCount := disconnectCount s |}.

Definition set_lastLightLevel (x : Z) (s : SensorValidation) : SensorValidation :=
  {| lastTemperature := lastTemperature s; lastHumidity := lastHumidity s;
     lastSoilMoisture := lastSoilMoisture s; lastLightLevel := x;
     temperatureReadings := temperatureReadings s;
     humidityReadings := humidityReadings s;
     soilMoistureReadings := soilMoistureReadings s;
     lightLevelReadings := lightLevelReadings s; readingIndex := readingIndex s;
     temperatureValid := temperatureValid s; humidityValid := humidityValid s;
     soilMoistureValid := soilMoistureValid s; lightLevelValid := lightLevelValid s;
     disconnectCount := disconnectCount s |}.

Definition set_temperatureReadings (x : list Z) (s : SensorValidation) : SensorValidation :=
  {| lastTemperature := lastTemperature s; lastHumidity := lastHumidity s;
     lastSoilMoisture := lastSoilMoisture s; lastLightLevel := lastLightLevel s;
     temperatureReadings := x; humidityReadings := humidityReadings s;
     soilMoistureReadings := soilMoistureReadings s;
     lightLevelReadings := lightLevelReadings s; readingIndex := readingIndex s;
     temperatureValid := temperatureValid s; humidityValid := humidityValid s;
     soilMoistureValid := soilMoistureValid s; lightLevelValid := lightLevelValid s;
     disconnectCount := disconnectCount s |}.

Definition set_humidityReadings (x : list Z) (s : SensorValidation) : SensorValidation :=
  {| lastTemperature := lastTemperature s; lastHumidity := lastHumidity s;
     lastSoilMoisture := lastSoilMoisture s; lastLightLevel := lastLightLevel s;
     temperatureReadings := temperatureReadings s; humidityReadings := x;
     soilMoistureReadings := soilMoistureReadings s;
     lightLevelReadings := lightLevelReadings s; readingIndex := readingIndex s;
     temperatureValid := temperatureValid s; humidityValid := humidityValid s;
     soilMoistureValid := soilMoistureValid s; lightLevelValid := lightLevelValid s;
     disconnectCount := disconnectCount s |}.

Definition set_soilMoistureReadings (x : list Z) (s : SensorValidation) : SensorValidation :=
  {| lastTemperature := lastTemperature s; lastHumidity := lastHumidity s;
     lastSoilMoisture := lastSoilMoisture s; lastLightLevel := lastLightLevel s;
     temperatureReadings := temperatureReadings s;
     humidityReadings := humidityReadings s; soilMoistureReadings := x;
     lightLevelReadings := lightLevelReadings s; readingIndex := readingIndex s;
     temperatureValid := temperatureValid s; humidityValid := humidityValid s;
     soilMoistureValid := soilMoistureValid s; lightLevelValid := lightLevelValid s;
     disconnectCount := disconnectCount s |}.

Definition set_lightLevelReadings (x : list Z) (s : SensorValidation) : SensorValidation :=
  {| lastTemperature := lastTemperature s; lastHumidity := lastHumidity s;
     lastSoilMoisture := lastSoilMoisture s; lastLightLevel := lastLightLevel s;
     temperatureReadings := temperatureReadings s;
     humidityReadings := humidityReadings s;
     soilMoistureReadings := soilMoistureReadings s; lightLevelReadings := x;
     readingIndex := readingIndex s; temperatureValid := temperatureValid s;
     humidityValid := humidityValid s; soilMoistureValid := soilMoistureValid s;
     lightLevelValid := lightLevelValid s; disconnectCount := disconnectCount s |}.

Definition set_readingIndex (x : Z) (s : SensorValidation) : SensorValidation :=
  {| lastTemperature := lastTemperature s; lastHumidity := lastHumidity s;
     lastSoilMoisture := lastSoilMoisture s; lastLightLevel := lastLightLevel s;
     temperatureReadings := temperatureReadings s;
     humidityReadings := humidityReadings s;
     soilMoistureReadings := soilMoistureReadings s;
     lightLevelReadings := lightLevelReadings s; readingIndex := x;
     temperatureValid := temperatureValid s; humidityValid := humidityValid s;
     soilMoistureValid := soilMoistureValid s; lightLevelValid := lightLevelValid s;
     disconnectCount := disconnectCount s |}.

Definition set_temperatureValid (x : bool) (s : SensorValidation) : SensorValidation :=
  {| lastTemperature := lastTemperature s; lastHumidity := lastHumidity s;
     lastSoilMoisture := lastSoilMoisture s; lastLightLevel := lastLightLevel s;
     temperatureReadings := temperatureReadings s;
     humidityReadings := humidityReadings s;
     soilMoistureReadings := soilMoistureReadings s;
     lightLevelReadings := lightLevelReadings s; readingIndex := readingIndex s;
     temperatureValid := x; humidityValid := humidityValid s;
     soilMoistureValid := soilMoistureValid s; lightLevelValid := lightLevelValid s;
     disconnectCount := disconnectCount s |}.

Definition set_humidityValid (x : bool) (s : SensorValidation) : SensorValidation :=
  {| lastTemperature := lastTemperature s; lastHumidity := lastHumidity s;
     lastSoilMoisture := lastSoilMoisture s; lastLightLevel := lastLightLevel s;
     temperatureReadings := temperatureReadings s;
     humidityReadings := humidityReadings s;
     soilMoistureReadings := soilMoistureReadings s;
     lightLevelReadings := lightLevelReadings s; readingIndex := readingIndex s;
     temperatureValid := temperatureValid s; humidityValid := x;
     soilMoistureValid := soilMoistureValid s; lightLevelValid := lightLevelValid s;
     disconnectCount := disconnectCount s |}.

Definition set_soilMoistureValid (x : bool) (s : SensorValidation) : SensorValidation :=
  {| lastTemperature := lastTemperature s; lastHumidity := lastHumidity s;
     lastSoilMoisture := lastSoilMoisture s; lastLightLevel := lastLightLevel s;
     temperatureReadings := temperatureReadings s;
     humidityReadings := humidityReadings s;
     soilMoistureReadings := soilMoistureReadings s;
     lightLevelReadings := lightLevelReadings s; readingIndex := readingIndex s;
     temperatureValid := temperatureValid s; humidityValid := humidityValid s;
     soilMoistureValid := x; lightLevelValid := lightLevelValid s;
     disconnectCount := disconnectCount s |}.

Definition set_lightLevelValid (x : bool) (s : SensorValidation) : SensorValidation :=
  {| lastTemperature := lastTemperature s; lastHumidity := lastHumidity s;
     lastSoilMoisture := lastSoilMoisture s; lastLightLevel := lastLightLevel s;
     temperatureReadings := temperatureReadings s;
     humidityReadings := humidityReadings s;
     soilMoistureReadings := soilMoistureReadings s;
     lightLevelReadings := lightLevelReadings s; readingIndex := readingIndex s;
     temperatureValid := temperatureValid s; humidityValid := humidityValid s;
     soilMoistureValid := soilMoistureValid s; lightLevelValid := x;
     disconnectCount := disconnectCount s |}.

Definition set_disconnectCount (x : Z) (s : SensorValidation) : SensorValidation :=
  {| lastTemperature := lastTemperature s; lastHumidity := lastHumidity s;
     lastSoilMoisture := lastSoilMoisture s; lastLightLevel := lastLightLevel s;
     temperatureReadings := temperatureReadings s;
     humidityReadings := humidityReadings s;
     soilMoistureReadings := soilMoistureReadings s;
     lightLevelReadings := lightLevelReadings s; readingIndex := readingIndex s;
     temperatureValid := temperatureValid s; humidityValid := humidityValid s;
     soilMoistureValid := soilMoistureValid s; lightLevelValid := lightLevelValid s;
     disconnectCount := x |}.

Record Machine : Type := Build_Machine {
  systemState : SystemState;  (* global systemState *)
  sensorValidation : SensorValidation;  (* global sensorValidation *)
  currentTime : Z;  (* global unsigned long currentTime *)
  relayPin : bool  (* output latch of RELAY_PIN *)
}.

Definition set_systemState (x : SystemState) (s : Machine) : Machine :=
  {| systemState := x; sensorValidation := sensorValidation s;
     currentTime := currentTime s; relayPin := relayPin s |}.

Definition set_sensorValidation (x : SensorValidation) (s : Machine) : Machine :=
  {| systemState := systemState s; sensorValidation := x; currentTime := currentTime s;
     relayPin := relayPin s |}.

Definition set_currentTime (x : Z) (s : Machine) : Machine :=
  {| systemState := systemState s; sensorValidation := sensorValidation s;
     currentTime := x; relayPin := relayPin s |}.

Definition set_relayPin (x : bool) (s : Machine) : Machine :=
  {| systemState := systemState s; sensorValidation := sensorValidation s;
     currentTime := currentTime s; relayPin := x |}.

Local Open Scope cmd_scope.

Definition onState (f : Machine -> SystemState -> SystemState) : Cmd Machine :=
  assign (fun m => set_systemState (f m (systemState m)) m).

Definition onValidation (f : Machine -> SensorValidation -> SensorValidation)
  : Cmd Machine :=
  assign (fun m => set_sensorValidation (f m (sensorValidation m)) m).

(** [digitalWrite(RELAY_PIN, level)] *)
Definition digitalWrite_RELAY_PIN (level : bool) : Cmd Machine :=
  fun m => (set_relayPin level m, [RelayWrite level]).

(** The member initialisers of the two structs and of the globals. *)
Definition powerOn : Machine :=
  {| systemState :=
       {| temperature := 0; humidity := 0; soilMoistureRaw := 0;
          soilMoisturePercent := 0; lightLevelRaw := 0; lightLevelPercent := 0;
          pumpActive := false; systemOK := true; emergencyStop := false;
          lastIrrigation := 0; pumpStartTime := 0; dailyIrrigations := 0;
          lastSensorRead := 0; sensorErrors := 0;
          adjustedThreshold := SOIL_MOISTURE_THRESHOLD; recoveryAttempts := 0;
          lastErrorCheck := 0; lastWatchdogFeed := 0 |};
     sensorValidation :=
       {| lastTemperature := 0; lastHumidity := 0; lastSoilMoisture := 0;
          lastLightLevel := 0;
          temperatureReadings := [0; 0; 0]; humidityReadings := [0; 0; 0];
          soilMoistureReadings := [0; 0; 0]; lightLevelReadings := [0; 0; 0];
          readingIndex := 0;
          temperatureValid := true; humidityValid := true;
          soilMoistureValid := true; lightLevelValid := true;
          disconnectCount := 0 |};
     currentTime := 0;
     relayPin := LOW |}.

(** [void startIrrigation()] *)
Definition startIrrigation : Cmd Machine :=
  digitalWrite_RELAY_PIN HIGH ;;
  onState (fun _ => set_pumpActive true) ;;
  onState (fun m => set_pumpStartTime (currentTime m)) ;;
  onState (fun m => set_lastIrrigation (currentTime m)) ;;
  onState (fun m => set_dailyIrrigations (int_incr (dailyIrrigations (systemState m)))).

(** [void stopIrrigation()] *)
Definition stopIrrigation : Cmd Machine :=
  digitalWrite_RELAY_PIN LOW ;;
  onState (fun _ => set_pumpActive false).

(** [void controlIrrigation()] *)
Definition controlIrrigation : Cmd Machine :=
  fun m0 =>
    let s := systemState m0 in
    let threshold := adjustedThreshold s in
    let needsIrrigation := soilMoisturePercent s <? threshold in
    let cooldownExpired :=
      IRRIGATION_COOLDOWN <=? ulong_sub (currentTime m0) (lastIrrigation s) in
    let withinDailyLimit := dailyIrrigations s <? MAX_DAILY_IRRIGATIONS in
    let systemHealthy := systemOK s && (sensorErrors s <? MAX_SENSOR_ERRORS) in
    (when (fun _ => needsIrrigation && cooldownExpired && withinDailyLimit
                    && systemHealthy && negb (pumpActive s))
          startIrrigation ;;
     when (fun m => pumpActive (systemState m)
                    && (IRRIGATION_DURATION
                        <=? ulong_sub (currentTime m) (lastIrrigation (systemState m))))
          stopIrrigation) m0.

(** [void validateSensorReadings(float temperature, float humidity,
                                 int soilMoisture, int lightLevel)] *)
Definition validateSensorReadings (temperature humidity : Q)
  (soilMoisture lightLevel : Z) (v0 : SensorValidation) : SensorValidation :=
  let v := set_temperatureValid
             (isSensorReadingValid temperature MIN_TEMPERATURE MAX_TEMPERATURE
                                   TEMPERATURE_VALIDATION) v0 in
  let v := set_humidityValid
             (isSensorReadingValid humidity MIN_HUMIDITY MAX_HUMIDITY
                                   HUMIDITY_VALIDATION) v in
  let v := set_soilMoistureValid
             (isSensorReadingValid (inject_Z soilMoisture) MIN_SOIL_MOISTURE
                                   MAX_SOIL_MOISTURE SOIL_MOISTURE_VALIDATION) v in
  let v := set_lightLevelValid
             (isSensorReadingValid (inject_Z lightLevel) MIN_LIGHT_LEVEL
                                   MAX_LIGHT_LEVEL LIGHT_VALIDATION) v in
  (* sudden change in soil moisture *)
  let v := if SOIL_MOISTURE_VALIDATION && soilMoistureValid v then
             let change := Arduino.abs (int_sub soilMoisture (lastSoilMoisture v)) in
             if MAX_SOIL_MOISTURE_CHANGE <? change
             then set_soilMoistureValid false v else v
           else v in
  (* sudden change in light level *)
  let v := if LIGHT_VALIDATION && lightLevelValid v then
             let change := Arduino.abs (int_sub lightLevel (lastLightLevel v)) in
             if MAX_LIGHT_CHANGE <? change
             then set_lightLevelValid false v else v
           else v in
  (* consistency *)
  let v := if CONSISTENCY_VALIDATION then
             let v := set_temperatureValid
                        (temperatureValid v
                         && checkSensorConsistency (temperatureReadings v)
                              (float_to_int (temperature * (10 # 1)))) v in
             let v := set_humidityValid
                        (humidityValid v
                         && checkSensorConsistency (humidityReadings v)
                              (float_to_int (humidity * (10 # 1)))) v in
             let v := set_soilMoistureValid
                        (soilMoistureValid v
                         && checkSensorConsistency (soilMoistureReadings v)
                              soilMoisture) v in
             set_lightLevelValid
               (lightLevelValid v
                && checkSensorConsistency (lightLevelReadings v) lightLevel) v
           else v in
  (* last readings *)
  let v := set_lastTemperature temperature v in
  let v := set_lastHumidity humidity v in
  let v := set_lastSoilMoisture soilMoisture v in
  let v := set_lastLightLevel lightLevel v in
  (* reading arrays *)
  let v := set_temperatureReadings
             (array_set (temperatureReadings v) (readingIndex v)
                        (float_to_int (temperature * (10 # 1)))) v in
  let v := set_humidityReadings
             (array_set (humidityReadings v) (readingIndex v)
                        (float_to_int (humidity * (10 # 1)))) v in
  let v := set_soilMoistureReadings
             (array_set (soilMoistureReadings v) (readingIndex v) soilMoisture) v in
  let v := set_lightLevelReadings
             (array_set (lightLevelReadings v) (readingIndex v) lightLevel) v in
  set_readingIndex (int_rem (int_add (readingIndex v) 1) SENSOR_CONSISTENCY_CHECKS) v.

(** [int soilMoisturePercent = map(...); soilMoisturePercent = constrain(...)] *)
Definition soilPercentOfRaw (soilMoistureRaw : Z) : Z :=
  Arduino.constrain
    (Arduino.map soilMoistureRaw SOIL_MOISTURE_WET_VALUE SOIL_MOISTURE_DRY_VALUE 100 0)
    0 100.

(** The light reading of [readSensors]: raw value and percentage.  Without an
    LDR the sketch takes the defaults 2048 and 50. *)
Definition lightOfAnalog (analog : Z) : Z * Z :=
  if LDR_ENABLED then
    (analog,
     Arduino.constrain (Arduino.map analog LDR_DARK_VALUE LDR_BRIGHT_VALUE 0 100) 0 100)
  else (2048, 50).

(** [void readSensors()]; [soilAnalog] and [ldrAnalog] are the two
    [analogRead] results. *)
Definition readSensors (dhtTemperature dhtHumidity : option Q)
  (soilAnalog ldrAnalog : Z) : Cmd Machine :=
  match dhtTemperature, dhtHumidity with
  | Some temperature, Some humidity =>
      let soilMoistureRaw' := soilAnalog in
      let soilMoisturePercent' := soilPercentOfRaw soilMoistureRaw' in
      let lightLevelRaw' := fst (lightOfAnalog ldrAnalog) in
      let lightLevelPercent' := snd (lightOfAnalog ldrAnalog) in
      onValidation (fun _ => validateSensorReadings temperature humidity
                               soilMoisturePercent' lightLevelPercent') ;;
      (* Always update soil moisture (critical for irrigation), but validate others *)
      onState (fun _ => set_soilMoistureRaw soilMoistureRaw') ;;
      onState (fun _ => set_soilMoisturePercent soilMoisturePercent') ;;
      onState (fun _ => set_lightLevelRaw lightLevelRaw') ;;
      onState (fun _ => set_lightLevelPercent lightLevelPercent') ;;
      (* Only update DHT readings if valid (non-critical for irrigation) *)
      ifc (fun m => temperatureValid (sensorValidation m)
                    && humidityValid (sensorValidation m))
          (onState (fun _ => set_temperature temperature) ;;
           onState (fun _ => set_humidity humidity) ;;
           onState (fun _ => set_sensorErrors 0) ;;
           onValidation (fun _ => set_disconnectCount 0))
          (onState (fun m => set_sensorErrors (int_incr (sensorErrors (systemState m)))))
  | _, _ =>
      (* isnan(temperature) || isnan(humidity) *)
      onState (fun m => set_sensorErrors (int_incr (sensorErrors (systemState m)))) ;;
      onValidation (fun m => set_disconnectCount
                               (int_incr (disconnectCount (sensorValidation m))))
  end.

End Online.

(* ========================================================================= *)
(** ** Runs and their cycles *)
(* ========================================================================= *)

Import SmartFarmingOnline.
Local Open Scope cmd_scope.

(** One pass of [loop()] in a run: the machine before, what the pass read,
    the machine after and the relay writes of the pass. *)
Record Cycle : Type := Build_Cycle {
  before : Machine;
  input : CycleInput;
  after : Machine;
  writes : list Event
}.

Fixpoint cycles (inputs : list CycleInput) (m : Machine) : list Cycle :=
  match inputs with
  | [] => []
  | i :: rest =>
      {| before := m; input := i; after := exec (loop i) m; writes := out (loop i) m |}
      :: cycles rest (exec (loop i) m)
  end.

(** The time [loop()] stores in [currentTime] for a pass. *)
Definition now (i : CycleInput) : Z := wrap_ulong (millis i).

(** The pass serves a POST /control request with [action=start]. *)
Definition servesStart (i : CycleInput) : bool :=
  match pending i with
  | Some (PostControl (Some a)) => String.eqb a "start"
  | _ => false
  end.


(** The relay latch and the [pumpActive] flag agree. *)
Definition relayFollowsFlag (m : Machine) : Prop :=
  relayPin m = pumpActive (systemState m).

(** The pump logic seen alone: the fields it owns, the relay latch and the
    clock.  [pumpOf] projects a machine on them. *)
Record Pump : Type := Build_Pump {
  active : bool;      (* systemState.pumpActive *)
  started : Z;        (* systemState.pumpStartTime *)
  last : Z;           (* systemState.lastIrrigation *)
  count : Z;          (* systemState.dailyIrrigations *)
  latched : bool;     (* systemState.emergencyStop *)
  relay : bool;       (* RELAY_PIN *)
  clock : Z           (* currentTime *)
}.

Definition pumpOf (m : Machine) : Pump :=
  {| active := pumpActive (systemState m);
     started := pumpStartTime (systemState m);
     last := lastIrrigation (systemState m);
     count := dailyIrrigations (systemState m);
     latched := emergencyStop (systemState m);
     relay := relayPin m;
     clock := currentTime m |}.

(** The commands of the sketch that act on the pump, projected on [Pump].
    They serve the proofs only: [tracks_loop] shows that [loop] acts on the
    pump fields as [PumpView.loop] does, and the properties of the sketch are
    stated on [loop] itself. *)
Module PumpView.

Definition startIrrigation : Cmd Pump :=
  fun p => ({| active := true; started := clock p; last := clock p;
               count := int_incr (count p); latched := latched p;
               relay := HIGH; clock := clock p |},
            [RelayWrite HIGH]).

Definition stopIrrigation : Cmd Pump :=
  fun p => ({| active := false; started := started p; last := last p;
               count := count p; latched := latched p;
               relay := LOW; clock := clock p |},
            [RelayWrite LOW]).

Definition setClock (t : Z) : Cmd Pump :=
  assign (fun p => {| active := active p; started := started p; last := last p;
                      count := count p; latched := latched p;
                      relay := relay p; clock := t |}).

Definition setLatch : Cmd Pump :=
  assign (fun p => {| active := active p; started := started p; last := last p;
                      count := count p; latched := true;
                      relay := relay p; clock := clock p |}).

Definition emergencyStop_fn : Cmd Pump :=
  when active stopIrrigation ;; setLatch.

Definition checkPumpRuntime : Cmd Pump :=
  when (fun p => active p && (MAX_PUMP_RUNTIME <=? ulong_sub (clock p) (started p)))
       stopIrrigation.

Definition handleControl (action : option string) : Cmd Pump :=
  match action with
  | Some a =>
      if String.eqb a "start" then startIrrigation
      else if String.eqb a "stop" then stopIrrigation
      else skip
  | None => skip
  end.

Definition handleClient (pending : option Request) : Cmd Pump :=
  match pending with
  | Some (PostControl action) => handleControl action
  | _ => skip
  end.

(** [wanted] stands for [needsIrrigation && systemHealthy], which the pump
    fields do not determine. *)
Definition controlIrrigation (wanted : bool) : Cmd Pump :=
  fun p0 =>
    (when (fun _ => wanted
                    && (IRRIGATION_COOLDOWN <=? ulong_sub (clock p0) (last p0))
                    && (count p0 <? MAX_DAILY_IRRIGATIONS)
                    && negb (active p0))
          startIrrigation ;;
     when (fun p => active p && (IRRIGATION_DURATION <=? ulong_sub (clock p) (last p)))
          stopIrrigation) p0.

Definition loop (i : CycleInput) (wanted : bool) : Cmd Pump :=
  setClock (now i) ;;
  ifc (fun p => EMERGENCY_STOP_ENABLED && latched p)
      emergencyStop_fn
      (when (fun p => PUMP_RUNTIME_PROTECTION && active p) checkPumpRuntime ;;
       handleClient (pending i) ;;
       controlIrrigation wanted).

End PumpView.

(** [c] acts on the pump fields of [m] as [cP] does. *)
Definition tracks (c : Cmd Machine) (cP : Cmd Pump) (m : Machine) : Prop :=
  pumpOf (exec c m) = exec cP (pumpOf m) /\ out c m = out cP (pumpOf m).

(** A command that writes no pin and leaves the pump fields alone. *)
Definition quiet (c : Cmd Machine) : Prop := forall m, tracks c skip m.

(** What [controlIrrigation] asks of the rest of the state. *)
Definition irrigationWanted (m : Machine) : bool :=
  (soilMoisturePercent (systemState m) <? adjustedThreshold (systemState m))
  && (systemOK (systemState m)
      && (sensorErrors (systemState m) <? MAX_SENSOR_ERRORS)).

(** The request a pass serves, as far as the pump is concerned. *)
Inductive Served : Type := ServedStart | ServedStop | ServedNothing.

Definition served (i : CycleInput) : Served :=
  match pending i with
  | Some (PostControl (Some a)) =>
      if String.eqb a "start" then ServedStart
      else if String.eqb a "stop" then ServedStop
      else ServedNothing
  | _ => ServedNothing
  end.


(** A pass under the emergency latch: the relay is LOW and stays so, and the
    pass neither read a sensor nor evaluated or recorded an irrigation. *)
Definition haltedPass (c : Cycle) : Prop :=
  relayPin (after c) = LOW
  /\ pumpActive (systemState (after c)) = false
  /\ emergencyStop (systemState (after c)) = true
  /\ ~ In (RelayWrite HIGH) (writes c)
  /\ lastIrrigation (systemState (after c)) = lastIrrigation (systemState (before c))
  /\ pumpStartTime (systemState (after c)) = pumpStartTime (systemState (before c))
  /\ dailyIrrigations (systemState (after c))
     = dailyIrrigations (systemState (before c))
  /\ soilMoisturePercent (systemState (after c))
     = soilMoisturePercent (systemState (before c))
  /\ lastSensorRead (systemState (after c)) = lastSensorRead (systemState (before c))
  /\ sensorErrors (systemState (after c)) = sensorErrors (systemState (before c))
  /\ sensorValidation (after c) = sensorValidation (before c).

(** The pass switched the pump on. *)
Definition switchedOn (c : Cycle) : Prop := In (RelayWrite HIGH) (writes c).

(* ========================================================================= *)
(** ** Concrete passes and runs *)
(* ========================================================================= *)

(** A pass at time [t] with nothing pending on the web server, a DHT reading
    of 0.0 degrees and 0.0 percent, the soil probe in dry air (ADC 4095, that
    is 0 percent) and the potentiometer at ADC 2275 (threshold 30). *)
Definition dryPass (t : Z) : CycleInput :=
  {| millis := t; pending := None;
     dhtTemperature := Some 0%Q; dhtHumidity := Some 0%Q;
     soilAnalog := 4095; potAnalog := 2275;
     recoveryTemperature := Some 0%Q; recoveryHumidity := Some 0%Q |}.

(** The same pass, serving POST /control with the given [action]. *)
Definition controlPass (t : Z) (action : string) : CycleInput :=
  {| millis := t; pending := Some (PostControl (Some action));
     dhtTemperature := Some 0%Q; dhtHumidity := Some 0%Q;
     soilAnalog := 4095; potAnalog := 2275;
     recoveryTemperature := Some 0%Q; recoveryHumidity := Some 0%Q |}.

(** The machine after a [setup()] whose DHT test succeeded. *)
Definition bootedOK : Machine := booted (Some 0%Q) (Some 0%Q).

(** The machine one pass after the first automatic start at 300 s: the pump
    runs since 300000 ms. *)
Definition irrigating : Machine := exec (run [dryPass 300000]) bootedOK.

(** The machine once that irrigation has ended, at 305 s. *)
Definition irrigated : Machine :=
  exec (run [dryPass 300000; dryPass 305000]) bootedOK.

(** [irrigating] with the emergency flag raised from outside. *)
Definition latchedWhileIrrigating : Machine :=
  set_systemState (set_emergencyStop true (systemState irrigating)) irrigating.


(* ========================================================================= *)
(** ** The consistency check, in the words of the specification *)
(* ========================================================================= *)

(** The integer average of the stored samples. *)
Definition averageOfHistory (readings : list Z) : Z :=
  Z.quot (fold_right Z.add 0 readings) SENSOR_CONSISTENCY_CHECKS.

(** The check rejects [newReading]: it is more than the consistency
    threshold away from the average. *)
Definition rejectedByConsistency (readings : list Z) (newReading : Z) : bool :=
  SENSOR_CONSISTENCY_THRESHOLD <? Z.abs (newReading - averageOfHistory readings).

(** Samples far from the ends of [int]: 30 bits. *)
Definition smallSample (z : Z) : Prop := - 536870912 <= z <= 536870912.

(** A history array: [SENSOR_CONSISTENCY_CHECKS] small samples. *)
Definition historyOK (readings : list Z) : Prop :=
  List.length readings = 3%nat /\ Forall smallSample readings.

(** The verdict of the range and sudden-change checks on a soil sample, as
    [validateSensorReadings] computes it before the consistency check. *)
Definition soilRangeAndChange (soilMoisture : Z) (v : SensorValidation) : bool :=
  isSensorReadingValid (inject_Z soilMoisture) MIN_SOIL_MOISTURE MAX_SOIL_MOISTURE
                       SOIL_MOISTURE_VALIDATION
  && negb (SOIL_MOISTURE_VALIDATION
           && (MAX_SOIL_MOISTURE_CHANGE
               <? Arduino.abs (int_sub soilMoisture (lastSoilMoisture v)))).

(** The machines after each step of a run of [step]. *)
Fixpoint trail {M I : Type} (step : I -> Cmd M) (inputs : list I) (m : M) : list M :=
  match inputs with
  | [] => []
  | i :: rest => exec (step i) m :: trail step rest (exec (step i) m)
  end.

(** Ten soil readings that swing between wet (ADC 0, 100 percent) and dry
    (ADC 4095, 0 percent). *)
Definition flappingSoil : list Z := [0; 4095; 0; 4095; 0; 4095; 0; 4095; 0; 4095].

(** Ten passes 5 s apart that read them. *)
Definition flappingPasses : list CycleInput :=
  List.map (fun k => {| millis := 5000 * (k + 1); pending := None;
                        dhtTemperature := Some 0%Q; dhtHumidity := Some 0%Q;
                        soilAnalog := 4095 * ((k + 1) mod 2); potAnalog := 2275;
                        recoveryTemperature := Some 0%Q;
                        recoveryHumidity := Some 0%Q |})
           [1; 2; 3; 4; 5; 6; 7; 8; 9; 10].

(** online.ino at 300 s, after four readings of ADC 2048 (50 percent): the
    last of them is valid. *)
Definition onlineSettled : Online.Machine :=
  exec (iterate (fun a => Online.readSensors (Some 0%Q) (Some 0%Q) a 0)
                [2048; 2048; 2048; 2048])
       (Online.set_currentTime 300000 Online.powerOn).

(** Then one reading of ADC 4095 (0 percent). *)
Definition onlineGlitch : Online.Machine :=
  exec (Online.readSensors (Some 0%Q) (Some 0%Q) 4095 0) onlineSettled.


(* ========================================================================= *)
(** ** Further notions for the properties of the sketches *)
(* ========================================================================= *)

(** A command leaves the observation [f] of the machine as it was. *)
Definition keeps {M A : Type} (f : M -> A) (c : Cmd M) : Prop :=
  forall m, f (exec c m) = f m.

(** A command carries the property [P] of the machine over. *)
Definition preserves {M : Type} (P : M -> Prop) (c : Cmd M) : Prop :=
  forall m, P m -> P (exec c m).


(** The relay write switches the pump on. *)
Definition isHigh (e : Event) : bool :=
  match e with RelayWrite level => level end.

(** A reading of the ADC of the ESP32: 12 bits. *)
Definition adcRange (analog : Z) : Prop := 0 <= analog <= 4095.

(** The DHT driver reports NaN for the temperature or the humidity. *)
Definition dhtFails (i : CycleInput) : Prop :=
  dhtTemperature i = None \/ dhtHumidity i = None.

(** A pass at time [t] in which the DHT reports NaN, also to the recovery. *)
Definition failingPass (t : Z) : CycleInput :=
  {| millis := t; pending := None;
     dhtTemperature := None; dhtHumidity := None;
     soilAnalog := 0; potAnalog := 2275;
     recoveryTemperature := None; recoveryHumidity := None |}.

(** Fifteen such passes, 5 s apart: three rounds of five sensor errors, each
    followed by a failed recovery. *)
Definition failingPasses : list CycleInput :=
  List.map (fun k => failingPass (5000 * k))
           [1; 2; 3; 4; 5; 6; 7; 8; 9; 10; 11; 12; 13; 14; 15].

(** The machine after them. *)
Definition exhausted : Machine := exec (run failingPasses) bootedOK.

(** What the sketch knows of the soil: the state that [controlIrrigation]
    reads and the memory of the validator. *)
Definition soilMemory (m : Machine) : Z * Z * Z * list Z :=
  (soilMoisturePercent (systemState m), soilMoistureRaw (systemState m),
   lastSoilMoisture (sensorValidation m), soilMoistureReadings (sensorValidation m)).




(* ========================================================================= *)
(** ** The display of the LCD 1602 *)
(* ========================================================================= *)

(** [updateDisplay()] is the same in the two sketches.  Of the globals it
    reads and writes [systemState.displayScreen] only; what it shows is the
    screen function it calls. *)
Module Display.

(** [DISPLAY_SCREEN_COUNT] for [DISPLAY_TYPE == DISPLAY_LCD_1602]. *)
Definition DISPLAY_SCREEN_COUNT : Z := 3.

Inductive Screen : Type :=
| SensorData        (* displaySensorData() *)
| SystemStatus      (* displaySystemStatus() *)
| IrrigationInfo    (* displayIrrigationInfo() *)
| WiFiStatus.       (* displayWiFiStatus() *)

(** [void updateDisplay()]: the screen shown, if any, and the new
    [displayScreen]. *)
Definition updateDisplay (displayScreen : Z) : option Screen * Z :=
  let '(shown, displayScreen1) :=
    match displayScreen with
    | 0 => (Some SensorData, displayScreen)
    | 1 => (Some SystemStatus, displayScreen)
    | 2 => (Some IrrigationInfo, displayScreen)
    | 3 => (Some WiFiStatus, displayScreen)
    | _ => (None, 0)
    end in
  (shown, int_rem (int_add displayScreen1 1) DISPLAY_SCREEN_COUNT).

(** The screens shown by [n] calls in a row. *)
Fixpoint screens (n : nat) (displayScreen : Z) : list (option Screen) :=
  match n with
  | O => []
  | S n' =>
      fst (updateDisplay displayScreen)
      :: screens n' (snd (updateDisplay displayScreen))
  end.

End Display.

(* ========================================================================= *)
(** ** The data log *)
(* ========================================================================= *)

(** [logSystemData()] and [clearDataLog()] are the same in the two sketches.
    Their globals are [dataLog], [logIndex], [logBufferFull] and the static
    [lastLogTime]; of the machine they read [currentTime] and the logged
    fields of [systemState]. *)
Module Logging.

Definition LOG_BUFFER_SIZE : Z := 50.
Definition LOG_INTERVAL : Z := 300000.

(** [struct DataLog] *)
Record DataLog : Type := Build_DataLog {
  timestamp : Z;                (* unsigned long *)
  loggedTemperature : Q;        (* float temperature *)
  loggedHumidity : Q;           (* float humidity *)
  loggedSoilMoisture : Z;       (* int soilMoisturePercent *)
  loggedPumpActive : bool;      (* bool pumpActive *)
  loggedIrrigations : Z         (* int dailyIrrigations *)
}.

Record LogState : Type := Build_LogState {
  dataLog : list DataLog;       (* DataLog dataLog[LOG_BUFFER_SIZE] *)
  logIndex : Z;                 (* int *)
  logBufferFull : bool;
  lastLogTime : Z               (* static unsigned long, in logSystemData *)
}.

(** [dataLog[index] = entry]; a store outside the array leaves it as it is. *)
Fixpoint store (log : list DataLog) (index : nat) (entry : DataLog) : list DataLog :=
  match log, index with
  | [], _ => []
  | _ :: rest, O => entry :: rest
  | e :: rest, S index' => e :: store rest index' entry
  end.

(** What [logSystemData] writes into a slot. *)
Definition snapshot (m : Machine) : DataLog :=
  {| timestamp := currentTime m;
     loggedTemperature := temperature (systemState m);
     loggedHumidity := humidity (systemState m);
     loggedSoilMoisture := soilMoisturePercent (systemState m);
     loggedPumpActive := pumpActive (systemState m);
     loggedIrrigations := dailyIrrigations (systemState m) |}.

(** [void logSystemData()] *)
Definition logSystemData (m : Machine) (l : LogState) : LogState :=
  if LOG_INTERVAL <=? ulong_sub (currentTime m) (lastLogTime l) then
    let dataLog1 :=
      if logIndex l <? 0 then dataLog l
      else store (dataLog l) (Z.to_nat (logIndex l)) (snapshot m) in
    let logIndex1 := int_rem (int_add (logIndex l) 1) LOG_BUFFER_SIZE in
    {| dataLog := dataLog1;
       logIndex := logIndex1;
       logBufferFull := if logIndex1 =? 0 then true else logBufferFull l;
       lastLogTime := currentTime m |}
  else l.

Definition emptyEntry : DataLog :=
  {| timestamp := 0; loggedTemperature := 0; loggedHumidity := 0;
     loggedSoilMoisture := 0; loggedPumpActive := false; loggedIrrigations := 0 |}.


(** The globals when [setup()] starts: fifty zero entries. *)
Definition powerOnLog : LogState :=
  {| dataLog := repeat emptyEntry 50; logIndex := 0; logBufferFull := false;
     lastLogTime := 0 |}.



(** The array has its size and the index is in it. *)
Definition logOK (l : LogState) : Prop :=
  List.length (dataLog l) = 50%nat /\ 0 <= logIndex l < LOG_BUFFER_SIZE.

End Logging.

(* ========================================================================= *)
(** ** The potentiometer of online.ino *)
(* ========================================================================= *)

(** [handlePotentiometer()] of online.ino smooths the readings.  The fields
    of [systemState] it works on are kept in a record of their own. *)
Module OnlinePotentiometer.

Definition POTENTIOMETER_SMOOTHING_SAMPLES : Z := 5.
Definition POTENTIOMETER_HYSTERESIS : Z := 2.
Definition POTENTIOMETER_DEADBAND : Z := 50.

Record PotState : Type := Build_PotState {
  potentiometerValue : Z;             (* int *)
  adjustedThreshold : Z;              (* int *)
  lastPotentiometerRead : Z;          (* unsigned long *)
  potentiometerSamples : list Z;      (* int[POTENTIOMETER_SMOOTHING_SAMPLES] *)
  sampleIndex : Z;                    (* int *)
  lastStableThreshold : Z;            (* int *)
  thresholdChanged : bool
}.

(** The potentiometer part of [initializeControl()], then [loadSettings()];
    [initialReading] is [analogRead(POTENTIOMETER_PIN)]. *)
Definition initializeControl (currentTime initialReading : Z) : PotState :=
  {| potentiometerValue := initialReading;
     adjustedThreshold := SOIL_MOISTURE_THRESHOLD;
     lastPotentiometerRead := currentTime;
     potentiometerSamples := [initialReading; initialReading; initialReading;
                              initialReading; initialReading];
     sampleIndex := 0;
     lastStableThreshold := SOIL_MOISTURE_THRESHOLD;
     thresholdChanged := false |}.

(** [void handlePotentiometer()]; [rawValue] is
    [analogRead(POTENTIOMETER_PIN)].  With [SERIAL_OUTPUT_ENABLED] and
    [DEBUG_MODE], as in the selected setup, [thresholdChanged] is cleared
    again once the change has been printed. *)
Definition handlePotentiometer (currentTime rawValue : Z) (p : PotState) : PotState :=
  if POTENTIOMETER_UPDATE_INTERVAL <=? ulong_sub currentTime (lastPotentiometerRead p)
  then
    let samples := array_set (potentiometerSamples p) (sampleIndex p) rawValue in
    let sampleIndex1 :=
      int_rem (int_add (sampleIndex p) 1) POTENTIOMETER_SMOOTHING_SAMPLES in
    let sum := sumReadings (Z.to_nat POTENTIOMETER_SMOOTHING_SAMPLES) samples 0 0 in
    let smoothedValue := int_div sum POTENTIOMETER_SMOOTHING_SAMPLES in
    let potentiometerValue1 :=
      if POTENTIOMETER_DEADBAND
         <? Arduino.abs (int_sub smoothedValue (potentiometerValue p))
      then smoothedValue else potentiometerValue p in
    let newThreshold :=
      Arduino.map potentiometerValue1 0 4095
                  POTENTIOMETER_MIN_THRESHOLD POTENTIOMETER_MAX_THRESHOLD in
    let moved :=
      POTENTIOMETER_HYSTERESIS
      <=? Arduino.abs (int_sub newThreshold (lastStableThreshold p)) in
    {| potentiometerValue := potentiometerValue1;
       adjustedThreshold := if moved then newThreshold else adjustedThreshold p;
       lastPotentiometerRead := currentTime;
       potentiometerSamples := samples;
       sampleIndex := sampleIndex1;
       lastStableThreshold := if moved then newThreshold else lastStableThreshold p;
       thresholdChanged := false |}
  else p.

(** What the smoothing keeps: five 12-bit samples, the index among them, a
    12-bit value, and a threshold on the dial that is the last stable one. *)
Definition potOK (p : PotState) : Prop :=
  List.length (potentiometerSamples p) = 5%nat
  /\ Forall adcRange (potentiometerSamples p)
  /\ 0 <= sampleIndex p < POTENTIOMETER_SMOOTHING_SAMPLES
  /\ adcRange (potentiometerValue p)
  /\ POTENTIOMETER_MIN_THRESHOLD <= adjustedThreshold p <= POTENTIOMETER_MAX_THRESHOLD
  /\ lastStableThreshold p = adjustedThreshold p.

End OnlinePotentiometer.
(* ========================================================================= *)
(** ** Laws of the command combinators *)
(* ========================================================================= *)

Section CommandLaws.
Context {M : Type}.
Implicit Types (a b : Cmd M) (m : M).

Lemma exec_seq a b m : exec (a ;; b) m = exec b (exec a m).
Proof.
  unfold exec, seq. destruct (a m) as [m1 e1]; cbn. now destruct (b m1).
Qed.

Lemma out_seq a b m : out (a ;; b) m = out a m ++ out b (exec a m).
Proof.
  unfold exec, out, seq. destruct (a m) as [m1 e1]; cbn. now destruct (b m1).
Qed.

Lemma exec_skip m : exec skip m = m.
Proof. reflexivity. Qed.

Lemma out_skip m : out (@skip M) m = [].
Proof. reflexivity. Qed.

Lemma exec_assign f m : exec (assign f) m = f m.
Proof. reflexivity. Qed.

Lemma out_assign (f : M -> M) m : out (assign f) m = [].
Proof. reflexivity. Qed.

Lemma exec_ifc c a b m : exec (ifc c a b) m = if c m then exec a m else exec b m.
Proof. unfold exec, ifc. now destruct (c m). Qed.

Lemma out_ifc c a b m : out (ifc c a b) m = if c m then out a m else out b m.
Proof. unfold out, ifc. now destruct (c m). Qed.

Lemma exec_when c a m : exec (when c a) m = if c m then exec a m else m.
Proof. unfold when. now rewrite exec_ifc. Qed.

Lemma out_when c a m : out (when c a) m = if c m then out a m else [].
Proof. unfold when. now rewrite out_ifc. Qed.

End CommandLaws.

Ltac cmd_simpl :=
  repeat (progress rewrite ?@exec_seq, ?@out_seq, ?@exec_skip, ?@out_skip,
            ?@exec_assign, ?@out_assign, ?@exec_ifc, ?@out_ifc,
            ?@exec_when, ?@out_when).

(* ========================================================================= *)
(** ** Machine integers: basic facts *)
(* ========================================================================= *)

Lemma wrap_int_small z : int_range z -> wrap_int z = z.
Proof.
  unfold int_range, INT_MIN, INT_MAX, wrap_int. intros H.
  rewrite Z.mod_small by lia. lia.
Qed.

Lemma ulong_sub_diag z : ulong_sub z z = 0.
Proof. unfold ulong_sub, wrap_ulong. now rewrite Z.sub_diag. Qed.


(* ========================================================================= *)
(** ** The sketch tracks the pump view *)
(* ========================================================================= *)

Lemma tracks_seq a b aP bP m :
  tracks a aP m -> tracks b bP (exec a m) -> tracks (a ;; b) (aP ;; bP) m.
Proof.
  unfold tracks. intros [Ha Oa] [Hb Ob]. cmd_simpl.
  rewrite <- Ha, Hb, Oa, Ob. now rewrite Ha.
Qed.

Lemma tracks_seq_quiet_l a b bP m :
  tracks a skip m -> tracks b bP (exec a m) -> tracks (a ;; b) bP m.
Proof.
  unfold tracks. intros [Ha Oa] [Hb Ob]. cmd_simpl.
  rewrite Hb, Ob, Oa, Ha. now cmd_simpl.
Qed.

Lemma tracks_seq_quiet_r a b aP m :
  tracks a aP m -> tracks b skip (exec a m) -> tracks (a ;; b) aP m.
Proof.
  unfold tracks. intros [Ha Oa] [Hb Ob]. cmd_simpl.
  rewrite Hb, Ob, Oa, Ha. cmd_simpl. now rewrite app_nil_r.
Qed.

Lemma tracks_ifc c a b cP aP bP m :
  c m = cP (pumpOf m) -> tracks a aP m -> tracks b bP m ->
  tracks (ifc c a b) (ifc cP aP bP) m.
Proof.
  unfold tracks. intros Hc Ha Hb. cmd_simpl. rewrite Hc.
  now destruct (cP (pumpOf m)).
Qed.

Lemma tracks_when c a cP aP m :
  c m = cP (pumpOf m) -> tracks a aP m -> tracks (when c a) (when cP aP) m.
Proof.
  intros Hc Ha. apply tracks_ifc; [exact Hc | exact Ha | now split].
Qed.

Lemma quiet_seq a b : quiet a -> quiet b -> quiet (a ;; b).
Proof. intros Ha Hb m. apply tracks_seq_quiet_l; [apply Ha | apply Hb]. Qed.

Lemma quiet_ifc c a b : quiet a -> quiet b -> quiet (ifc c a b).
Proof.
  intros Ha Hb m. unfold tracks. cmd_simpl.
  destruct (c m); [apply Ha | apply Hb].
Qed.

Lemma quiet_when c a : quiet a -> quiet (when c a).
Proof. intros Ha. apply quiet_ifc; [exact Ha | now split]. Qed.

Lemma quiet_skip : quiet skip.
Proof. now split. Qed.

Lemma quiet_onValidation f : quiet (onValidation f).
Proof. now split. Qed.

Ltac quiet_tac :=
  repeat first
    [ apply quiet_seq | apply quiet_when | apply quiet_ifc
    | apply quiet_skip | apply quiet_onValidation
    | (intro; split; reflexivity) ].

Lemma quiet_feedWatchdog : quiet feedWatchdog.
Proof. quiet_tac. Qed.

Lemma quiet_readSensors t h a : quiet (readSensors t h a).
Proof. unfold readSensors. destruct t, h; quiet_tac. Qed.

Lemma quiet_handleHardwareControl a : quiet (handleHardwareControl a).
Proof. unfold handleHardwareControl, handlePotentiometer. quiet_tac. Qed.

Lemma quiet_checkSystemStatus : quiet checkSystemStatus.
Proof. unfold checkSystemStatus. quiet_tac. Qed.

Lemma quiet_attemptSystemRecovery t h : quiet (attemptSystemRecovery t h).
Proof. unfold attemptSystemRecovery. destruct t, h; quiet_tac. Qed.

Lemma tracks_startIrrigation m : tracks startIrrigation PumpView.startIrrigation m.
Proof. now split. Qed.

Lemma tracks_stopIrrigation m : tracks stopIrrigation PumpView.stopIrrigation m.
Proof. now split. Qed.

Lemma tracks_checkPumpRuntime m : tracks checkPumpRuntime PumpView.checkPumpRuntime m.
Proof.
  apply tracks_when; [reflexivity | apply tracks_stopIrrigation].
Qed.

Lemma tracks_emergencyStop_fn m : tracks emergencyStop_fn PumpView.emergencyStop_fn m.
Proof.
  unfold emergencyStop_fn, PumpView.emergencyStop_fn.
  apply tracks_seq.
  - apply tracks_when; [reflexivity | apply tracks_stopIrrigation].
  - now split.
Qed.

Lemma tracks_handleClient r m : tracks (handleClient r) (PumpView.handleClient r) m.
Proof.
  destruct r as [[| |[a|]| |]|]; cbn [handleClient PumpView.handleClient
    handleControl PumpView.handleControl]; try now split.
  destruct (String.eqb a "start"); [apply tracks_startIrrigation|].
  destruct (String.eqb a "stop"); [apply tracks_stopIrrigation|now split].
Qed.

Lemma tracks_controlIrrigation m :
  tracks controlIrrigation (PumpView.controlIrrigation (irrigationWanted m)) m.
Proof.
  unfold controlIrrigation, PumpView.controlIrrigation.
  apply tracks_seq.
  - apply tracks_when; [|apply tracks_startIrrigation].
    unfold irrigationWanted; cbn.
    repeat match goal with |- context [?x <? ?y] => destruct (x <? y) end;
    repeat match goal with |- context [?x <=? ?y] => destruct (x <=? y) end;
    destruct (systemOK (systemState m)), (pumpActive (systemState m)); reflexivity.
  - apply tracks_when; [reflexivity | apply tracks_stopIrrigation].
Qed.

(** One pass of [loop()] tracks the pump view, for the value of
    [irrigationWanted] that [controlIrrigation] finds. *)
Lemma tracks_loop i m :
  exists wanted, tracks (loop i) (PumpView.loop i wanted) m.
Proof.
  eexists. unfold loop, PumpView.loop.
  apply tracks_seq; [now split|].
  apply tracks_seq_quiet_l; [apply quiet_feedWatchdog|].
  apply tracks_ifc; [reflexivity | apply tracks_emergencyStop_fn |].
  apply tracks_seq.
  { apply tracks_when; [reflexivity | apply tracks_checkPumpRuntime]. }
  apply tracks_seq; [apply tracks_handleClient|].
  apply tracks_seq_quiet_l.
  { apply quiet_when, quiet_seq; [apply quiet_readSensors | quiet_tac]. }
  apply tracks_seq_quiet_l.
  { apply quiet_when, quiet_handleHardwareControl. }
  apply tracks_seq_quiet_r; [apply tracks_controlIrrigation|].
  apply quiet_seq.
  - apply quiet_when, quiet_seq; [apply quiet_checkSystemStatus | quiet_tac].
  - apply quiet_when, quiet_attemptSystemRecovery.
Qed.

(* ========================================================================= *)
(** ** The pump view, pass by pass *)
(* ========================================================================= *)

Ltac unfold_config :=
  unfold MAX_PUMP_RUNTIME, IRRIGATION_COOLDOWN, IRRIGATION_DURATION,
    MAX_DAILY_IRRIGATIONS, EMERGENCY_STOP_ENABLED, PUMP_RUNTIME_PROTECTION,
    HIGH, LOW in *.

Ltac pump_unfold :=
  unfold PumpView.loop, PumpView.emergencyStop_fn, PumpView.checkPumpRuntime,
    PumpView.controlIrrigation, PumpView.handleClient, PumpView.handleControl,
    PumpView.setClock, PumpView.setLatch, PumpView.startIrrigation,
    PumpView.stopIrrigation, exec, out, seq, when, ifc, assign, skip in *.

Ltac split_ifs :=
  repeat (cbn in *;
          match goal with
          | |- context [if ?b then _ else _] => destruct b eqn:?
          | H : context [if ?b then _ else _] |- _ => destruct b eqn:?
          end);
  cbn in *.

Ltac bool_to_Z :=
  repeat match goal with
         | H : andb _ _ = true |- _ => apply andb_prop in H; destruct H
         | H : (_ <=? _) = true |- _ => apply Z.leb_le in H
         | H : (_ <=? _) = false |- _ => apply Z.leb_gt in H
         | H : (_ <? _) = true |- _ => apply Z.ltb_lt in H
         | H : (_ <? _) = false |- _ => apply Z.ltb_ge in H
         | H : negb _ = true |- _ => apply negb_true_iff in H
         | H : negb _ = false |- _ => apply negb_false_iff in H
         end.

Lemma handleClient_served i :
  PumpView.handleClient (pending i)
  = match served i with
    | ServedStart => PumpView.startIrrigation
    | ServedStop => PumpView.stopIrrigation
    | ServedNothing => skip
    end.
Proof.
  unfold served, PumpView.handleClient, PumpView.handleControl.
  destruct (pending i) as [[| |[a|]| |]|]; try reflexivity.
  destruct (String.eqb a "start"); [reflexivity|].
  now destruct (String.eqb a "stop").
Qed.

Lemma servesStart_served i :
  servesStart i = match served i with ServedStart => true | _ => false end.
Proof.
  unfold served, servesStart.
  destruct (pending i) as [[| |[a|]| |]|]; try reflexivity.
  destruct (String.eqb a "start"); [reflexivity|].
  now destruct (String.eqb a "stop").
Qed.

Ltac pump_start i :=
  unfold PumpView.loop; rewrite (handleClient_served i);
  try rewrite (servesStart_served i) in *;
  destruct (served i); pump_unfold; unfold_config; cbn in *.

Ltac pump_finish :=
  bool_to_Z; subst; rewrite ?ulong_sub_diag in *;
  repeat split; intros;
  try discriminate; try reflexivity; try congruence; try lia;
  try (intuition (try discriminate; try congruence; try lia)).

Ltac pump_cases i p :=
  destruct p as [a s l c e r t]; cbn zeta; pump_start i; split_ifs; pump_finish.

Lemma pump_loop_clock i w p : clock (exec (PumpView.loop i w) p) = now i.
Proof. pump_cases i p. Qed.


Lemma pump_loop_relay i w p :
  relay p = active p ->
  relay (exec (PumpView.loop i w) p) = active (exec (PumpView.loop i w) p).
Proof. pump_cases i p. Qed.

Lemma pump_loop_latched i w p :
  latched p = true -> relay p = active p ->
  let r := PumpView.loop i w p in
  active (fst r) = false /\ relay (fst r) = LOW /\ latched (fst r) = true
  /\ started (fst r) = started p /\ last (fst r) = last p
  /\ count (fst r) = count p
  /\ ~ In (RelayWrite HIGH) (snd r).
Proof. pump_cases i p. Qed.



Lemma pump_loop_started i w p :
  let r := PumpView.loop i w p in
  In (RelayWrite HIGH) (snd r) ->
  last (fst r) = now i
  /\ (servesStart i = true \/ IRRIGATION_COOLDOWN <= ulong_sub (now i) (last p)).
Proof. pump_cases i p. Qed.

Lemma pump_loop_not_started i w p :
  let r := PumpView.loop i w p in
  ~ In (RelayWrite HIGH) (snd r) -> last (fst r) = last p.
Proof. pump_cases i p. Qed.

(* ========================================================================= *)
(** ** One pass of [loop()], on the machine *)
(* ========================================================================= *)

Lemma loop_clock i m : currentTime (exec (loop i) m) = now i.
Proof.
  destruct (tracks_loop i m) as [w [Hp _]].
  change (clock (pumpOf (exec (loop i) m)) = now i).
  rewrite Hp. apply pump_loop_clock.
Qed.


Lemma loop_relayFollowsFlag i m :
  relayFollowsFlag m -> relayFollowsFlag (exec (loop i) m).
Proof.
  destruct (tracks_loop i m) as [w [Hp _]]. unfold relayFollowsFlag. intros H.
  change (relay (pumpOf (exec (loop i) m)) = active (pumpOf (exec (loop i) m))).
  rewrite Hp. now apply pump_loop_relay.
Qed.

Lemma loop_latched i m :
  emergencyStop (systemState m) = true -> relayFollowsFlag m ->
  let m' := exec (loop i) m in
  pumpActive (systemState m') = false /\ relayPin m' = LOW
  /\ emergencyStop (systemState m') = true
  /\ pumpStartTime (systemState m') = pumpStartTime (systemState m)
  /\ lastIrrigation (systemState m') = lastIrrigation (systemState m)
  /\ dailyIrrigations (systemState m') = dailyIrrigations (systemState m)
  /\ ~ In (RelayWrite HIGH) (out (loop i) m).
Proof.
  intros He Hr. destruct (tracks_loop i m) as [w [Hp Ho]].
  pose proof (pump_loop_latched i w (pumpOf m) He Hr) as H.
  cbn zeta in *. rewrite Ho.
  change (exec (PumpView.loop i w) (pumpOf m)) with (fst (PumpView.loop i w (pumpOf m)))
    in Hp.
  rewrite <- Hp in H. exact H.
Qed.

(** With the latch set a pass is the watchdog feed and [emergencyStop()],
    nothing else. *)
Lemma loop_latched_exec i m :
  emergencyStop (systemState m) = true ->
  exec (loop i) m
  = exec emergencyStop_fn (exec feedWatchdog (set_currentTime (now i) m)).
Proof.
  intros He. unfold loop. cmd_simpl.
  replace (EMERGENCY_STOP_ENABLED
           && emergencyStop (systemState (exec feedWatchdog
                                            (set_currentTime (wrap_ulong (millis i)) m))))
    with true by (cbn; now rewrite He).
  reflexivity.
Qed.



Lemma loop_started i m :
  In (RelayWrite HIGH) (out (loop i) m) ->
  lastIrrigation (systemState (exec (loop i) m)) = now i
  /\ (servesStart i = true
      \/ IRRIGATION_COOLDOWN <= ulong_sub (now i) (lastIrrigation (systemState m))).
Proof.
  destruct (tracks_loop i m) as [w [Hp Ho]]. rewrite Ho. intros H.
  pose proof (pump_loop_started i w (pumpOf m) H) as H'.
  change (exec (PumpView.loop i w) (pumpOf m)) with (fst (PumpView.loop i w (pumpOf m)))
    in Hp.
  rewrite <- Hp in H'. exact H'.
Qed.

Lemma loop_not_started i m :
  ~ In (RelayWrite HIGH) (out (loop i) m) ->
  lastIrrigation (systemState (exec (loop i) m)) = lastIrrigation (systemState m).
Proof.
  destruct (tracks_loop i m) as [w [Hp Ho]]. rewrite Ho. intros H.
  pose proof (pump_loop_not_started i w (pumpOf m) H) as H'.
  change (exec (PumpView.loop i w) (pumpOf m)) with (fst (PumpView.loop i w (pumpOf m)))
    in Hp.
  rewrite <- Hp in H'. exact H'.
Qed.

(* ========================================================================= *)
(** ** Runs *)
(* ========================================================================= *)

Lemma run_cons i rest m : exec (run (i :: rest)) m = exec (run rest) (exec (loop i) m).
Proof. unfold run. cbn [iterate]. now rewrite exec_seq. Qed.

(** An invariant of the passes carries a property to every cycle of a run. *)
Lemma cycles_invariant (Inv : Machine -> Prop) (Q : CycleInput -> Prop)
  (P : Cycle -> Prop) :
  (forall m i, Inv m -> Q i ->
     Inv (exec (loop i) m)
     /\ P {| before := m; input := i;
             after := exec (loop i) m; writes := out (loop i) m |}) ->
  forall inputs m, Inv m -> Forall Q inputs -> Forall P (cycles inputs m).
Proof.
  intros step inputs. induction inputs as [|i rest IH]; intros m Hm HQ; cbn [cycles].
  - constructor.
  - inversion HQ as [|? ? Hi Hrest]; subst.
    destruct (step m i Hm Hi) as [Hm' HP].
    constructor; [exact HP | now apply IH].
Qed.

Lemma Forall_True {A : Type} (l : list A) : Forall (fun _ => True) l.
Proof. induction l; constructor; auto. Qed.

(** While no pass switches the pump on, [lastIrrigation] stays. *)
Lemma run_keeps_lastIrrigation inputs m :
  Forall (fun c => ~ In (RelayWrite HIGH) (writes c)) (cycles inputs m) ->
  lastIrrigation (systemState (exec (run inputs) m)) = lastIrrigation (systemState m).
Proof.
  revert m. induction inputs as [|i rest IH]; intros m H.
  - reflexivity.
  - cbn [cycles] in H. inversion H as [|? ? Hi Hrest]; subst. cbn [writes] in Hi.
    rewrite run_cons, IH by exact Hrest. now apply loop_not_started.
Qed.

(* ========================================================================= *)
(** ** The pump runtime ceiling *)
(* ========================================================================= *)



(* ========================================================================= *)
(** ** The emergency latch *)
(* ========================================================================= *)

Lemma loop_latched_frame i m :
  emergencyStop (systemState m) = true ->
  let m' := exec (loop i) m in
  soilMoisturePercent (systemState m') = soilMoisturePercent (systemState m)
  /\ lastSensorRead (systemState m') = lastSensorRead (systemState m)
  /\ sensorErrors (systemState m') = sensorErrors (systemState m)
  /\ sensorValidation m' = sensorValidation m.
Proof.
  intros He. cbn zeta. rewrite (loop_latched_exec i m He).
  unfold emergencyStop_fn, feedWatchdog, stopIrrigation. cmd_simpl.
  unfold WATCHDOG_ENABLED.
  match goal with |- context [if pumpActive ?s then _ else _] =>
    destruct (pumpActive s) end; repeat split; reflexivity.
Qed.

(** C2.  Once the [emergencyStop] flag is set (and nothing clears it), in
    every later pass, whatever the sensors and the web server deliver, the
    relay is LOW when the pass ends, no pass drives it HIGH, and the pass
    evaluates no irrigation: it reads no sensor and leaves the irrigation
    record and the validation state as they were. *)
Theorem emergency_stop_latch :
  forall (inputs : list CycleInput) (m : Machine),
    emergencyStop (systemState m) = true ->
    relayFollowsFlag m ->
    Forall haltedPass (cycles inputs m).
Proof.
  intros inputs m He Hr.
  apply (cycles_invariant
           (fun m => emergencyStop (systemState m) = true /\ relayFollowsFlag m)
           (fun _ => True)); auto using Forall_True.
  clear. intros m i [He Hr] _.
  destruct (loop_latched i m He Hr) as (Ha & Hl & He' & Hs & Hla & Hc & Hw).
  destruct (loop_latched_frame i m He) as (Hsoil & Hread & Herr & Hval).
  split.
  - split; [exact He'|]. now apply loop_relayFollowsFlag.
  - unfold haltedPass; cbn [before after input writes]. tauto.
Qed.

Lemma emergency_stop_latch_witness :
  emergencyStop (systemState latchedWhileIrrigating) = true
  /\ relayPin latchedWhileIrrigating = HIGH
  /\ Forall haltedPass
       (cycles [dryPass 301000; controlPass 302000 "start"; dryPass 700000]
               latchedWhileIrrigating).
Proof.
  split; [reflexivity|]. split; [reflexivity|].
  apply emergency_stop_latch; reflexivity.
Defined.

(* ========================================================================= *)
(** ** The daily limit *)
(* ========================================================================= *)




(* ========================================================================= *)
(** ** The cooldown *)
(* ========================================================================= *)




(** C5, as the sketch has it.  The cooldown runs from the START of one
    irrigation: if a pass switches the pump on, and the next pass that
    switches it on does so on its own (it serves no start request), then the
    two passes are at least [IRRIGATION_COOLDOWN] apart. *)
Theorem cooldown_between_starts :
  forall (m : Machine) (i1 : CycleInput) (mid : list CycleInput) (i2 : CycleInput),
    In (RelayWrite HIGH) (out (loop i1) m) ->
    Forall (fun c => ~ switchedOn c) (cycles mid (exec (loop i1) m)) ->
    servesStart i2 = false ->
    In (RelayWrite HIGH) (out (loop i2) (exec (run mid) (exec (loop i1) m))) ->
    IRRIGATION_COOLDOWN <= ulong_sub (now i2) (now i1).
Proof.
  intros m i1 mid i2 H1 Hmid Hs H2.
  destruct (loop_started i1 m H1) as [Hlast _].
  destruct (loop_started i2 _ H2) as [_ [Hweb|Hcool]]; [congruence|].
  rewrite (run_keeps_lastIrrigation mid _ Hmid), Hlast in Hcool. exact Hcool.
Qed.

Lemma first_start_at_300s :
  In (RelayWrite HIGH) (out (loop (dryPass 300000)) bootedOK).
Proof. vm_compute. auto. Qed.

Lemma no_start_at_305s :
  Forall (fun c => ~ switchedOn c)
         (cycles [dryPass 305000] (exec (loop (dryPass 300000)) bootedOK)).
Proof.
  constructor; [|constructor]. vm_compute. intros [H|[]]. discriminate H.
Qed.

Lemma second_start_at_600s :
  In (RelayWrite HIGH)
     (out (loop (dryPass 600000))
          (exec (run [dryPass 305000]) (exec (loop (dryPass 300000)) bootedOK))).
Proof. vm_compute. auto. Qed.

Lemma cooldown_between_starts_witness :
  In (RelayWrite HIGH) (out (loop (dryPass 300000)) bootedOK)
  /\ In (RelayWrite HIGH)
        (out (loop (dryPass 600000))
             (exec (run [dryPass 305000]) (exec (loop (dryPass 300000)) bootedOK)))
  /\ IRRIGATION_COOLDOWN <= ulong_sub (now (dryPass 600000)) (now (dryPass 300000)).
Proof.
  split; [exact first_start_at_300s|]. split; [exact second_start_at_600s|].
  exact (cooldown_between_starts bootedOK (dryPass 300000) [dryPass 305000]
           (dryPass 600000) first_start_at_300s no_start_at_305s eq_refl
           second_start_at_600s).
Defined.

(** C5 as stated fails: the pump is switched on at 300 s, off at 305 s and on
    again at 600 s, 295 s after it was switched off. *)
Lemma cooldown_from_end_counterexample :
  List.map writes (cycles [dryPass 300000; dryPass 305000; dryPass 600000] bootedOK)
  = [[RelayWrite HIGH]; [RelayWrite LOW]; [RelayWrite HIGH]]
  /\ ~ (IRRIGATION_COOLDOWN <= ulong_sub (now (dryPass 600000)) (now (dryPass 305000))).
Proof.
  split; [vm_compute; reflexivity|].
  vm_compute. intros H. apply H. reflexivity.
Qed.

(* ========================================================================= *)
(** ** The consistency check *)
(* ========================================================================= *)

Lemma Arduino_abs_small z : INT_MIN < z <= INT_MAX -> Arduino.abs z = Z.abs z.
Proof.
  unfold INT_MIN, INT_MAX, Arduino.abs. intros H.
  destruct (0 <? z) eqn:E; bool_to_Z; [lia|].
  rewrite wrap_int_small by (unfold int_range, INT_MIN, INT_MAX; lia). lia.
Qed.

Lemma quot3_small z : - 1610612736 <= z <= 1610612736 -> smallSample (Z.quot z 3).
Proof.
  unfold smallSample. intros H.
  pose proof (Z.quot_rem' z 3) as E.
  pose proof (Z.rem_bound_abs z 3 ltac:(lia)) as B.
  lia.
Qed.

(** On a history of small samples [checkSensorConsistency] accepts exactly
    what the averaged check does not reject. *)
Lemma checkSensorConsistency_average readings newReading :
  historyOK readings -> smallSample newReading ->
  checkSensorConsistency readings newReading
  = negb (rejectedByConsistency readings newReading).
Proof.
  intros [Hlen Hsmall] Hnew.
  destruct readings as [|a [|b [|c [|d rest]]]]; try discriminate Hlen.
  inversion Hsmall as [|? ? Ha Hbc]; subst.
  inversion Hbc as [|? ? Hb Hc']; subst.
  inversion Hc' as [|? ? Hc _]; subst.
  unfold smallSample in *.
  unfold checkSensorConsistency, rejectedByConsistency, averageOfHistory,
    SENSOR_CONSISTENCY_CHECKS, SENSOR_CONSISTENCY_THRESHOLD.
  change (Z.to_nat 3) with 3%nat. cbn [sumReadings nth fold_right].
  unfold int_add, int_div, int_sub.
  assert (Hr : forall z, - 2147483648 <= z <= 2147483647 -> wrap_int z = z).
  { intros z Hz. apply wrap_int_small. exact Hz. }
  rewrite (Hr (0 + a)) by lia. rewrite (Hr (0 + a + b)) by lia.
  rewrite (Hr (0 + a + b + c)) by lia.
  replace (0 + a + b + c) with (a + (b + (c + 0))) by lia.
  pose proof (quot3_small (a + (b + (c + 0))) ltac:(lia)) as Hq.
  unfold smallSample in Hq.
  set (q := Z.quot _ 3) in *. clearbody q.
  rewrite (Hr q) by lia.
  rewrite (Hr (newReading - q)) by lia.
  rewrite Arduino_abs_small by (unfold INT_MIN, INT_MAX; lia).
  apply Z.leb_antisym.
Qed.

Lemma array_store_length readings index x :
  List.length (array_store readings index x) = List.length readings.
Proof.
  revert index. induction readings as [|r rest IH]; intros [|index]; cbn; auto.
Qed.

Lemma array_set_length readings index x :
  List.length (array_set readings index x) = List.length readings.
Proof.
  unfold array_set. destruct (index <? 0); [reflexivity | apply array_store_length].
Qed.






(* ========================================================================= *)
(** ** Reading the sensors *)
(* ========================================================================= *)

Lemma exec_onValidation f m :
  exec (onValidation f) m = set_sensorValidation (f m (sensorValidation m)) m.
Proof. reflexivity. Qed.

Lemma exec_onState f m :
  exec (onState f) m = set_systemState (f m (systemState m)) m.
Proof. reflexivity. Qed.

(** [readSensors] on a DHT reading that is not NaN, with the verdict of the
    validator named. *)
Lemma readSensors_exec t h a m :
  let v' := validateSensorReadings t h (soilPercentOfRaw a) (sensorValidation m) in
  exec (readSensors (Some t) (Some h) a) m
  = if temperatureValid v' && humidityValid v' && soilMoistureValid v'
    then {| systemState :=
              set_sensorErrors 0
                (set_soilMoisturePercent (soilPercentOfRaw a)
                   (set_soilMoistureRaw a
                      (set_humidity h (set_temperature t (systemState m)))));
            sensorValidation := set_disconnectCount 0 v';
            currentTime := currentTime m;
            relayPin := relayPin m |}
    else {| systemState :=
              set_sensorErrors (int_incr (sensorErrors (systemState m)))
                               (systemState m);
            sensorValidation := v';
            currentTime := currentTime m;
            relayPin := relayPin m |}.
Proof.
  cbn zeta. unfold readSensors. cmd_simpl. rewrite !exec_onValidation.
  generalize (validateSensorReadings t h (soilPercentOfRaw a) (sensorValidation m)).
  intros v'.
  change (sensorValidation (set_sensorValidation v' m)) with v'.
  destruct (temperatureValid v' && humidityValid v' && soilMoistureValid v');
    reflexivity.
Qed.

(* ========================================================================= *)
(** ** Disconnect detection *)
(* ========================================================================= *)

(** With a DHT reading that is not NaN, [readSensors] leaves
    [disconnectCount] as it was or resets it: a rejected sample does not
    count. *)
Lemma validateSensorReadings_disconnectCount t h s v :
  disconnectCount (validateSensorReadings t h s v) = disconnectCount v.
Proof.
  unfold validateSensorReadings. cbn.
  repeat match goal with |- context [if ?b then _ else _] => destruct b end;
    reflexivity.
Qed.

Lemma readSensors_disconnectCount t h a m :
  let m' := exec (readSensors (Some t) (Some h) a) m in
  disconnectCount (sensorValidation m') = 0
  \/ disconnectCount (sensorValidation m') = disconnectCount (sensorValidation m).
Proof.
  pose proof (readSensors_exec t h a m) as E. cbn zeta in *. rewrite E.
  pose proof (validateSensorReadings_disconnectCount t h (soilPercentOfRaw a)
                (sensorValidation m)) as D.
  revert D.
  generalize (validateSensorReadings t h (soilPercentOfRaw a) (sensorValidation m)).
  intros v' D.
  destruct (temperatureValid v' && humidityValid v' && soilMoistureValid v');
    [left; reflexivity | right; exact D].
Qed.

(** C7 at its failing input.  Ten readings in a row whose soil sample is
    rejected (the probe swings between 100 and 0 percent) leave
    [disconnectCount] at 0 after each of them, called one after the other or
    in ten passes of [loop()] 5 s apart; ten NaN readings of the DHT take it
    to [SENSOR_DISCONNECT_THRESHOLD], which nothing compares it with. *)
Theorem disconnect_count_ignores_rejections :
  List.map (fun m => (soilMoistureValid (sensorValidation m),
                      disconnectCount (sensorValidation m),
                      sensorErrors (systemState m)))
           (trail (readSensors (Some 0%Q) (Some 0%Q)) flappingSoil bootedOK)
  = [(false, 0, 1); (false, 0, 2); (false, 0, 3); (false, 0, 4); (false, 0, 5);
     (false, 0, 6); (false, 0, 7); (false, 0, 8); (false, 0, 9); (false, 0, 10)]
  /\ List.map (fun c => disconnectCount (sensorValidation (after c)))
              (cycles flappingPasses bootedOK)
     = [0; 0; 0; 0; 0; 0; 0; 0; 0; 0]
  /\ disconnectCount
       (sensorValidation
          (exec (iterate (fun _ : unit => readSensors None None 0) (repeat tt 10))
                bootedOK))
     = SENSOR_DISCONNECT_THRESHOLD.
Proof.
  split; [vm_compute; reflexivity|].
  split; vm_compute; reflexivity.
Qed.

(* ========================================================================= *)
(** ** Which soil-moisture value the decision reads *)
(* ========================================================================= *)

(** C8 as stated fails for online.ino: the reading of 0 percent after a
    validated 50 percent is rejected (sudden change), is stored in
    [soilMoisturePercent] all the same, and makes [controlIrrigation] start
    the pump, which the validated value did not. *)
Lemma online_uses_rejected_soil_sample :
  Online.soilMoistureValid (Online.sensorValidation onlineSettled) = true
  /\ Online.soilMoisturePercent (Online.systemState onlineSettled) = 50
  /\ out Online.controlIrrigation onlineSettled = []
  /\ Online.soilMoistureValid (Online.sensorValidation onlineGlitch) = false
  /\ Online.soilMoisturePercent (Online.systemState onlineGlitch) = 0
  /\ out Online.controlIrrigation onlineGlitch = [RelayWrite HIGH].
Proof. repeat split; vm_compute; reflexivity. Qed.

Lemma readSensors_soilMoisturePercent t h a m :
  soilMoisturePercent (systemState (exec (readSensors t h a) m))
  = match t, h with
    | Some temperature, Some humidity =>
        let v' := validateSensorReadings temperature humidity (soilPercentOfRaw a)
                                         (sensorValidation m) in
        if temperatureValid v' && humidityValid v' && soilMoistureValid v'
        then soilPercentOfRaw a
        else soilMoisturePercent (systemState m)
    | _, _ => soilMoisturePercent (systemState m)
    end.
Proof.
  destruct t as [t|], h as [h|]; try reflexivity.
  pose proof (readSensors_exec t h a m) as E. cbn zeta in *. rewrite E.
  generalize (validateSensorReadings t h (soilPercentOfRaw a) (sensorValidation m)).
  intros v'.
  destruct (temperatureValid v' && humidityValid v' && soilMoistureValid v');
    reflexivity.
Qed.

Lemma readSensors_soilMoistureValid t h a m :
  soilMoistureValid (sensorValidation (exec (readSensors (Some t) (Some h) a) m))
  = soilMoistureValid
      (validateSensorReadings t h (soilPercentOfRaw a) (sensorValidation m)).
Proof.
  pose proof (readSensors_exec t h a m) as E. cbn zeta in *. rewrite E.
  generalize (validateSensorReadings t h (soilPercentOfRaw a) (sensorValidation m)).
  intros v'.
  destruct (temperatureValid v' && humidityValid v' && soilMoistureValid v');
    reflexivity.
Qed.

(** C8, as the sketches have it.  In smart_farming_online.ino [readSensors]
    stores the new soil-moisture value only when the temperature, humidity
    and soil-moisture samples are all valid, and keeps the old value
    otherwise (also when the DHT reports NaN).  In online.ino [readSensors]
    stores the new soil-moisture value whenever the DHT does not report NaN,
    whatever the validator said of it. *)
Theorem soil_state_update_by_variant :
  (forall (t h : option Q) (a : Z) (m : Machine),
      soilMoisturePercent (systemState (exec (readSensors t h a) m))
      = match t, h with
        | Some temperature, Some humidity =>
            let v' := validateSensorReadings temperature humidity (soilPercentOfRaw a)
                                             (sensorValidation m) in
            if temperatureValid v' && humidityValid v' && soilMoistureValid v'
            then soilPercentOfRaw a
            else soilMoisturePercent (systemState m)
        | _, _ => soilMoisturePercent (systemState m)
        end)
  /\ (forall (t h : Q) (a : Z) (m : Machine),
         soilMoistureValid (sensorValidation (exec (readSensors (Some t) (Some h) a) m))
         = false ->
         soilMoisturePercent (systemState (exec (readSensors (Some t) (Some h) a) m))
         = soilMoisturePercent (systemState m))
  /\ (forall (t h : Q) (a l : Z) (m : Online.Machine),
         Online.soilMoisturePercent
           (Online.systemState (exec (Online.readSensors (Some t) (Some h) a l) m))
         = Online.soilPercentOfRaw a
         /\ Online.soilMoistureValid
              (Online.sensorValidation
                 (exec (Online.readSensors (Some t) (Some h) a l) m))
            = Online.soilMoistureValid
                (Online.validateSensorReadings t h (Online.soilPercentOfRaw a)
                   (snd (Online.lightOfAnalog l)) (Online.sensorValidation m))).
Proof.
  split; [|split].
  - intros t h a m. apply readSensors_soilMoisturePercent.
  - intros t h a m Hv.
    rewrite readSensors_soilMoistureValid in Hv.
    rewrite readSensors_soilMoisturePercent. cbn zeta.
    rewrite Hv, andb_false_r. reflexivity.
  - intros t h a l m. unfold Online.readSensors. cmd_simpl.
    change (exec (Online.onValidation
                    (fun _ => Online.validateSensorReadings t h
                                (Online.soilPercentOfRaw a)
                                (snd (Online.lightOfAnalog l)))) m)
      with (Online.set_sensorValidation
              (Online.validateSensorReadings t h (Online.soilPercentOfRaw a)
                 (snd (Online.lightOfAnalog l)) (Online.sensorValidation m)) m).
    generalize (Online.validateSensorReadings t h (Online.soilPercentOfRaw a)
                  (snd (Online.lightOfAnalog l)) (Online.sensorValidation m)).
    intros v'.
    match goal with |- context [if ?b then _ else _] => destruct b end;
      split; reflexivity.
Qed.

(* ========================================================================= *)
(** ** The web control endpoint *)
(* ========================================================================= *)


(** In a pass of [loop()] that is not latched, a served start request drives
    the relay HIGH, whatever the state. *)
Lemma loop_serves_start i m :
  emergencyStop (systemState m) = false -> servesStart i = true ->
  In (RelayWrite HIGH) (out (loop i) m).
Proof.
  intros He Hs. destruct (tracks_loop i m) as [w [_ Ho]]. rewrite Ho.
  assert (Hl : latched (pumpOf m) = false) by exact He.
  revert Hl Hs. generalize (pumpOf m). intros p Hl Hs.
  destruct p as [a s l c e r t]. cbn in Hl. subst e.
  pump_start i; try discriminate; split_ifs; cbn; auto.
Qed.

(* ========================================================================= *)
(** ** What stopping the pump leaves alone *)
(* ========================================================================= *)

(** C10.  In both sketches [stopIrrigation] drives the relay LOW, clears
    [pumpActive] and changes nothing else: every other field of
    [systemState], in particular [lastIrrigation], [pumpStartTime],
    [dailyIrrigations] and [sensorErrors], the whole of [sensorValidation]
    and [currentTime] are as before.  So the two windows that
    [controlIrrigation] measures from [lastIrrigation] (cooldown and
    duration) stay anchored at the start of the irrigation. *)
Theorem stopIrrigation_frame :
  (forall m : Machine,
      let m' := exec stopIrrigation m in
      out stopIrrigation m = [RelayWrite LOW]
      /\ relayPin m' = LOW
      /\ systemState m' = set_pumpActive false (systemState m)
      /\ lastIrrigation (systemState m') = lastIrrigation (systemState m)
      /\ pumpStartTime (systemState m') = pumpStartTime (systemState m)
      /\ dailyIrrigations (systemState m') = dailyIrrigations (systemState m)
      /\ sensorErrors (systemState m') = sensorErrors (systemState m)
      /\ sensorValidation m' = sensorValidation m
      /\ currentTime m' = currentTime m
      /\ ulong_sub (currentTime m') (lastIrrigation (systemState m'))
         = ulong_sub (currentTime m) (lastIrrigation (systemState m)))
  /\ (forall m : Online.Machine,
         let m' := exec Online.stopIrrigation m in
         out Online.stopIrrigation m = [RelayWrite LOW]
         /\ Online.relayPin m' = LOW
         /\ Online.systemState m' = Online.set_pumpActive false (Online.systemState m)
         /\ Online.lastIrrigation (Online.systemState m')
            = Online.lastIrrigation (Online.systemState m)
         /\ Online.pumpStartTime (Online.systemState m')
            = Online.pumpStartTime (Online.systemState m)
         /\ Online.dailyIrrigations (Online.systemState m')
            = Online.dailyIrrigations (Online.systemState m)
         /\ Online.sensorErrors (Online.systemState m')
            = Online.sensorErrors (Online.systemState m)
         /\ Online.sensorValidation m' = Online.sensorValidation m
         /\ Online.currentTime m' = Online.currentTime m
         /\ ulong_sub (Online.currentTime m')
                      (Online.lastIrrigation (Online.systemState m'))
            = ulong_sub (Online.currentTime m)
                        (Online.lastIrrigation (Online.systemState m))).
Proof.
  split; intros m; repeat split; reflexivity.
Qed.

(* ========================================================================= *)
(** ** Observations that a command keeps *)
(* ========================================================================= *)

Section Keeping.
Context {M A : Type}.
Implicit Types (f : M -> A) (a b : Cmd M).

Lemma keeps_seq f a b : keeps f a -> keeps f b -> keeps f (a ;; b).
Proof. intros Ha Hb m. rewrite exec_seq, Hb. apply Ha. Qed.

Lemma keeps_ifc f c a b : keeps f a -> keeps f b -> keeps f (ifc c a b).
Proof. intros Ha Hb m. rewrite exec_ifc. destruct (c m); [apply Ha | apply Hb]. Qed.

Lemma keeps_skip f : keeps f skip.
Proof. intros m. reflexivity. Qed.

Lemma keeps_when f c a : keeps f a -> keeps f (when c a).
Proof. intros Ha. apply keeps_ifc; [exact Ha | apply keeps_skip]. Qed.

Lemma preserves_seq (P : M -> Prop) a b :
  preserves P a -> preserves P b -> preserves P (a ;; b).
Proof. intros Ha Hb m Hm. rewrite exec_seq. apply Hb, Ha, Hm. Qed.

Lemma preserves_ifc (P : M -> Prop) c a b :
  preserves P a -> preserves P b -> preserves P (ifc c a b).
Proof.
  intros Ha Hb m Hm. rewrite exec_ifc. destruct (c m); [apply Ha | apply Hb]; exact Hm.
Qed.

(** The guard of [if (c) { a }] may be used to carry [P] over. *)
Lemma preserves_when (P : M -> Prop) c a :
  (forall m, c m = true -> P m -> P (exec a m)) -> preserves P (when c a).
Proof.
  intros Ha m Hm. rewrite exec_when. destruct (c m) eqn:E; [now apply Ha | exact Hm].
Qed.

Lemma keeps_preserves f (Q : A -> Prop) a :
  keeps f a -> preserves (fun m => Q (f m)) a.
Proof. intros Ha m Hm. now rewrite Ha. Qed.
End Keeping.

Ltac keeps_tac :=
  repeat first
    [ apply keeps_seq | apply keeps_when | apply keeps_ifc | apply keeps_skip
    | (intro; reflexivity) ].

(* ========================================================================= *)
(** ** The validator in one piece *)
(* ========================================================================= *)

(** Everything [validateSensorReadings] leaves in [sensorValidation]. *)
Lemma validateSensorReadings_value temperature humidity soilMoisture v :
  validateSensorReadings temperature humidity soilMoisture v
  = {| lastTemperature := temperature;
       lastHumidity := humidity;
       lastSoilMoisture := soilMoisture;
       temperatureReadings :=
         array_set (temperatureReadings v) (readingIndex v)
                   (float_to_int (temperature * (10 # 1)));
       humidityReadings :=
         array_set (humidityReadings v) (readingIndex v)
                   (float_to_int (humidity * (10 # 1)));
       soilMoistureReadings :=
         array_set (soilMoistureReadings v) (readingIndex v) soilMoisture;
       readingIndex := int_rem (int_add (readingIndex v) 1) SENSOR_CONSISTENCY_CHECKS;
       temperatureValid :=
         isSensorReadingValid temperature MIN_TEMPERATURE MAX_TEMPERATURE
                              TEMPERATURE_VALIDATION
         && checkSensorConsistency (temperatureReadings v)
              (float_to_int (temperature * (10 # 1)));
       humidityValid :=
         isSensorReadingValid humidity MIN_HUMIDITY MAX_HUMIDITY HUMIDITY_VALIDATION
         && checkSensorConsistency (humidityReadings v)
              (float_to_int (humidity * (10 # 1)));
       soilMoistureValid :=
         soilRangeAndChange soilMoisture v
         && checkSensorConsistency (soilMoistureReadings v) soilMoisture;
       disconnectCount := disconnectCount v |}.
Proof.
  unfold validateSensorReadings, soilRangeAndChange, CONSISTENCY_VALIDATION,
    SOIL_MOISTURE_VALIDATION.
  cbn -[isSensorReadingValid checkSensorConsistency array_set
        int_rem int_add int_sub Arduino.abs float_to_int Qmult Z.ltb].
  destruct (isSensorReadingValid (inject_Z soilMoisture) _ _ true);
    [destruct (MAX_SOIL_MOISTURE_CHANGE <? _)|];
    reflexivity.
Qed.

(* ========================================================================= *)
(** ** More on the pump, pass by pass *)
(* ========================================================================= *)

Lemma pump_loop_latch_false i w p :
  latched p = false -> latched (exec (PumpView.loop i w) p) = false.
Proof. pump_cases i p. Qed.

Lemma pump_loop_timers i w p :
  started p = last p ->
  started (exec (PumpView.loop i w) p) = last (exec (PumpView.loop i w) p).
Proof. pump_cases i p. Qed.

Lemma pump_loop_one_start i w p :
  let r := PumpView.loop i w p in
  (List.length (filter isHigh (snd r)) <= 1)%nat
  /\ count (fst r) = if existsb isHigh (snd r) then int_incr (count p) else count p.
Proof. pump_cases i p. Qed.

Lemma pump_loop_normal_stop i w p :
  servesStart i = false -> active p = true ->
  IRRIGATION_DURATION <= ulong_sub (now i) (last p) ->
  ulong_sub (now i) (last p) < IRRIGATION_COOLDOWN ->
  let r := PumpView.loop i w p in
  active (fst r) = false /\ In (RelayWrite LOW) (snd r)
  /\ ~ In (RelayWrite HIGH) (snd r).
Proof. pump_cases i p. Qed.

(** A property of the pump view of a pass holds of the pass. *)
Lemma loop_pump_property (P : Pump -> Pump -> list Event -> Prop) i m :
  (forall w p, P p (fst (PumpView.loop i w p)) (snd (PumpView.loop i w p))) ->
  P (pumpOf m) (pumpOf (exec (loop i) m)) (out (loop i) m).
Proof.
  intros H. destruct (tracks_loop i m) as [w [Hp Ho]]. rewrite Hp, Ho. apply H.
Qed.

Lemma booted_pump testTemp testHumidity :
  pumpOf (booted testTemp testHumidity)
  = {| active := false; started := 0; last := 0; count := 0; latched := false;
       relay := LOW; clock := 0 |}.
Proof. destruct testTemp, testHumidity; reflexivity. Qed.

(** The relay and the flag.  In every state that [setup()] and passes of
    [loop()] reach, the level of RELAY_PIN equals [systemState.pumpActive]:
    what the status JSON, the display and the red LED report is what the
    relay does. *)
Theorem relay_follows_flag_in_runs :
  forall (inputs : list CycleInput) (testTemp testHumidity : option Q),
    relayFollowsFlag (booted testTemp testHumidity)
    /\ Forall (fun c => relayFollowsFlag (after c))
              (cycles inputs (booted testTemp testHumidity)).
Proof.
  intros inputs testTemp testHumidity.
  assert (H0 : relayFollowsFlag (booted testTemp testHumidity))
    by (destruct testTemp, testHumidity; reflexivity).
  split; [exact H0|].
  apply (cycles_invariant relayFollowsFlag (fun _ => True));
    auto using Forall_True.
  intros m i Hm _. cbn [after]. split; now apply loop_relayFollowsFlag.
Qed.

(** The latch is never raised.  In every state that [setup()] and passes of
    [loop()] reach, [systemState.emergencyStop] is false: the only assignment
    of the flag is in [emergencyStop()], which [loop()] calls only when the
    flag is already set, and no pass switches the pump off through it. *)
Theorem latch_never_raised :
  forall (inputs : list CycleInput) (testTemp testHumidity : option Q),
    Forall (fun c => emergencyStop (systemState (after c)) = false)
           (cycles inputs (booted testTemp testHumidity)).
Proof.
  intros inputs testTemp testHumidity.
  apply (cycles_invariant (fun m => emergencyStop (systemState m) = false)
                          (fun _ => True)); auto using Forall_True.
  - intros m i Hm _. cbn [after].
    assert (H : emergencyStop (systemState (exec (loop i) m)) = false).
    { apply (loop_pump_property
               (fun p p' _ => latched p = false -> latched p' = false) i m);
        [|exact Hm].
      intros w p. apply pump_loop_latch_false. }
    split; exact H.
  - destruct testTemp, testHumidity; reflexivity.
Qed.

(** The two timers of the pump.  In every state that [setup()] and passes of
    [loop()] reach, [pumpStartTime] equals [lastIrrigation]: the runtime
    ceiling of [checkPumpRuntime] and the duration and cooldown of
    [controlIrrigation] are measured from the same instant. *)
Theorem pump_timers_agree :
  forall (inputs : list CycleInput) (testTemp testHumidity : option Q),
    Forall (fun c => pumpStartTime (systemState (after c))
                     = lastIrrigation (systemState (after c)))
           (cycles inputs (booted testTemp testHumidity)).
Proof.
  intros inputs testTemp testHumidity.
  apply (cycles_invariant
           (fun m => pumpStartTime (systemState m) = lastIrrigation (systemState m))
           (fun _ => True)); auto using Forall_True.
  - intros m i Hm _. cbn [after].
    assert (H : pumpStartTime (systemState (exec (loop i) m))
                = lastIrrigation (systemState (exec (loop i) m))).
    { apply (loop_pump_property
               (fun p p' _ => started p = last p -> started p' = last p') i m);
        [|exact Hm].
      intros w p. apply pump_loop_timers. }
    split; exact H.
  - destruct testTemp, testHumidity; reflexivity.
Qed.

(** Counting the irrigations.  A pass of [loop()] drives the relay HIGH at
    most once, and it increments [dailyIrrigations] exactly when it does;
    otherwise the counter is unchanged: no pass lowers or resets it. *)
Theorem one_start_per_pass :
  forall (m : Machine) (i : CycleInput),
    (List.length (filter isHigh (out (loop i) m)) <= 1)%nat
    /\ dailyIrrigations (systemState (exec (loop i) m))
       = if existsb isHigh (out (loop i) m)
         then int_incr (dailyIrrigations (systemState m))
         else dailyIrrigations (systemState m).
Proof.
  intros m i.
  apply (loop_pump_property
           (fun p p' es => (List.length (filter isHigh es) <= 1)%nat
                           /\ count p' = if existsb isHigh es
                                         then int_incr (count p) else count p) i m).
  intros w p. apply pump_loop_one_start.
Qed.

(** The end of an irrigation.  A pass that serves no start request and finds
    the pump active with
    [IRRIGATION_DURATION <= currentTime - lastIrrigation < IRRIGATION_COOLDOWN]
    writes LOW to the relay, does not write HIGH and ends with the pump
    off. *)
Theorem irrigation_ends_after_duration :
  forall (m : Machine) (i : CycleInput),
    servesStart i = false ->
    pumpActive (systemState m) = true ->
    IRRIGATION_DURATION <= ulong_sub (now i) (lastIrrigation (systemState m)) ->
    ulong_sub (now i) (lastIrrigation (systemState m)) < IRRIGATION_COOLDOWN ->
    pumpActive (systemState (exec (loop i) m)) = false
    /\ In (RelayWrite LOW) (out (loop i) m)
    /\ ~ In (RelayWrite HIGH) (out (loop i) m).
Proof.
  intros m i Hs Ha Hd Hc.
  apply (loop_pump_property
           (fun p p' es =>
              active p = true ->
              IRRIGATION_DURATION <= ulong_sub (now i) (last p) ->
              ulong_sub (now i) (last p) < IRRIGATION_COOLDOWN ->
              active p' = false /\ In (RelayWrite LOW) es
              /\ ~ In (RelayWrite HIGH) es) i m); auto.
  intros w p. apply pump_loop_normal_stop. exact Hs.
Qed.

Lemma irrigating_at_305s :
  pumpActive (systemState irrigating) = true
  /\ IRRIGATION_DURATION
     <= ulong_sub (now (dryPass 305000)) (lastIrrigation (systemState irrigating))
  /\ ulong_sub (now (dryPass 305000)) (lastIrrigation (systemState irrigating))
     < IRRIGATION_COOLDOWN.
Proof.
  split; [vm_compute; reflexivity|].
  split; [vm_compute; discriminate | vm_compute; reflexivity].
Qed.

Lemma irrigation_ends_after_duration_witness :
  pumpActive (systemState irrigating) = true
  /\ pumpActive (systemState (exec (loop (dryPass 305000)) irrigating)) = false.
Proof.
  destruct irrigating_at_305s as (Ha & Hd & Hc).
  split; [exact Ha|].
  exact (proj1 (irrigation_ends_after_duration irrigating (dryPass 305000)
                  eq_refl Ha Hd Hc)).
Defined.

(** What [controlIrrigation] decides.  One call writes the relay at most
    once: HIGH exactly when the soil moisture is below the threshold, the
    cooldown has expired, the daily count is below its maximum, the system is
    healthy ([systemOK] and fewer than [MAX_SENSOR_ERRORS] errors) and the
    pump is off; otherwise LOW exactly when the pump is on and
    [IRRIGATION_DURATION] has passed since [lastIrrigation]; otherwise
    nothing.  A call that starts the pump never stops it again. *)
Theorem controlIrrigation_decision :
  forall m : Machine,
    out controlIrrigation m
    = if irrigationWanted m
         && (IRRIGATION_COOLDOWN
             <=? ulong_sub (currentTime m) (lastIrrigation (systemState m)))
         && (dailyIrrigations (systemState m) <? MAX_DAILY_IRRIGATIONS)
         && negb (pumpActive (systemState m))
      then [RelayWrite HIGH]
      else if pumpActive (systemState m)
              && (IRRIGATION_DURATION
                  <=? ulong_sub (currentTime m) (lastIrrigation (systemState m)))
           then [RelayWrite LOW]
           else [].
Proof.
  intros m. destruct (tracks_controlIrrigation m) as [_ Ho]. rewrite Ho.
  change (pumpActive (systemState m)) with (active (pumpOf m)).
  change (lastIrrigation (systemState m)) with (last (pumpOf m)).
  change (dailyIrrigations (systemState m)) with (count (pumpOf m)).
  change (currentTime m) with (clock (pumpOf m)).
  generalize (irrigationWanted m) (pumpOf m). intros w p.
  destruct p as [a s l c e r t].
  pump_unfold; unfold_config; cbn. split_ifs; pump_finish.
Qed.

(* ========================================================================= *)
(** ** Requests that are no command *)
(* ========================================================================= *)




(* ========================================================================= *)
(** ** Invariants of a pass, command by command *)
(* ========================================================================= *)

(** [loop()] carries over what each command it calls carries over; for the
    recovery the guard of its [if] may be used. *)
Lemma preserves_loop (P : Machine -> Prop) (i : CycleInput) :
  preserves P (assign (set_currentTime (wrap_ulong (millis i)))) ->
  preserves P feedWatchdog ->
  preserves P emergencyStop_fn ->
  preserves P checkPumpRuntime ->
  preserves P (handleClient (pending i)) ->
  preserves P (readSensors (dhtTemperature i) (dhtHumidity i) (soilAnalog i)) ->
  preserves P (onState (fun m => set_lastSensorRead (currentTime m))) ->
  preserves P (handleHardwareControl (potAnalog i)) ->
  preserves P controlIrrigation ->
  preserves P checkSystemStatus ->
  preserves P (onState (fun m => set_lastErrorCheck (currentTime m))) ->
  (forall m, (recoveryAttempts (systemState m) <? RECOVERY_ATTEMPTS) = true ->
             P m ->
             P (exec (attemptSystemRecovery (recoveryTemperature i)
                                            (recoveryHumidity i)) m)) ->
  preserves P (loop i).
Proof.
  intros Ht Hw He Hc Hh Hr Hsr Hp Hci Hs Hse Hrec. unfold loop.
  apply preserves_seq; [exact Ht|].
  apply preserves_seq; [exact Hw|].
  apply preserves_ifc; [exact He|].
  apply preserves_seq; [apply preserves_when; intros; now apply Hc|].
  apply preserves_seq; [exact Hh|].
  apply preserves_seq.
  { apply preserves_when. intros m _. apply preserves_seq; assumption. }
  apply preserves_seq; [apply preserves_when; intros; now apply Hp|].
  apply preserves_seq; [exact Hci|].
  apply preserves_seq.
  { apply preserves_when. intros m _. apply preserves_seq; assumption. }
  apply preserves_when. intros m Hg Hm.
  apply andb_prop in Hg. destruct Hg as [_ Hg]. now apply Hrec.
Qed.

Lemma keeps_controlIrrigation {A : Type} (f : Machine -> A) :
  keeps f startIrrigation -> keeps f stopIrrigation -> keeps f controlIrrigation.
Proof.
  intros Hs Hp m. unfold controlIrrigation, exec. cbn beta zeta.
  match goal with
  | |- f (fst (?c m)) = _ => change (f (exec c m) = f m)
  end.
  revert m. apply keeps_seq; apply keeps_when; assumption.
Qed.

Ltac keeps_cmd :=
  unfold feedWatchdog, emergencyStop_fn, checkPumpRuntime, handleHardwareControl,
    handlePotentiometer, checkSystemStatus, attemptSystemRecovery, readSensors,
    handleClient, handleControl, startIrrigation, stopIrrigation;
  repeat match goal with
         | |- keeps _ (match ?x with _ => _ end) => destruct x
         end;
  keeps_tac.

Ltac keeps_leaf :=
  first [ apply keeps_controlIrrigation; keeps_cmd | keeps_cmd ].

Lemma run_preserves (P : Machine -> Prop) (Q : CycleInput -> Prop) :
  (forall i, Q i -> preserves P (loop i)) ->
  forall inputs, Forall Q inputs -> preserves P (run inputs).
Proof.
  intros step inputs. induction inputs as [|i rest IH]; intros HQ m Hm.
  - exact Hm.
  - inversion HQ as [|? ? Hi Hrest]; subst.
    rewrite run_cons. apply IH; [exact Hrest|]. now apply step.
Qed.

(* ========================================================================= *)
(** ** The recovery counter *)
(* ========================================================================= *)

Lemma attemptSystemRecovery_attempts t h m :
  recoveryAttempts (systemState (exec (attemptSystemRecovery t h) m))
  = match t, h with
    | Some _, Some _ => 0
    | _, _ => int_incr (recoveryAttempts (systemState m))
    end.
Proof. destruct t, h; reflexivity. Qed.

Lemma loop_preserves_attempts (Q : Z -> Prop) (i : CycleInput) :
  (forall m, (recoveryAttempts (systemState m) <? RECOVERY_ATTEMPTS) = true ->
             Q (recoveryAttempts (systemState m)) ->
             Q (recoveryAttempts
                  (systemState (exec (attemptSystemRecovery (recoveryTemperature i)
                                        (recoveryHumidity i)) m)))) ->
  preserves (fun m => Q (recoveryAttempts (systemState m))) (loop i).
Proof.
  intros H.
  apply preserves_loop; try exact H;
    apply (keeps_preserves (fun m => recoveryAttempts (systemState m)) Q);
    solve [keeps_leaf].
Qed.

(** The recovery counter is bounded.  In every state that [setup()] and
    passes of [loop()] reach, [recoveryAttempts] is between 0 and
    [RECOVERY_ATTEMPTS]. *)
Theorem recovery_attempts_bounded :
  forall (inputs : list CycleInput) (testTemp testHumidity : option Q),
    Forall (fun c => 0 <= recoveryAttempts (systemState (after c))
                     <= RECOVERY_ATTEMPTS)
           (cycles inputs (booted testTemp testHumidity)).
Proof.
  intros inputs testTemp testHumidity.
  apply (cycles_invariant
           (fun m => 0 <= recoveryAttempts (systemState m) <= RECOVERY_ATTEMPTS)
           (fun _ => True)); auto using Forall_True.
  - intros m i Hm _. cbn [after].
    assert (H : 0 <= recoveryAttempts (systemState (exec (loop i) m))
                <= RECOVERY_ATTEMPTS).
    { revert m Hm.
      apply (loop_preserves_attempts (fun r => 0 <= r <= RECOVERY_ATTEMPTS)).
      intros m Hg Hm. rewrite attemptSystemRecovery_attempts.
      apply Z.ltb_lt in Hg. unfold RECOVERY_ATTEMPTS in *.
      destruct (recoveryTemperature i), (recoveryHumidity i); try lia;
        unfold int_incr, int_add;
        rewrite wrap_int_small by (unfold int_range, INT_MIN, INT_MAX; lia); lia. }
    split; exact H.
  - destruct testTemp, testHumidity; cbn; unfold RECOVERY_ATTEMPTS; lia.
Qed.

(** The recovery gives up for good.  Once [recoveryAttempts] has reached
    [RECOVERY_ATTEMPTS], it keeps that value in every later pass, whatever
    the sensors deliver: [attemptSystemRecovery], the only function that
    resets it, is not called again. *)
Theorem recovery_exhausted_for_good :
  forall (inputs : list CycleInput) (m : Machine),
    recoveryAttempts (systemState m) = RECOVERY_ATTEMPTS ->
    Forall (fun c => recoveryAttempts (systemState (after c)) = RECOVERY_ATTEMPTS)
           (cycles inputs m).
Proof.
  intros inputs m Hm.
  apply (cycles_invariant
           (fun m => recoveryAttempts (systemState m) = RECOVERY_ATTEMPTS)
           (fun _ => True)); auto using Forall_True.
  clear. intros m i Hm _. cbn [after].
  assert (H : recoveryAttempts (systemState (exec (loop i) m)) = RECOVERY_ATTEMPTS).
  { revert m Hm.
    apply (loop_preserves_attempts (fun r => r = RECOVERY_ATTEMPTS)).
    intros m Hg Hm. rewrite Hm in Hg. discriminate Hg. }
  split; exact H.
Qed.

Lemma exhausted_attempts : recoveryAttempts (systemState exhausted) = RECOVERY_ATTEMPTS.
Proof. vm_compute. reflexivity. Qed.

Lemma recovery_exhausted_for_good_witness :
  recoveryAttempts (systemState exhausted) = RECOVERY_ATTEMPTS
  /\ Forall (fun c => recoveryAttempts (systemState (after c)) = RECOVERY_ATTEMPTS)
            (cycles [dryPass 80000; failingPass 85000; dryPass 90000] exhausted).
Proof.
  split; [exact exhausted_attempts|].
  exact (recovery_exhausted_for_good _ exhausted exhausted_attempts).
Defined.

(** A failed recovery looks like a success to the next status check.
    Whatever the test readings of [attemptSystemRecovery] are, it clears
    [sensorErrors], so a [checkSystemStatus] that follows it sets [systemOK]
    to true. *)
Theorem status_check_after_recovery :
  forall (testTemp testHumidity : option Q) (m : Machine),
    sensorErrors (systemState (exec (attemptSystemRecovery testTemp testHumidity) m))
    = 0
    /\ systemOK (systemState
                   (exec (attemptSystemRecovery testTemp testHumidity ;;
                          checkSystemStatus) m))
       = true.
Proof.
  intros [t|] [h|] m; split; reflexivity.
Qed.

(* ========================================================================= *)
(** ** The threshold from the potentiometer *)
(* ========================================================================= *)

Lemma potentiometer_threshold analog :
  adcRange analog ->
  Arduino.map analog 0 4095 POTENTIOMETER_MIN_THRESHOLD POTENTIOMETER_MAX_THRESHOLD
  = analog * 45 / 4095 + 5.
Proof.
  unfold adcRange, Arduino.map, POTENTIOMETER_MIN_THRESHOLD,
    POTENTIOMETER_MAX_THRESHOLD, int_add, int_div, int_mul, int_sub.
  intros H.
  assert (Hr : forall z, - 2147483648 <= z <= 2147483647 -> wrap_int z = z)
    by (intros z Hz; apply wrap_int_small; exact Hz).
  rewrite (Hr (analog - 0)) by lia. rewrite (Hr (50 - 5)) by lia.
  rewrite (Hr (4095 - 0)) by lia. rewrite (Hr ((analog - 0) * (50 - 5))) by lia.
  replace ((analog - 0) * (50 - 5)) with (analog * 45) by lia.
  replace (4095 - 0) with 4095 by lia.
  rewrite Z.quot_div_nonneg by lia.
  assert (0 <= analog * 45 / 4095 <= 45).
  { split; [apply Z.div_pos; lia|].
    apply Z.div_le_upper_bound; lia. }
  rewrite (Hr (analog * 45 / 4095)) by lia.
  apply Hr. lia.
Qed.

Lemma handleHardwareControl_threshold analog m :
  adcRange analog ->
  POTENTIOMETER_MIN_THRESHOLD <= adjustedThreshold (systemState m)
  <= POTENTIOMETER_MAX_THRESHOLD ->
  POTENTIOMETER_MIN_THRESHOLD
  <= adjustedThreshold (systemState (exec (handleHardwareControl analog) m))
  <= POTENTIOMETER_MAX_THRESHOLD.
Proof.
  intros Ha Hm. unfold handleHardwareControl, handlePotentiometer. cmd_simpl.
  match goal with |- context [if ?b then _ else _] => destruct b end; [|exact Hm].
  rewrite !exec_onState.
  cbn [adjustedThreshold potentiometerValue systemState set_systemState
       set_lastPotentiometerRead set_adjustedThreshold set_potentiometerValue].
  rewrite (potentiometer_threshold analog Ha).
  unfold adcRange, POTENTIOMETER_MIN_THRESHOLD, POTENTIOMETER_MAX_THRESHOLD in *.
  assert (0 <= analog * 45 / 4095 <= 45).
  { split; [apply Z.div_pos; lia|].
    apply Z.div_le_upper_bound; lia. }
  lia.
Qed.

(** The threshold stays on the dial.  If [analogRead(POTENTIOMETER_PIN)]
    returns 12-bit values, then in every state that [setup()] and passes of
    [loop()] reach, the threshold that [controlIrrigation] uses is between
    [POTENTIOMETER_MIN_THRESHOLD] and [POTENTIOMETER_MAX_THRESHOLD]. *)
Theorem threshold_within_potentiometer_range :
  forall (inputs : list CycleInput) (testTemp testHumidity : option Q),
    Forall (fun i => adcRange (potAnalog i)) inputs ->
    Forall (fun c => POTENTIOMETER_MIN_THRESHOLD
                     <= adjustedThreshold (systemState (after c))
                     <= POTENTIOMETER_MAX_THRESHOLD)
           (cycles inputs (booted testTemp testHumidity)).
Proof.
  intros inputs testTemp testHumidity Hq.
  apply (cycles_invariant
           (fun m => POTENTIOMETER_MIN_THRESHOLD <= adjustedThreshold (systemState m)
                     <= POTENTIOMETER_MAX_THRESHOLD)
           (fun i => adcRange (potAnalog i))); [| |exact Hq].
  - intros m i Hm Hi. cbn [after].
    assert (H : POTENTIOMETER_MIN_THRESHOLD
                <= adjustedThreshold (systemState (exec (loop i) m))
                <= POTENTIOMETER_MAX_THRESHOLD).
    { revert m Hm.
      apply (preserves_loop
               (fun m => POTENTIOMETER_MIN_THRESHOLD
                         <= adjustedThreshold (systemState m)
                         <= POTENTIOMETER_MAX_THRESHOLD));
        try (apply (keeps_preserves
                      (fun m => adjustedThreshold (systemState m))
                      (fun z => POTENTIOMETER_MIN_THRESHOLD <= z
                                <= POTENTIOMETER_MAX_THRESHOLD));
             solve [keeps_leaf]).
      - intros m Hm. now apply handleHardwareControl_threshold.
      - intros m _ Hm.
        destruct (recoveryTemperature i), (recoveryHumidity i); exact Hm. }
    split; exact H.
  - destruct testTemp, testHumidity; cbn;
      unfold POTENTIOMETER_MIN_THRESHOLD, POTENTIOMETER_MAX_THRESHOLD,
        SOIL_MOISTURE_THRESHOLD; lia.
Qed.

Lemma threshold_within_potentiometer_range_witness :
  Forall (fun i => adcRange (potAnalog i)) [dryPass 300000; dryPass 305000]
  /\ Forall (fun c => POTENTIOMETER_MIN_THRESHOLD
                      <= adjustedThreshold (systemState (after c))
                      <= POTENTIOMETER_MAX_THRESHOLD)
            (cycles [dryPass 300000; dryPass 305000] bootedOK).
Proof.
  assert (H : Forall (fun i => adcRange (potAnalog i))
                [dryPass 300000; dryPass 305000])
    by (repeat constructor; cbn; lia).
  split; [exact H|].
  exact (threshold_within_potentiometer_range _ (Some 0%Q) (Some 0%Q) H).
Defined.

(* ========================================================================= *)
(** ** The soil-moisture percentage *)
(* ========================================================================= *)

Lemma constrain_range amt low high :
  low <= high -> low <= Arduino.constrain amt low high <= high.
Proof.
  unfold Arduino.constrain. intros H.
  destruct (amt <? low) eqn:E1; [lia|].
  destruct (high <? amt) eqn:E2; bool_to_Z; lia.
Qed.

Lemma soilPercentOfRaw_range analog : 0 <= soilPercentOfRaw analog <= 100.
Proof. unfold soilPercentOfRaw. apply constrain_range. lia. Qed.

(** The range check says nothing about the soil.  Whatever the ADC returns,
    the percentage that [readSensors] computes is between 0 and 100, so the
    range check of [validateSensorReadings] accepts it: a soil sample is
    rejected only for a sudden change or an inconsistency. *)
Theorem soil_range_check_always_passes :
  forall analog : Z,
    0 <= soilPercentOfRaw analog <= 100
    /\ isSensorReadingValid (inject_Z (soilPercentOfRaw analog)) MIN_SOIL_MOISTURE
                            MAX_SOIL_MOISTURE SOIL_MOISTURE_VALIDATION
       = true.
Proof.
  intros analog. pose proof (soilPercentOfRaw_range analog) as H.
  split; [exact H|].
  unfold isSensorReadingValid, SOIL_MOISTURE_VALIDATION, MIN_SOIL_MOISTURE,
    MAX_SOIL_MOISTURE, Qle_bool, inject_Z.
  cbn [negb Qnum Qden].
  apply andb_true_intro. split; apply Z.leb_le; lia.
Qed.

Lemma soilPercentOfRaw_adc analog :
  adcRange analog -> soilPercentOfRaw analog = 100 - 100 * analog / 4095.
Proof.
  unfold adcRange. intros H.
  assert (Hq : 0 <= 100 * analog / 4095 <= 100).
  { split; [apply Z.div_pos; lia|]. apply Z.div_le_upper_bound; lia. }
  unfold soilPercentOfRaw, Arduino.map, SOIL_MOISTURE_WET_VALUE,
    SOIL_MOISTURE_DRY_VALUE, int_add, int_div, int_mul, int_sub.
  assert (Hr : forall z, - 2147483648 <= z <= 2147483647 -> wrap_int z = z)
    by (intros z Hz; apply wrap_int_small; exact Hz).
  rewrite (Hr (analog - 0)) by lia. rewrite (Hr (0 - 100)) by lia.
  rewrite (Hr (4095 - 0)) by lia. rewrite (Hr ((analog - 0) * (0 - 100))) by lia.
  replace ((analog - 0) * (0 - 100)) with (- (100 * analog)) by lia.
  replace (4095 - 0) with 4095 by lia.
  rewrite Z.quot_opp_l by lia. rewrite Z.quot_div_nonneg by lia.
  rewrite (Hr (- (100 * analog / 4095))) by lia.
  rewrite (Hr (- (100 * analog / 4095) + 100)) by lia.
  unfold Arduino.constrain.
  destruct (_ <? 0) eqn:E1; bool_to_Z; [lia|].
  destruct (100 <? _) eqn:E2; bool_to_Z; lia.
Qed.

(** Wet is high.  On 12-bit readings the soil-moisture percentage is
    [100 - 100 * analog / 4095] (integer division): it falls as the reading
    rises, from 100 at ADC 0 to 0 at ADC 4095. *)
Theorem soil_percent_on_adc_range :
  forall a b : Z,
    adcRange a -> adcRange b -> a <= b ->
    soilPercentOfRaw a = 100 - 100 * a / 4095
    /\ soilPercentOfRaw b <= soilPercentOfRaw a
    /\ soilPercentOfRaw 0 = 100
    /\ soilPercentOfRaw 4095 = 0.
Proof.
  intros a b Ha Hb Hab.
  rewrite (soilPercentOfRaw_adc a Ha), (soilPercentOfRaw_adc b Hb).
  split; [reflexivity|]. split; [|split; reflexivity].
  assert (100 * a / 4095 <= 100 * b / 4095) by (apply Z.div_le_mono; lia).
  lia.
Qed.

Lemma soil_percent_on_adc_range_witness :
  soilPercentOfRaw 2048 = 50 /\ soilPercentOfRaw 4000 <= soilPercentOfRaw 2048.
Proof.
  assert (Ha : adcRange 2048) by (unfold adcRange; lia).
  assert (Hb : adcRange 4000) by (unfold adcRange; lia).
  destruct (soil_percent_on_adc_range 2048 4000 Ha Hb ltac:(lia)) as (E & L & _).
  split; [rewrite E; reflexivity | exact L].
Defined.

Lemma readSensors_soil_range t h a m :
  0 <= soilMoisturePercent (systemState m) <= 100 ->
  0 <= soilMoisturePercent (systemState (exec (readSensors t h a) m)) <= 100.
Proof.
  intros Hm. rewrite readSensors_soilMoisturePercent.
  destruct t as [t|], h as [h|]; try exact Hm. cbn zeta.
  match goal with |- context [if ?b then _ else _] => destruct b end;
    [apply soilPercentOfRaw_range | exact Hm].
Qed.

(** The stored soil moisture is a percentage.  In every state that [setup()]
    and passes of [loop()] reach, [soilMoisturePercent] is between 0 and
    100, whatever [analogRead] returned. *)
Theorem soil_moisture_is_a_percentage :
  forall (inputs : list CycleInput) (testTemp testHumidity : option Q),
    Forall (fun c => 0 <= soilMoisturePercent (systemState (after c)) <= 100)
           (cycles inputs (booted testTemp testHumidity)).
Proof.
  intros inputs testTemp testHumidity.
  apply (cycles_invariant
           (fun m => 0 <= soilMoisturePercent (systemState m) <= 100)
           (fun _ => True)); auto using Forall_True.
  - intros m i Hm _. cbn [after].
    assert (H : 0 <= soilMoisturePercent (systemState (exec (loop i) m)) <= 100).
    { revert m Hm.
      apply (preserves_loop
               (fun m => 0 <= soilMoisturePercent (systemState m) <= 100));
        try (apply (keeps_preserves
                      (fun m => soilMoisturePercent (systemState m))
                      (fun z => 0 <= z <= 100));
             solve [keeps_leaf]).
      - intros m Hm. now apply readSensors_soil_range.
      - intros m _ Hm.
        destruct (recoveryTemperature i), (recoveryHumidity i); exact Hm. }
    split; exact H.
  - destruct testTemp, testHumidity; cbn; lia.
Qed.

(* ========================================================================= *)
(** ** A failing DHT *)
(* ========================================================================= *)

Lemma readSensors_dht_fails i :
  dhtFails i ->
  keeps soilMemory (readSensors (dhtTemperature i) (dhtHumidity i) (soilAnalog i)).
Proof.
  intros [H|H]; rewrite H; unfold readSensors;
    destruct (dhtTemperature i), (dhtHumidity i); try discriminate H;
    keeps_tac.
Qed.

Lemma loop_keeps_soilMemory i x :
  dhtFails i -> preserves (fun m => soilMemory m = x) (loop i).
Proof.
  intros Hi.
  apply preserves_loop;
    try (apply (keeps_preserves soilMemory (fun y => y = x)); solve [keeps_leaf]).
  - apply (keeps_preserves soilMemory (fun y => y = x)).
    now apply readSensors_dht_fails.
  - intros m _ Hm.
    destruct (recoveryTemperature i), (recoveryHumidity i); exact Hm.
Qed.

(** A failing DHT freezes the soil reading.  While the DHT reports NaN,
    [readSensors] returns before it reads the soil probe: over any run of
    such passes [soilMoisturePercent], [soilMoistureRaw] and the validator's
    memory of the soil channel stay as they were, whatever the probe would
    read, so [controlIrrigation] keeps deciding on the last stored value. *)
Theorem dht_failure_freezes_soil :
  forall (inputs : list CycleInput) (m : Machine),
    Forall dhtFails inputs ->
    soilMemory (exec (run inputs) m) = soilMemory m.
Proof.
  intros inputs m H.
  apply (run_preserves (fun m' => soilMemory m' = soilMemory m) dhtFails);
    [|exact H|reflexivity].
  intros i Hi. now apply loop_keeps_soilMemory.
Qed.

Lemma dht_failure_freezes_soil_witness :
  Forall dhtFails failingPasses
  /\ soilMoisturePercent (systemState (exec (run failingPasses) irrigated))
     = soilMoisturePercent (systemState irrigated).
Proof.
  assert (H : Forall dhtFails failingPasses)
    by (repeat constructor; left; reflexivity).
  split; [exact H|].
  exact (f_equal (fun x => fst (fst (fst x)))
                 (dht_failure_freezes_soil failingPasses irrigated H)).
Defined.

(* ========================================================================= *)
(** ** The history of the validator *)
(* ========================================================================= *)

Lemma validate_temperatureReadings t h s v :
  temperatureReadings (validateSensorReadings t h s v)
  = array_set (temperatureReadings v) (readingIndex v) (float_to_int (t * (10 # 1))).
Proof. rewrite validateSensorReadings_value. reflexivity. Qed.

Lemma validate_humidityReadings t h s v :
  humidityReadings (validateSensorReadings t h s v)
  = array_set (humidityReadings v) (readingIndex v) (float_to_int (h * (10 # 1))).
Proof. rewrite validateSensorReadings_value. reflexivity. Qed.

Lemma validate_soilMoistureReadings t h s v :
  soilMoistureReadings (validateSensorReadings t h s v)
  = array_set (soilMoistureReadings v) (readingIndex v) s.
Proof. rewrite validateSensorReadings_value. reflexivity. Qed.

Lemma validate_readingIndex t h s v :
  readingIndex (validateSensorReadings t h s v)
  = int_rem (int_add (readingIndex v) 1) SENSOR_CONSISTENCY_CHECKS.
Proof. rewrite validateSensorReadings_value. reflexivity. Qed.

Lemma validate_lastSoilMoisture t h s v :
  lastSoilMoisture (validateSensorReadings t h s v) = s.
Proof. rewrite validateSensorReadings_value. reflexivity. Qed.

Lemma validate_temperatureValid t h s v :
  temperatureValid (validateSensorReadings t h s v)
  = isSensorReadingValid t MIN_TEMPERATURE MAX_TEMPERATURE TEMPERATURE_VALIDATION
    && checkSensorConsistency (temperatureReadings v) (float_to_int (t * (10 # 1))).
Proof. rewrite validateSensorReadings_value. reflexivity. Qed.

Lemma validate_humidityValid t h s v :
  humidityValid (validateSensorReadings t h s v)
  = isSensorReadingValid h MIN_HUMIDITY MAX_HUMIDITY HUMIDITY_VALIDATION
    && checkSensorConsistency (humidityReadings v) (float_to_int (h * (10 # 1))).
Proof. rewrite validateSensorReadings_value. reflexivity. Qed.

Lemma validate_soilMoistureValid t h s v :
  soilMoistureValid (validateSensorReadings t h s v)
  = soilRangeAndChange s v && checkSensorConsistency (soilMoistureReadings v) s.
Proof. rewrite validateSensorReadings_value. reflexivity. Qed.

(** Three stores in a row, each at the index the previous one left, fill the
    ring. *)
Lemma ring_three_stores (r : list Z) (k x : Z) :
  List.length r = 3%nat -> 0 <= k < SENSOR_CONSISTENCY_CHECKS ->
  let k1 := int_rem (int_add k 1) SENSOR_CONSISTENCY_CHECKS in
  let k2 := int_rem (int_add k1 1) SENSOR_CONSISTENCY_CHECKS in
  array_set (array_set (array_set r k x) k1 x) k2 x = [x; x; x].
Proof.
  intros Hlen Hk. unfold SENSOR_CONSISTENCY_CHECKS in *.
  destruct r as [|a [|b [|c [|d rest]]]]; try discriminate Hlen.
  assert (Hc : k = 0 \/ k = 1 \/ k = 2) by lia.
  destruct Hc as [-> | [-> | ->]]; reflexivity.
Qed.

Lemma checkSensorConsistency_steady x :
  smallSample x -> checkSensorConsistency [x; x; x] x = true.
Proof.
  intros Hx.
  rewrite checkSensorConsistency_average;
    [|split; [reflexivity | repeat (apply Forall_cons; [exact Hx|]); apply Forall_nil]
     | exact Hx].
  unfold rejectedByConsistency, averageOfHistory, SENSOR_CONSISTENCY_CHECKS,
    SENSOR_CONSISTENCY_THRESHOLD. cbn [fold_right].
  replace (x + (x + (x + 0))) with (x * 3) by lia.
  rewrite Z.quot_mul by lia. rewrite Z.sub_diag. reflexivity.
Qed.

Lemma soilRangeAndChange_repeat t h s v :
  0 <= s <= 100 ->
  soilRangeAndChange s (validateSensorReadings t h s v) = true.
Proof.
  intros Hs. unfold soilRangeAndChange. rewrite validate_lastSoilMoisture.
  unfold int_sub. rewrite Z.sub_diag.
  unfold isSensorReadingValid, SOIL_MOISTURE_VALIDATION, MIN_SOIL_MOISTURE,
    MAX_SOIL_MOISTURE, Qle_bool, inject_Z, MAX_SOIL_MOISTURE_CHANGE.
  cbn [negb Qnum Qden andb]. change (Arduino.abs (wrap_int 0)) with 0.
  cbn [Z.ltb Z.compare negb]. rewrite andb_true_r.
  apply andb_true_intro. split; apply Z.leb_le; lia.
Qed.

(** A steady sensor is believed at the fourth reading.  Whatever the history
    and the last readings are, once the same temperature, humidity and soil
    moisture (each within its range) have been presented three times, the
    fourth presentation is valid on all three channels: three stores fill
    every history, and the sudden-change check compares with the previous
    reading, accepted or not. *)
Theorem steady_reading_accepted :
  forall (v : SensorValidation) (t h : Q) (s : Z),
    List.length (temperatureReadings v) = 3%nat ->
    List.length (humidityReadings v) = 3%nat ->
    List.length (soilMoistureReadings v) = 3%nat ->
    0 <= readingIndex v < SENSOR_CONSISTENCY_CHECKS ->
    isSensorReadingValid t MIN_TEMPERATURE MAX_TEMPERATURE TEMPERATURE_VALIDATION
    = true ->
    isSensorReadingValid h MIN_HUMIDITY MAX_HUMIDITY HUMIDITY_VALIDATION = true ->
    0 <= s <= 100 ->
    smallSample (float_to_int (t * (10 # 1))) ->
    smallSample (float_to_int (h * (10 # 1))) ->
    let v3 := validateSensorReadings t h s
                (validateSensorReadings t h s (validateSensorReadings t h s v)) in
    let v4 := validateSensorReadings t h s v3 in
    temperatureValid v4 = true /\ humidityValid v4 = true
    /\ soilMoistureValid v4 = true.
Proof.
  intros v t h s LT LH LS Hk Rt Rh Hs St Sh. cbn zeta.
  assert (Ss : smallSample s) by (unfold smallSample; lia).
  rewrite validate_temperatureValid, validate_humidityValid,
    validate_soilMoistureValid.
  rewrite !validate_temperatureReadings, !validate_humidityReadings,
    !validate_soilMoistureReadings, !validate_readingIndex.
  rewrite (ring_three_stores _ _ _ LT Hk), (ring_three_stores _ _ _ LH Hk),
    (ring_three_stores _ _ _ LS Hk).
  rewrite !checkSensorConsistency_steady by assumption.
  rewrite Rt, Rh, (soilRangeAndChange_repeat t h s _ Hs).
  repeat split; reflexivity.
Qed.

Lemma steady_reading_accepted_witness :
  temperatureValid
    (validateSensorReadings (25 # 1) (50 # 1) 40
       (validateSensorReadings (25 # 1) (50 # 1) 40
          (validateSensorReadings (25 # 1) (50 # 1) 40
             (validateSensorReadings (25 # 1) (50 # 1) 40
                (sensorValidation bootedOK)))))
  = true.
Proof.
  refine (proj1 (steady_reading_accepted (sensorValidation bootedOK) (25 # 1) (50 # 1)
                   40 eq_refl eq_refl eq_refl _ eq_refl eq_refl _ _ _)).
  - vm_compute. split; [discriminate | reflexivity].
  - lia.
  - vm_compute. split; discriminate.
  - vm_compute. split; discriminate.
Defined.

(* ========================================================================= *)
(** ** The first readings after power-on *)
(* ========================================================================= *)

Lemma checkSensorConsistency_warmup x :
  16 <= x <= 536870912 ->
  checkSensorConsistency [0; 0; 0] x = false
  /\ checkSensorConsistency [x; 0; 0] x = false
  /\ checkSensorConsistency [x; x; 0] x = false.
Proof.
  intros Hx.
  assert (Sx : smallSample x) by (unfold smallSample; lia).
  assert (S0 : smallSample 0) by (unfold smallSample; lia).
  rewrite !checkSensorConsistency_average;
    try exact Sx;
    try (split; [reflexivity
                | repeat (apply Forall_cons; [assumption|]); apply Forall_nil]).
  unfold rejectedByConsistency, averageOfHistory, SENSOR_CONSISTENCY_CHECKS,
    SENSOR_CONSISTENCY_THRESHOLD. cbn [fold_right].
  rewrite !Z.quot_div_nonneg by lia.
  repeat split; apply negb_false_iff, Z.ltb_lt;
    rewrite Z.abs_eq; Z.div_mod_to_equations; lia.
Qed.

(** [readSensors] when the validator rejects the temperature. *)
Lemma readSensors_temperature_rejected t h a m :
  temperatureValid
    (validateSensorReadings t h (soilPercentOfRaw a) (sensorValidation m)) = false ->
  exec (readSensors (Some t) (Some h) a) m
  = {| systemState :=
         set_sensorErrors (int_incr (sensorErrors (systemState m))) (systemState m);
       sensorValidation :=
         validateSensorReadings t h (soilPercentOfRaw a) (sensorValidation m);
       currentTime := currentTime m;
       relayPin := relayPin m |}.
Proof.
  intros H. pose proof (readSensors_exec t h a m) as E. cbn zeta in E.
  rewrite E, H. reflexivity.
Qed.

(** The first three readings are dropped.  From a history of zeros with the
    index at 0, as at power-on, three readings at a temperature of 1.6
    degrees or more (the same each time; humidity and soil moisture as they
    come) are all rejected by the consistency check of the temperature:
    [readSensors] stores none of the three in [systemState], counts three
    sensor errors and leaves the temperature flagged invalid. *)
Theorem first_readings_dropped :
  forall (m : Machine) (t h1 h2 h3 : Q) (a1 a2 a3 : Z),
    temperatureReadings (sensorValidation m) = [0; 0; 0] ->
    readingIndex (sensorValidation m) = 0 ->
    16 <= float_to_int (t * (10 # 1)) <= 536870912 ->
    let m3 := exec (readSensors (Some t) (Some h1) a1 ;;
                    readSensors (Some t) (Some h2) a2 ;;
                    readSensors (Some t) (Some h3) a3) m in
    temperature (systemState m3) = temperature (systemState m)
    /\ humidity (systemState m3) = humidity (systemState m)
    /\ soilMoisturePercent (systemState m3) = soilMoisturePercent (systemState m)
    /\ sensorErrors (systemState m3)
       = int_incr (int_incr (int_incr (sensorErrors (systemState m))))
    /\ temperatureValid (sensorValidation m3) = false.
Proof.
  intros m t h1 h2 h3 a1 a2 a3 Hhist Hidx Hx. cbn zeta.
  destruct (checkSensorConsistency_warmup _ Hx) as (C1 & C2 & C3).
  set (x := float_to_int (t * (10 # 1))) in *.
  rewrite !exec_seq.
  (* first reading *)
  assert (V1 : temperatureValid
                 (validateSensorReadings t h1 (soilPercentOfRaw a1)
                    (sensorValidation m)) = false).
  { rewrite validate_temperatureValid, Hhist. fold x. rewrite C1.
    apply andb_false_r. }
  rewrite (readSensors_temperature_rejected t h1 a1 m V1).
  set (m1 := Build_Machine _ _ _ _).
  assert (H1 : temperatureReadings (sensorValidation m1) = [x; 0; 0]).
  { subst m1. cbn [sensorValidation]. rewrite validate_temperatureReadings.
    rewrite Hhist, Hidx. reflexivity. }
  assert (I1 : readingIndex (sensorValidation m1) = 1).
  { subst m1. cbn [sensorValidation]. rewrite validate_readingIndex, Hidx.
    reflexivity. }
  (* second reading *)
  assert (V2 : temperatureValid
                 (validateSensorReadings t h2 (soilPercentOfRaw a2)
                    (sensorValidation m1)) = false).
  { rewrite validate_temperatureValid, H1. fold x. rewrite C2.
    apply andb_false_r. }
  rewrite (readSensors_temperature_rejected t h2 a2 m1 V2).
  set (m2 := Build_Machine _ _ _ _).
  assert (H2 : temperatureReadings (sensorValidation m2) = [x; x; 0]).
  { subst m2. cbn [sensorValidation]. rewrite validate_temperatureReadings.
    rewrite H1, I1. reflexivity. }
  (* third reading *)
  assert (V3 : temperatureValid
                 (validateSensorReadings t h3 (soilPercentOfRaw a3)
                    (sensorValidation m2)) = false).
  { rewrite validate_temperatureValid, H2. fold x. rewrite C3.
    apply andb_false_r. }
  rewrite (readSensors_temperature_rejected t h3 a3 m2 V3).
  cbn [systemState sensorValidation].
  repeat split; try reflexivity. exact V3.
Qed.

Lemma first_readings_dropped_witness :
  soilMoisturePercent
    (systemState
       (exec (readSensors (Some (25 # 1)) (Some (50 # 1)) 2048 ;;
              readSensors (Some (25 # 1)) (Some (50 # 1)) 2048 ;;
              readSensors (Some (25 # 1)) (Some (50 # 1)) 2048) bootedOK))
  = soilMoisturePercent (systemState bootedOK).
Proof.
  refine (proj1 (proj2 (proj2
            (first_readings_dropped bootedOK (25 # 1) (50 # 1) (50 # 1) (50 # 1)
               2048 2048 2048 eq_refl eq_refl _)))).
  vm_compute. split; discriminate.
Defined.

(* ========================================================================= *)
(** ** The screens of the LCD 1602 *)
(* ========================================================================= *)

Lemma updateDisplay_next displayScreen :
  let next := snd (Display.updateDisplay displayScreen) in
  next = 0 \/ next = 1 \/ next = 2.
Proof.
  cbn zeta. unfold Display.updateDisplay.
  destruct displayScreen as [|[[p|p|]|[p|p|]|]|p]; cbn; auto.
Qed.

Lemma updateDisplay_no_wifi displayScreen :
  displayScreen = 0 \/ displayScreen = 1 \/ displayScreen = 2 ->
  fst (Display.updateDisplay displayScreen) <> Some Display.WiFiStatus.
Proof. intros [-> | [-> | ->]]; discriminate. Qed.

Lemma screens_no_wifi n displayScreen :
  displayScreen = 0 \/ displayScreen = 1 \/ displayScreen = 2 ->
  ~ In (Some Display.WiFiStatus) (Display.screens n displayScreen).
Proof.
  revert displayScreen. induction n as [|n IH]; intros ds Hds; cbn [Display.screens].
  - intros [].
  - intros [H|H].
    + now apply (updateDisplay_no_wifi ds Hds).
    + apply (IH _ (updateDisplay_next ds)). exact H.
Qed.

(** The WiFi screen is never reached.  [updateDisplay] leaves
    [displayScreen] at 0, 1 or 2 whatever it was, because it advances it
    modulo [DISPLAY_SCREEN_COUNT] = 3; so from power-on, and after the first
    call from any value, no call reaches [case 3] of the [switch], which is
    the one that calls [displayWiFiStatus()]. *)
Theorem wifi_screen_never_shown :
  forall (n : nat) (displayScreen : Z),
    0 <= snd (Display.updateDisplay displayScreen) < Display.DISPLAY_SCREEN_COUNT
    /\ ~ In (Some Display.WiFiStatus) (Display.screens n 0)
    /\ ~ In (Some Display.WiFiStatus)
            (Display.screens n (snd (Display.updateDisplay displayScreen))).
Proof.
  intros n ds. split; [|split].
  - unfold Display.DISPLAY_SCREEN_COUNT.
    destruct (updateDisplay_next ds) as [H | [H | H]]; cbn zeta in H; rewrite H; lia.
  - apply screens_no_wifi. auto.
  - apply screens_no_wifi, updateDisplay_next.
Qed.

(* ========================================================================= *)
(** ** The data log is a ring *)
(* ========================================================================= *)


Lemma store_lookup log index entry :
  (index < List.length log)%nat ->
  nth_error (Logging.store log index entry) index = Some entry.
Proof.
  revert index. induction log as [|e rest IH]; intros [|index] H; cbn in *;
    try lia; [reflexivity | apply IH; lia].
Qed.

Lemma store_lookup_other log index entry j :
  j <> index ->
  nth_error (Logging.store log index entry) j = nth_error log j.
Proof.
  revert index j. induction log as [|e rest IH]; intros [|index] [|j] H; cbn;
    try reflexivity; try congruence.
  apply IH. congruence.
Qed.

Lemma log_next_index k :
  0 <= k < Logging.LOG_BUFFER_SIZE ->
  int_rem (int_add k 1) Logging.LOG_BUFFER_SIZE = (k + 1) mod Logging.LOG_BUFFER_SIZE.
Proof.
  unfold Logging.LOG_BUFFER_SIZE, int_rem, int_add. intros H.
  rewrite (wrap_int_small (k + 1)) by (unfold int_range, INT_MIN, INT_MAX; lia).
  rewrite Z.rem_mod_nonneg by lia.
  apply wrap_int_small. unfold int_range, INT_MIN, INT_MAX.
  pose proof (Z.mod_pos_bound (k + 1) 50 ltac:(lia)). lia.
Qed.

(** An entry that is due is stored at [logIndex]. *)
Lemma logSystemData_due m l :
  Logging.logOK l ->
  Logging.LOG_INTERVAL <= ulong_sub (currentTime m) (Logging.lastLogTime l) ->
  Logging.logSystemData m l
  = {| Logging.dataLog :=
         Logging.store (Logging.dataLog l) (Z.to_nat (Logging.logIndex l))
                       (Logging.snapshot m);
       Logging.logIndex := (Logging.logIndex l + 1) mod Logging.LOG_BUFFER_SIZE;
       Logging.logBufferFull :=
         (Logging.logIndex l =? 49) || Logging.logBufferFull l;
       Logging.lastLogTime := currentTime m |}.
Proof.
  intros [Hlen Hidx] Hdue. unfold Logging.logSystemData.
  apply Z.leb_le in Hdue. rewrite Hdue.
  rewrite (log_next_index _ Hidx).
  unfold Logging.LOG_BUFFER_SIZE in *.
  destruct (Logging.logIndex l <? 0) eqn:E; bool_to_Z; [lia|].
  f_equal.
  destruct (Logging.logIndex l =? 49) eqn:E49; bool_to_Z.
  - apply Z.eqb_eq in E49. rewrite E49. reflexivity.
  - apply Z.eqb_neq in E49.
    rewrite Z.mod_small by lia.
    destruct (Logging.logIndex l + 1 =? 0) eqn:E0; [|reflexivity].
    apply Z.eqb_eq in E0. lia.
Qed.


(** Storing and finding a log entry.  When the buffer is well formed and
    [LOG_INTERVAL] has passed since the last entry, [logSystemData] stores the
    snapshot of the machine in the slot at [logIndex], leaves every other
    slot as it was and remembers the time; before [LOG_INTERVAL] has passed
    it changes nothing. *)
Theorem log_store_and_lookup :
  forall (m : Machine) (l : Logging.LogState),
    Logging.logOK l ->
    (Logging.LOG_INTERVAL <= ulong_sub (currentTime m) (Logging.lastLogTime l) ->
     nth_error (Logging.dataLog (Logging.logSystemData m l))
               (Z.to_nat (Logging.logIndex l))
     = Some (Logging.snapshot m)
     /\ (forall j, j <> Z.to_nat (Logging.logIndex l) ->
                   nth_error (Logging.dataLog (Logging.logSystemData m l)) j
                   = nth_error (Logging.dataLog l) j)
     /\ Logging.lastLogTime (Logging.logSystemData m l) = currentTime m)
    /\ (ulong_sub (currentTime m) (Logging.lastLogTime l) < Logging.LOG_INTERVAL ->
        Logging.logSystemData m l = l).
Proof.
  intros m l H. split.
  - intros Hd. rewrite (logSystemData_due m l H Hd). destruct H as [Hlen Hidx].
    cbn [Logging.dataLog Logging.lastLogTime]. split; [|split].
    + apply store_lookup. unfold Logging.LOG_BUFFER_SIZE in Hidx. lia.
    + intros j Hj. now apply store_lookup_other.
    + reflexivity.
  - intros Hd. unfold Logging.logSystemData.
    apply Z.leb_gt in Hd. now rewrite Hd.
Qed.

Lemma powerOnLog_OK : Logging.logOK Logging.powerOnLog.
Proof. split; [reflexivity | unfold Logging.LOG_BUFFER_SIZE; cbn; lia]. Qed.

Lemma irrigating_clock : currentTime irrigating = 300000.
Proof. vm_compute. reflexivity. Qed.

Lemma log_store_and_lookup_witness :
  nth_error (Logging.dataLog (Logging.logSystemData irrigating Logging.powerOnLog))
            0
  = Some (Logging.snapshot irrigating).
Proof.
  refine (proj1 (proj1 (log_store_and_lookup irrigating Logging.powerOnLog
                          powerOnLog_OK) _)).
  rewrite irrigating_clock. vm_compute. discriminate.
Defined.




(* ========================================================================= *)
(** ** The smoothed potentiometer of online.ino *)
(* ========================================================================= *)

Lemma array_store_Forall (P : Z -> Prop) readings index x :
  Forall P readings -> P x -> Forall P (array_store readings index x).
Proof.
  intros H Hx. revert index.
  induction H as [|r rest Hr Hrest IH]; intros [|index]; cbn; auto.
Qed.

Lemma array_set_Forall (P : Z -> Prop) readings index x :
  Forall P readings -> P x -> Forall P (array_set readings index x).
Proof.
  intros H Hx. unfold array_set.
  destruct (index <? 0); [exact H | now apply array_store_Forall].
Qed.

Lemma smoothing_average samples :
  List.length samples = 5%nat -> Forall adcRange samples ->
  adcRange
    (int_div (sumReadings (Z.to_nat OnlinePotentiometer.POTENTIOMETER_SMOOTHING_SAMPLES)
                          samples 0 0)
             OnlinePotentiometer.POTENTIOMETER_SMOOTHING_SAMPLES).
Proof.
  intros Hlen H.
  destruct samples as [|a [|b [|c [|d [|e [|f rest]]]]]]; try discriminate Hlen.
  inversion H as [|? ? Ha H1]; subst. inversion H1 as [|? ? Hb H2]; subst.
  inversion H2 as [|? ? Hc H3]; subst. inversion H3 as [|? ? Hd H4]; subst.
  inversion H4 as [|? ? He _]; subst.
  unfold adcRange, OnlinePotentiometer.POTENTIOMETER_SMOOTHING_SAMPLES in *.
  change (Z.to_nat 5) with 5%nat. cbn [sumReadings nth].
  unfold int_add, int_div.
  assert (Hr : forall z, - 2147483648 <= z <= 2147483647 -> wrap_int z = z)
    by (intros z Hz; apply wrap_int_small; exact Hz).
  rewrite (Hr (0 + a)) by lia. rewrite (Hr (0 + a + b)) by lia.
  rewrite (Hr (0 + a + b + c)) by lia. rewrite (Hr (0 + a + b + c + d)) by lia.
  rewrite (Hr (0 + a + b + c + d + e)) by lia.
  rewrite Z.quot_div_nonneg by lia.
  assert (0 <= (0 + a + b + c + d + e) / 5 <= 4095).
  { split; [apply Z.div_pos; lia|]. apply Z.div_le_upper_bound; lia. }
  rewrite Hr by lia. assumption.
Qed.

Lemma pot_next_index k :
  0 <= k < OnlinePotentiometer.POTENTIOMETER_SMOOTHING_SAMPLES ->
  0 <= int_rem (int_add k 1) OnlinePotentiometer.POTENTIOMETER_SMOOTHING_SAMPLES
  < OnlinePotentiometer.POTENTIOMETER_SMOOTHING_SAMPLES.
Proof.
  unfold OnlinePotentiometer.POTENTIOMETER_SMOOTHING_SAMPLES, int_rem, int_add.
  intros H.
  rewrite (wrap_int_small (k + 1)) by (unfold int_range, INT_MIN, INT_MAX; lia).
  rewrite Z.rem_mod_nonneg by lia.
  pose proof (Z.mod_pos_bound (k + 1) 5 ltac:(lia)).
  rewrite wrap_int_small by (unfold int_range, INT_MIN, INT_MAX; lia). lia.
Qed.

Lemma threshold_on_dial analog :
  adcRange analog ->
  POTENTIOMETER_MIN_THRESHOLD
  <= Arduino.map analog 0 4095 POTENTIOMETER_MIN_THRESHOLD POTENTIOMETER_MAX_THRESHOLD
  <= POTENTIOMETER_MAX_THRESHOLD.
Proof.
  intros H. rewrite (potentiometer_threshold analog H).
  unfold adcRange, POTENTIOMETER_MIN_THRESHOLD, POTENTIOMETER_MAX_THRESHOLD in *.
  assert (0 <= analog * 45 / 4095 <= 45).
  { split; [apply Z.div_pos; lia|]. apply Z.div_le_upper_bound; lia. }
  lia.
Qed.

(** The smoothed threshold stays on the dial and moves in steps.  If the
    potentiometer state is well formed (as [initializeControl] leaves it) and
    the ADC returns a 12-bit value, [handlePotentiometer] of online.ino keeps
    it well formed: five 12-bit samples, [potentiometerValue] 12-bit,
    [adjustedThreshold] between [POTENTIOMETER_MIN_THRESHOLD] and
    [POTENTIOMETER_MAX_THRESHOLD] and equal to [lastStableThreshold].  The
    threshold either stays or moves by at least [POTENTIOMETER_HYSTERESIS];
    [potentiometerValue] either stays or moves by more than
    [POTENTIOMETER_DEADBAND]. *)
Theorem smoothed_threshold_invariant :
  forall (currentTime rawValue : Z) (p : OnlinePotentiometer.PotState),
    OnlinePotentiometer.potOK p ->
    adcRange rawValue ->
    let p' := OnlinePotentiometer.handlePotentiometer currentTime rawValue p in
    OnlinePotentiometer.potOK p'
    /\ (OnlinePotentiometer.adjustedThreshold p'
        = OnlinePotentiometer.adjustedThreshold p
        \/ OnlinePotentiometer.POTENTIOMETER_HYSTERESIS
           <= Z.abs (OnlinePotentiometer.adjustedThreshold p'
                     - OnlinePotentiometer.adjustedThreshold p))
    /\ (OnlinePotentiometer.potentiometerValue p'
        = OnlinePotentiometer.potentiometerValue p
        \/ OnlinePotentiometer.POTENTIOMETER_DEADBAND
           < Z.abs (OnlinePotentiometer.potentiometerValue p'
                    - OnlinePotentiometer.potentiometerValue p)).
Proof.
  intros t raw [value threshold lastRead samples0 index stable changed] Hok Hraw.
  cbn zeta. unfold OnlinePotentiometer.handlePotentiometer.
  cbn [OnlinePotentiometer.potentiometerSamples OnlinePotentiometer.sampleIndex
       OnlinePotentiometer.potentiometerValue OnlinePotentiometer.adjustedThreshold
       OnlinePotentiometer.lastStableThreshold
       OnlinePotentiometer.lastPotentiometerRead].
  destruct (POTENTIOMETER_UPDATE_INTERVAL <=? _).
  2:{ split; [exact Hok|]. split; left; reflexivity. }
  destruct Hok as (Hlen & Hall & Hidx & Hval & Hthr & Hstable).
  cbn [OnlinePotentiometer.potentiometerSamples OnlinePotentiometer.sampleIndex
       OnlinePotentiometer.potentiometerValue OnlinePotentiometer.adjustedThreshold
       OnlinePotentiometer.lastStableThreshold] in *.
  subst stable.
  pose proof (array_set_length samples0 index raw) as Hlen'. rewrite Hlen in Hlen'.
  pose proof (array_set_Forall adcRange samples0 index raw Hall Hraw) as Hall'.
  generalize dependent (array_set samples0 index raw). intros samples Hlen' Hall'.
  pose proof (smoothing_average samples Hlen' Hall') as Hsm.
  generalize dependent
    (int_div (sumReadings (Z.to_nat OnlinePotentiometer.POTENTIOMETER_SMOOTHING_SAMPLES)
                          samples 0 0)
             OnlinePotentiometer.POTENTIOMETER_SMOOTHING_SAMPLES).
  intros smoothed Hsm.
  assert (Hdead :
    let value' := if OnlinePotentiometer.POTENTIOMETER_DEADBAND
                     <? Arduino.abs (int_sub smoothed value)
                  then smoothed else value in
    adcRange value'
    /\ (value' = value
        \/ OnlinePotentiometer.POTENTIOMETER_DEADBAND < Z.abs (value' - value))).
  { cbn zeta. destruct (_ <? _) eqn:E; [|split; [assumption | left; reflexivity]].
    split; [assumption | right].
    apply Z.ltb_lt in E. unfold adcRange in *. unfold int_sub in E.
    rewrite wrap_int_small in E by (unfold int_range, INT_MIN, INT_MAX; lia).
    rewrite Arduino_abs_small in E by (unfold INT_MIN, INT_MAX; lia).
    exact E. }
  cbn zeta in Hdead.
  generalize dependent
    (if OnlinePotentiometer.POTENTIOMETER_DEADBAND
        <? Arduino.abs (int_sub smoothed value)
     then smoothed else value).
  intros value' (Hval' & Hdead).
  pose proof (threshold_on_dial value' Hval') as Hnew.
  generalize dependent
    (Arduino.map value' 0 4095 POTENTIOMETER_MIN_THRESHOLD POTENTIOMETER_MAX_THRESHOLD).
  intros new Hnew.
  unfold POTENTIOMETER_MIN_THRESHOLD, POTENTIOMETER_MAX_THRESHOLD in *.
  assert (Habs : Arduino.abs (int_sub new threshold) = Z.abs (new - threshold)).
  { unfold int_sub.
    rewrite wrap_int_small by (unfold int_range, INT_MIN, INT_MAX; lia).
    apply Arduino_abs_small. unfold INT_MIN, INT_MAX. lia. }
  rewrite Habs.
  pose proof (pot_next_index index Hidx) as Hnext.
  destruct (OnlinePotentiometer.POTENTIOMETER_HYSTERESIS <=? _) eqn:E.
  - apply Z.leb_le in E.
    split; [|split; [right; exact E | exact Hdead]].
    unfold OnlinePotentiometer.potOK.
    cbn [OnlinePotentiometer.potentiometerSamples OnlinePotentiometer.sampleIndex
         OnlinePotentiometer.potentiometerValue OnlinePotentiometer.adjustedThreshold
         OnlinePotentiometer.lastStableThreshold].
    unfold POTENTIOMETER_MIN_THRESHOLD, POTENTIOMETER_MAX_THRESHOLD.
    repeat (split; [assumption|]). reflexivity.
  - split; [|split; [left; reflexivity | exact Hdead]].
    unfold OnlinePotentiometer.potOK.
    cbn [OnlinePotentiometer.potentiometerSamples OnlinePotentiometer.sampleIndex
         OnlinePotentiometer.potentiometerValue OnlinePotentiometer.adjustedThreshold
         OnlinePotentiometer.lastStableThreshold].
    unfold POTENTIOMETER_MIN_THRESHOLD, POTENTIOMETER_MAX_THRESHOLD.
    repeat (split; [assumption|]). reflexivity.
Qed.

Lemma initializeControl_OK currentTime initialReading :
  adcRange initialReading ->
  OnlinePotentiometer.potOK
    (OnlinePotentiometer.initializeControl currentTime initialReading).
Proof.
  intros H.
  unfold OnlinePotentiometer.potOK, OnlinePotentiometer.initializeControl.
  cbn [OnlinePotentiometer.potentiometerSamples OnlinePotentiometer.sampleIndex
       OnlinePotentiometer.potentiometerValue OnlinePotentiometer.adjustedThreshold
       OnlinePotentiometer.lastStableThreshold].
  unfold OnlinePotentiometer.POTENTIOMETER_SMOOTHING_SAMPLES,
    POTENTIOMETER_MIN_THRESHOLD, POTENTIOMETER_MAX_THRESHOLD, SOIL_MOISTURE_THRESHOLD.
  split; [reflexivity|].
  split; [repeat (apply Forall_cons; [exact H|]); apply Forall_nil|].
  unfold adcRange in *. lia.
Qed.

Lemma smoothed_threshold_invariant_witness :
  OnlinePotentiometer.potOK
    (OnlinePotentiometer.handlePotentiometer 100 4095
       (OnlinePotentiometer.initializeControl 0 2275)).
Proof.
  assert (H0 : adcRange 2275) by (unfold adcRange; lia).
  assert (H1 : adcRange 4095) by (unfold adcRange; lia).
  exact (proj1 (smoothed_threshold_invariant 100 4095 _
                  (initializeControl_OK 0 2275 H0) H1)).
Defined.

(* ========================================================================= *)
(** ** The two sketches side by side *)
(* ========================================================================= *)

Section Following.
Context {M V : Type} (view : M -> V).



End Following.




(** Everything [validateSensorReadings] of online.ino leaves in
    [sensorValidation]. *)
Lemma online_validateSensorReadings_value temperature humidity soilMoisture lightLevel v :
  Online.validateSensorReadings temperature humidity soilMoisture lightLevel v
  = {| Online.lastTemperature := temperature;
       Online.lastHumidity := humidity;
       Online.lastSoilMoisture := soilMoisture;
       Online.lastLightLevel := lightLevel;
       Online.temperatureReadings :=
         array_set (Online.temperatureReadings v) (Online.readingIndex v)
                   (float_to_int (temperature * (10 # 1)));
       Online.humidityReadings :=
         array_set (Online.humidityReadings v) (Online.readingIndex v)
                   (float_to_int (humidity * (10 # 1)));
       Online.soilMoistureReadings :=
         array_set (Online.soilMoistureReadings v) (Online.readingIndex v)
                   soilMoisture;
       Online.lightLevelReadings :=
         array_set (Online.lightLevelReadings v) (Online.readingIndex v) lightLevel;
       Online.readingIndex :=
         int_rem (int_add (Online.readingIndex v) 1) SENSOR_CONSISTENCY_CHECKS;
       Online.temperatureValid :=
         isSensorReadingValid temperature MIN_TEMPERATURE MAX_TEMPERATURE
                              TEMPERATURE_VALIDATION
         && checkSensorConsistency (Online.temperatureReadings v)
              (float_to_int (temperature * (10 # 1)));
       Online.humidityValid :=
         isSensorReadingValid humidity MIN_HUMIDITY MAX_HUMIDITY HUMIDITY_VALIDATION
         && checkSensorConsistency (Online.humidityReadings v)
              (float_to_int (humidity * (10 # 1)));
       Online.soilMoistureValid :=
         (isSensorReadingValid (inject_Z soilMoisture) MIN_SOIL_MOISTURE
                               MAX_SOIL_MOISTURE SOIL_MOISTURE_VALIDATION
          && negb (MAX_SOIL_MOISTURE_CHANGE
                   <? Arduino.abs (int_sub soilMoisture (Online.lastSoilMoisture v))))
         && checkSensorConsistency (Online.soilMoistureReadings v) soilMoisture;
       Online.lightLevelValid :=
         (isSensorReadingValid (inject_Z lightLevel) MIN_LIGHT_LEVEL
                               MAX_LIGHT_LEVEL LIGHT_VALIDATION
          && negb (MAX_LIGHT_CHANGE
                   <? Arduino.abs (int_sub lightLevel (Online.lastLightLevel v))))
         && checkSensorConsistency (Online.lightLevelReadings v) lightLevel;
       Online.disconnectCount := Online.disconnectCount v |}.
Proof.
  unfold Online.validateSensorReadings, CONSISTENCY_VALIDATION,
    SOIL_MOISTURE_VALIDATION, LIGHT_VALIDATION.
  cbn -[isSensorReadingValid checkSensorConsistency array_set
        int_rem int_add int_sub Arduino.abs float_to_int Qmult Z.ltb].
  destruct (isSensorReadingValid (inject_Z soilMoisture) _ _ true);
    [destruct (MAX_SOIL_MOISTURE_CHANGE <? _)|];
    (destruct (isSensorReadingValid (inject_Z lightLevel) _ _ true);
       [destruct (MAX_LIGHT_CHANGE <? _)|]);
    reflexivity.
Qed.

Lemma online_readSensors_exec t h a l m :
  exec (Online.readSensors (Some t) (Some h) a l) m
  = let v := Online.validateSensorReadings t h (Online.soilPercentOfRaw a)
               (snd (Online.lightOfAnalog l)) (Online.sensorValidation m) in
    let s := Online.set_lightLevelPercent (snd (Online.lightOfAnalog l))
               (Online.set_lightLevelRaw (fst (Online.lightOfAnalog l))
                  (Online.set_soilMoisturePercent (Online.soilPercentOfRaw a)
                     (Online.set_soilMoistureRaw a (Online.systemState m)))) in
    if Online.temperatureValid v && Online.humidityValid v
    then {| Online.systemState :=
              Online.set_sensorErrors 0
                (Online.set_humidity h (Online.set_temperature t s));
            Online.sensorValidation := Online.set_disconnectCount 0 v;
            Online.currentTime := Online.currentTime m;
            Online.relayPin := Online.relayPin m |}
    else {| Online.systemState :=
              Online.set_sensorErrors (int_incr (Online.sensorErrors s)) s;
            Online.sensorValidation := v;
            Online.currentTime := Online.currentTime m;
            Online.relayPin := Online.relayPin m |}.
Proof.
  unfold Online.readSensors. cmd_simpl.
  change (exec (Online.onValidation
                  (fun _ => Online.validateSensorReadings t h
                              (Online.soilPercentOfRaw a)
                              (snd (Online.lightOfAnalog l)))) m)
    with (Online.set_sensorValidation
            (Online.validateSensorReadings t h (Online.soilPercentOfRaw a)
               (snd (Online.lightOfAnalog l)) (Online.sensorValidation m)) m).
  cbn zeta.
  generalize (Online.validateSensorReadings t h (Online.soilPercentOfRaw a)
                (snd (Online.lightOfAnalog l)) (Online.sensorValidation m)).
  intros v. destruct m as [s0 v0 t0 r0].
  generalize (Online.soilPercentOfRaw a) (Online.lightOfAnalog l). intros sp lp.
  cbn -[int_incr]. destruct (Online.temperatureValid v && Online.humidityValid v);
    reflexivity.
Qed.

(** In online.ino the soil and light readings never count as sensor errors.
    Whatever the two analog inputs are, a pass of [readSensors] leaves the
    same error counter, the same disconnect counter, the same stored
    temperature and humidity and the same verdicts on them; so a soil probe
    that jumps or flaps cannot make the system unhealthy. *)
Theorem online_errors_ignore_soil_and_light :
  forall (dhtTemperature dhtHumidity : option Q) (soilAnalog ldrAnalog : Z)
         (soilAnalog' ldrAnalog' : Z) (m : Online.Machine),
    let m1 := exec (Online.readSensors dhtTemperature dhtHumidity
                                       soilAnalog ldrAnalog) m in
    let m2 := exec (Online.readSensors dhtTemperature dhtHumidity
                                       soilAnalog' ldrAnalog') m in
    Online.sensorErrors (Online.systemState m1)
    = Online.sensorErrors (Online.systemState m2)
    /\ Online.disconnectCount (Online.sensorValidation m1)
       = Online.disconnectCount (Online.sensorValidation m2)
    /\ Online.temperature (Online.systemState m1)
       = Online.temperature (Online.systemState m2)
    /\ Online.humidity (Online.systemState m1)
       = Online.humidity (Online.systemState m2)
    /\ Online.temperatureValid (Online.sensorValidation m1)
       = Online.temperatureValid (Online.sensorValidation m2)
    /\ Online.humidityValid (Online.sensorValidation m1)
       = Online.humidityValid (Online.sensorValidation m2).
Proof.
  intros [t|] [h|] a l a' l' m; cbn zeta;
    try (repeat split; reflexivity).
  rewrite !online_readSensors_exec. cbn zeta.
  rewrite !online_validateSensorReadings_value.
  cbn [Online.temperatureValid Online.humidityValid].
  destruct (_ && _); cbn -[int_incr]; repeat split; reflexivity.
Qed.
